(** * Schapiro structure experiments: trial orchestration and correlation
      accumulation

    A shallow embedding of [lake/schapiro_experiments.py] ([main] and
    [convert_sequence_to_images]).  The memory model, the datasets, the
    sequence generators and the data loaders are collaborators whose code is
    elsewhere; they are gathered in the record [collaborators].  Tensors of
    floating point numbers are idealised as lists of real numbers, so a value
    that is NaN in the program has no counterpart here; the places where this
    matters are marked. *)

From Stdlib Require Import Reals Lra ZArith List Lia Bool.
From stdpp Require Import base gmap strings list.
Import ListNotations.

Set Warnings "-register-all".

(** ** Python exceptions and results *)

Inductive py_error : Type :=
| AssertionError (msg : string)
| KeyError (key : string)
| IndexError
| UnboundLocalError (var : string)
| NameError (name : string)
| ZeroDivisionError
| ValueError
| TypeError
| RuntimeError (msg : string)
| CollaboratorError.

Inductive result (A : Type) : Type :=
| Ok (a : A)
| Raise (e : py_error).
Arguments Ok {A} a.
Arguments Raise {A} e.

Definition rbind {A B} (r : result A) (k : A → result B) : result B :=
  match r with
  | Ok a => k a
  | Raise e => Raise e
  end.

(** [[f(x) for x in l]] where [f] may raise: the first failure wins. *)
Fixpoint rmap {A B} (f : A → result B) (l : list A) : result (list B) :=
  match l with
  | [] => Ok []
  | x :: t => rbind (f x) (λ y, rbind (rmap f t) (λ ys, Ok (y :: ys)))
  end.

(** ** Python lists *)

(** [range(n)] *)
Definition range (n : Z) : list Z := map Z.of_nat (seq 0 (Z.to_nat n)).

(** Every [step]-th element, the first one after skipping [k]. *)
Fixpoint stride {A} (step k : nat) (l : list A) : list A :=
  match l with
  | [] => []
  | x :: t =>
      match k with
      | 0 => x :: stride step (step - 1) t
      | S k' => stride step k' t
      end
  end.

(** [l[start:stop:step]] for non-negative bounds and a positive step. *)
Definition py_slice {A} (start stop step : nat) (l : list A) : list A :=
  stride step 0 (drop start (take stop l)).

(** [l[i]] with Python's negative indices. *)
Definition py_get {A} (l : list A) (i : Z) : result A :=
  let n := Z.of_nat (length l) in
  let k := (if i <? 0 then i + n else i)%Z in
  if (k <? 0)%Z || (n <=? k)%Z then Raise IndexError
  else match l !! Z.to_nat k with
       | Some x => Ok x
       | None => Raise IndexError
       end.

(** ** Real-valued tensors *)

Definition vec := list R.
Definition matrix := list (list R).

Definition Rgtb (x y : R) : bool := if Rgt_dec x y then true else false.
Definition Reqb (x y : R) : bool := if Req_dec_T x y then true else false.

(** [sum(l)]: starts from 0 and adds from the left. *)
Definition py_sum (l : list R) : R := fold_left Rplus l 0%R.

(** [max(t)]: the first element that no later element exceeds. *)
Definition py_max (t : list R) : result R :=
  match t with
  | [] => Raise ValueError
  | x :: rest => Ok (fold_left (λ m y, if Rgtb y m then y else m) rest x)
  end.

(** [t.index(v)]: the first position holding a value equal to [v]. *)
Fixpoint py_index (t : list R) (v : R) : result nat :=
  match t with
  | [] => Raise ValueError
  | x :: rest => if Reqb x v then Ok 0
                 else rbind (py_index rest v) (λ i, Ok (S i))
  end.

Definition dot (x y : vec) : R := py_sum (zip_with Rmult x y).
Definition norm (x : vec) : R := sqrt (dot x x).
Definition np_mean (x : vec) : R := (py_sum x / INR (length x))%R.
Definition center (x : vec) : vec := map (λ v, v - np_mean x)%R x.
Definition scale_by (c : R) (x : vec) : vec := map (λ v, v / c)%R x.

(** [scipy.stats.pearsonr(x, y)[0]]: inputs of different length or shorter
    than 2 raise; otherwise the centred vectors are normalised, multiplied
    and the result clipped to [-1, 1].  For a constant input scipy returns
    NaN; here the division by a zero norm yields 0. *)
Definition pearsonr (x y : vec) : result R :=
  if negb (length x =? length y) then Raise ValueError
  else if length x <? 2 then Raise ValueError
  else
    let xm := center x in
    let ym := center y in
    let r := dot (scale_by (norm xm) xm) (scale_by (norm ym) ym) in
    Ok (Rmax (Rmin r 1) (-1)).

(** [[[pearsonr(a, b)[0] for a in flat] for b in flat]] *)
Definition correlation_matrix (flat : list vec) : result matrix :=
  rmap (λ b, rmap (λ a, pearsonr a b) flat) flat.

(** [M[i, j]] on a 2-D tensor. *)
Definition cell (M : matrix) (ij : Z * Z) : result R :=
  rbind (py_get M ij.1) (λ row, py_get row ij.2).

(** [sum([M[i, j] for (i, j) in cells]) / len(cells)] *)
Definition cells_mean (M : matrix) (cells : list (Z * Z)) : result R :=
  rbind (rmap (cell M) cells) (λ xs,
    if length cells =? 0 then Raise ZeroDivisionError
    else Ok (py_sum xs / INR (length cells))%R).

(** ** Data model *)

(** The model's output: nested dictionaries with tensors at the leaves.  A
    tensor is kept as [torch.flatten(_, start_dim=1)] presents it: one row of
    reals per batch element. *)
Inductive pyval : Type :=
| Tensor (rows : list vec)
| Dict (entries : list (string * pyval)).

Fixpoint assoc {V} (k : string) (entries : list (string * V)) : option V :=
  match entries with
  | [] => None
  | (k', v) :: rest => if String.eqb k k' then Some v else assoc k rest
  end.

(** [d[k]] for a name [k]: a dictionary without the key raises KeyError, a
    tensor indexed by a name raises IndexError. *)
Definition dict_get (d : pyval) (k : string) : result pyval :=
  match d with
  | Dict entries =>
      match assoc k entries with
      | Some v => Ok v
      | None => Raise (KeyError k)
      end
  | Tensor _ => Raise IndexError
  end.

(** [d[k1][k2]...] *)
Fixpoint dict_path (d : pyval) (path : list string) : result pyval :=
  match path with
  | [] => Ok d
  | k :: rest => rbind (dict_get d k) (λ v, dict_path v rest)
  end.

(** [torch.flatten(v, start_dim=1)] *)
Definition torch_flatten (v : pyval) : result (list vec) :=
  match v with
  | Tensor rows => Ok rows
  | Dict _ => Raise TypeError
  end.

(** The attributes of a sequence generator that [main] reads.  The generator
    classes live in [datasets.sequence_generator]; their objects are taken
    as given. *)
Record Generator : Type := {
  sequence : list (Z * Z);
  core_label_sequence : list (Z * Z);
  core_sequence : list (Z * Z);
  test_sequence : list (Z * Z);
  base_sequence : list (Z * Z);
  graph_sequences : list (list (Z * Z));
}.

Inductive Experiment : Type :=
| pairs_structure
| community_structure
| associative_inference.

(** The entries of the JSON configuration that drive the loops. *)
Record Config : Type := {
  seeds : Z;
  experiment_name : option string;
  test_components : list string;
  characters : nat;
  train_epochs : Z;
  late_response_steps : Z;
  early_response_step : Z;
  variation_training : bool;
  metrics : option (list (string * list string));
}.

(** Lines 56, 62-65: anything but the three known names becomes
    [pairs_structure]. *)
Definition experiment (cfg : Config) : Experiment :=
  match experiment_name cfg with
  | Some name =>
      if String.eqb name "community_structure" then community_structure
      else if String.eqb name "associative_inference" then associative_inference
      else pairs_structure
  | None => pairs_structure
  end.

Inductive mode : Type := Pretrain | Study | Recall | Validate.

Inductive element : Type := first | second | both.

(** What the run does, in order.  [EvModel] is a call [model(..., mode=m)]
    inside the study loop, with the autograd switch at that moment and the
    loop's [step]; [EvMatrix] and [EvContrast] are the two appends of lines
    356 and 374. *)
Inductive event : Type :=
| EvGenerator (id : nat)
| EvEpoch (stm_epoch : Z) (study_id recall_id : nat)
| EvTrial (idx : nat)
| EvReset
| EvModel (m : mode) (grad : bool) (step : Z)
| EvMatrix (component : string) (step : Z) (pearson_r : matrix)
| EvContrast (component : string) (step : Z) (tmp_pearson_test : list R)
| EvCompare (prefix : string)
| EvWrite (file : string) (rows : list (list (Z * Z)))
| EvExport (file : string) (table : list (list R)).

(** What an epoch fixes for its trials: the study generator, its core
    labels and their flattened reference patterns (lines 234-237). *)
Record epoch_ctx : Type := {
  sequence_study : Generator;
  labels_study : list (Z * Z);
  main_pairs_flat : list vec;
}.

(** ** Collaborators *)

Record collaborators : Type := {
  ModelState : Type;
  stimuli : Type;
  image : Type;
  (** lines 93-184: the model of the [k]-th seed after pretraining or after
      loading the checkpoint *)
  pretrained_model : Z → ModelState;
  (** [model.reset()] *)
  model_reset : ModelState → ModelState;
  (** [model(data, target, mode=..., ec_inputs=..., paired_inputs=...)]:
      the new model state and the second component of the returned pair *)
  model_forward : mode → bool → stimuli → ModelState → ModelState * pyval;
  (** lines 246-294: the study and recall stimuli of one trial, built from
      the two batches with the datasets and two validation passes *)
  prepare_stimuli : ModelState → list (Z * Z) → list (Z * Z) →
                    result (ModelState * (stimuli * stimuli));
  (** the [n]-th generator object constructed in the run *)
  make_generator : Experiment → nat → Generator;
  (** [torch.utils.data.DataLoader(_, batch_size=batch_size, shuffle=False)] *)
  DataLoader : list (Z * Z) → list (list (Z * Z));
  (** [OmniglotAlphabet] datasets: [alphabet[i]] is an image and its label *)
  alphabet : Z → result (image * Z);
  alphabet_recall : Z → result (image * Z);
  (** [torch.cat((x, y), 2)] on two images *)
  cat_images : image → image → image;
  flatten_image : image → vec;
  (** [torch.nn.CosineSimilarity(dim=0, eps=1e-6)] on two flat patterns *)
  cos : vec → vec → R;
}.

(** ** [convert_sequence_to_images] (lines 509-521) *)

Section Images.
Context (W : collaborators).

Definition dataset : Type := Z → result (image W * Z).

(** [torch.stack(l, 0)] *)
Definition torch_stack {A} (l : list A) : result (list A) :=
  match l with
  | [] => Raise (RuntimeError "stack expects a non-empty TensorList")
  | _ => Ok l
  end.

(** [main_labels.index(value)] on pairs of labels *)
Fixpoint label_index (main_labels : list (Z * Z)) (value : Z * Z) : result nat :=
  match main_labels with
  | [] => Raise ValueError
  | x :: rest =>
      if (x.1 =? value.1)%Z && (x.2 =? value.2)%Z then Ok 0
      else rbind (label_index rest value) (λ i, Ok (S i))
  end.

Definition item_image (d : dataset) (i : Z) : result (image W) :=
  rbind (d i) (λ p, Ok p.1).
Definition item_label (d : dataset) (i : Z) : result Z :=
  rbind (d i) (λ p, Ok p.2).

Definition convert_sequence_to_images (alphabet : dataset)
    (sequence : list (Z * Z)) (main_labels : list (Z * Z))
    (el : element) (second_alphabet : option dataset)
  : result (list (image W) * list nat) :=
  rbind
    (match el with
     | both =>
         rmap (λ a : Z * Z,
                 match second_alphabet with
                 | None => Raise TypeError
                 | Some d2 =>
                     rbind (item_image d2 a.1) (λ x,
                     rbind (item_image alphabet a.2) (λ y,
                     Ok (cat_images W x y)))
                 end) sequence
     | first => rmap (λ a : Z * Z, item_image alphabet a.1) sequence
     | second => rmap (λ a : Z * Z, item_image alphabet a.2) sequence
     end) (λ pairs_images,
  rbind (rmap (λ a : Z * Z,
                 rbind (item_label alphabet a.1) (λ l1,
                 rbind (item_label alphabet a.2) (λ l2, Ok (l1, l2))))
              sequence) (λ labels,
  rbind (rmap (label_index main_labels) labels) (λ labels,
  rbind (torch_stack pairs_images) (λ pairs_images,
  Ok (pairs_images, labels))))).
End Images.

(** * The plotters of [Visualisations.py] *)

(** What a plotter finds in its directory: the rows of the first file whose
    name matches the pattern, read as floats ([os.listdir], [re.match],
    [response[0]], [csv.reader], [float]). *)
Definition directory : Type := string → result (list (list R)).

(** [np.stack(data, axis=0)] on a list of rows *)
Definition np_stack (data : list (list R)) : result matrix :=
  match data with
  | [] => Raise ValueError
  | row :: rest =>
      if forallb (λ r, length r =? length row) rest then Ok data
      else Raise ValueError
  end.

(** [data[:, k]] on a stacked array *)
Definition column (data : matrix) (k : nat) : result (list R) :=
  rmap (λ row : list R,
          match row !! k with
          | Some v => Ok v
          | None => Raise IndexError
          end) data.

(** [string.ascii_uppercase] *)
Definition ascii_uppercase : list string :=
  ["A"; "B"; "C"; "D"; "E"; "F"; "G"; "H"; "I"; "J"; "K"; "L"; "M";
   "N"; "O"; "P"; "Q"; "R"; "S"; "T"; "U"; "V"; "W"; "X"; "Y"; "Z"].

(** [needle in hay] on strings *)
Fixpoint contains (needle hay : string) : bool :=
  String.prefix needle hay ||
  match hay with
  | EmptyString => false
  | String _ rest => contains needle rest
  end.

(** [HeatmapPlotter._load_predictions_pearson] (lines 18-27) *)
Definition heatmap_load_predictions_pearson (listing : directory)
    (component : string) : result matrix :=
  rbind (listing (component +:+ ".csv$")) np_stack.

(** [HeatmapPlotter.create_heatmap] (lines 29-40): the data and the tick
    labels handed to [sns.heatmap]. *)
Definition create_heatmap (listing : directory) (component : string)
  : result (matrix * list string) :=
  rbind (heatmap_load_predictions_pearson listing component) (λ data,
  rbind (rmap (λ a : Z, py_get ascii_uppercase a) (range (Z.of_nat (length data))))
        (λ labels,
  Ok (data, labels))).

(** [BarPlotter._load_predictions_pearson] (lines 49-58) *)
Definition bar_load_predictions_pearson (listing : directory)
    (component : string) : result matrix :=
  rbind (listing (component +:+ ".*?csv$")) np_stack.

Definition newline : string := String (Ascii.ascii_of_nat 10) EmptyString.

(** Lines 64-72: three tests in a row, the last one that holds wins; the
    name stays unbound when none holds. *)
Definition bar_labels (path : string) : option (list string) :=
  let labels := None in
  let labels :=
    if contains "pairs_structure" path
    then Some ["Early " +:+ newline +:+ "pair"; "Early " +:+ newline +:+ "shuffled";
               "Late " +:+ newline +:+ "pair"; "Late " +:+ newline +:+ "shuffled"]
    else labels in
  let labels :=
    if contains "associative_inference" path
    then Some ["Early " +:+ newline +:+ "transitive"; "Early " +:+ newline +:+ "direct";
               "Late " +:+ newline +:+ "transitive"; "Late " +:+ newline +:+ "direct"]
    else labels in
  if contains "community_structure" path
  then Some ["Early " +:+ newline +:+ "within internal";
             "Early " +:+ newline +:+ "within boundary";
             "Early " +:+ newline +:+ "across boundary";
             "Early " +:+ newline +:+ "across other";
             "Late " +:+ newline +:+ "within internal";
             "Late " +:+ newline +:+ "within boundary";
             "Late " +:+ newline +:+ "across boundary";
             "Late " +:+ newline +:+ "across other"]
  else labels.

(** Lines 110-113 *)
Definition bar_colors (path : string) : list string :=
  if contains "community_structure" path
  then ["#B995C2"; "#EAB264"; "#C1E0EE"; "#87AD57";
        "#4F2C8A"; "#D85925"; "#364BAC"; "#3A7529"]
  else ["#DBAE81"; "#B29EC1"; "#D17A3D"; "#685CA2"].

(** [pd.DataFrame({'A': data[:, k], 'B': labels[i]})]: the column is read
    first, then the label; the label is repeated on every row. *)
Definition label_frame (data : matrix) (k : nat) (labels : option (list string))
    (i : Z) : result (list (R * string)) :=
  rbind (column data k) (λ values,
  rbind (match labels with
         | Some l => Ok l
         | None => Raise (UnboundLocalError "labels")
         end) (λ l,
  rbind (py_get l i) (λ label,
  Ok (map (λ v : R, (v, label)) values)))).

(** [frame['C'] = a] *)
Definition set_component (a : string) (frame : list (R * string))
  : list (R * string * string) :=
  map (λ row : R * string, (row, a)) frame.

(** Lines 75-106: the body of the loop over the components, which yields
    [tmp_df_ini] and [tmp_df_shu]. *)
Definition bar_component (listing : directory) (path : string)
    (labels : option (list string)) (a : string)
  : result (list (R * string * string) * list (R * string * string)) :=
  rbind (bar_load_predictions_pearson listing ("pearson_early_test_" +:+ a))
        (λ data_early,
  rbind (label_frame data_early 0 labels 0) (λ tmp_df_A,
  rbind (label_frame data_early 1 labels 1) (λ tmp_df_B,
  let tmp_df_ini := tmp_df_A ++ tmp_df_B in
  rbind (if contains "community_structure" path
         then rbind (label_frame data_early 2 labels 2) (λ tmp_df_C,
              rbind (label_frame data_early 3 labels 3) (λ tmp_df_D,
              Ok (tmp_df_A ++ tmp_df_B ++ tmp_df_C ++ tmp_df_D)))
         else Ok tmp_df_ini) (λ tmp_df_ini,
  let tmp_df_ini := set_component a tmp_df_ini in
  rbind (bar_load_predictions_pearson listing ("pearson_late_test_" +:+ a))
        (λ data_late,
  rbind (label_frame data_late 0 labels 2) (λ tmp_df_A,
  rbind (label_frame data_late 1 labels 3) (λ tmp_df_B,
  let tmp_df_shu := tmp_df_A ++ tmp_df_B in
  rbind (if contains "community_structure" path
         then rbind (label_frame data_late 0 labels 4) (λ tmp_df_A,
              rbind (label_frame data_late 1 labels 5) (λ tmp_df_B,
              rbind (label_frame data_late 2 labels 6) (λ tmp_df_C,
              rbind (label_frame data_late 3 labels 7) (λ tmp_df_D,
              Ok (tmp_df_A ++ tmp_df_B ++ tmp_df_C ++ tmp_df_D)))))
         else Ok tmp_df_shu) (λ tmp_df_shu,
  let tmp_df_shu := set_component a tmp_df_shu in
  Ok (tmp_df_ini, tmp_df_shu))))))))).

(** Lines 74-108: [df = pd.concat([df, tmp_df_ini, tmp_df_shu])] for each
    component in turn. *)
Fixpoint bar_loop (listing : directory) (path : string)
    (labels : option (list string)) (components : list string)
    (df : list (R * string * string)) : result (list (R * string * string)) :=
  match components with
  | [] => Ok df
  | a :: rest =>
      rbind (bar_component listing path labels a) (λ frames,
      bar_loop listing path labels rest (df ++ frames.1 ++ frames.2))
  end.

(** [BarPlotter.create_bar] (lines 60-124): the frame and the palette
    handed to [sns.barplot]. *)
Definition create_bar (listing : directory) (path : string)
    (components : list string)
  : result (list (R * string * string) * list string) :=
  let df := [] in
  let labels := bar_labels path in
  rbind (bar_loop listing path labels components df) (λ df,
  Ok (df, bar_colors path)).

(** The rows of a plot whose column [k] of the early table carries the
    [k]-th label and column [k] of the late table the label [groups + k]. *)
Definition bar_rows (labels : list string) (groups : nat) (offset : nat)
    (a : string) (data : matrix) : list (R * string * string) :=
  concat (map (λ k, map (λ row : list R,
                           (nth k row 0%R, nth (offset + k) labels ""%string, a))
                        data)
              (seq 0 groups)).

(** * The one-shot experiment of [oneshot_cls.py] *)

(** What [main] of [oneshot_cls.py] calls: the CLS module, its checkpoints
    and the three data loaders. *)
Record cls : Type := {
  Net : Type;
  Batch : Type;
  Checkpoint : Type;
  (** [CLS(image_shape, config, device=device, writer=writer).to(device)] *)
  new_model : Net;
  (** [model(data, target, mode=m)] with the module's training flag and the
      autograd switch of the moment *)
  forward : mode → bool → bool → Batch → Net → Net;
  state_dict : Net → Checkpoint;
  load_state_dict : Checkpoint → Net → Net;
  reset : Net → Net;
  (** the batches of the background set in one pass (shuffle=True) *)
  background_loader : Z → list Batch;
  study_loader : list Batch;
  recall_loader : list Batch;
  (** [os.path.join(summary_dir, 'pretrained_model_' + str(epoch) + '.pt')] *)
  model_file : Z → string;
}.

Record oneshot_config : Type := {
  pretrained_model_path : option string;
  pretrain_epochs : Z;
  study_steps : Z;
}.

(** [range(a, b)] *)
Definition range_from (a b : Z) : list Z := map (Z.add a) (range (b - a)).

Section Oneshot.
Context (C : cls) (ocfg : oneshot_config).

Inductive oneshot_event : Type :=
| OsPretrain (epoch : Z) (batch_idx : nat) (training grad : bool)
| OsSave (path : string)
| OsLoad (path : string) (checkpoint : Checkpoint C)
| OsReset
| OsStudy (idx : nat) (step : Z) (training grad : bool)
| OsRecall (idx : nat) (training grad : bool).

(** The variables of [main], the checkpoint files ([torch.save] writes
    them, [torch.load] reads them; no other file is kept here) and what the
    run did so far. *)
Record oneshot_state : Type := {
  os_model : Net C;
  os_training : bool;
  os_grad : bool;
  os_epoch : option Z;
  os_files : gmap string (Checkpoint C);
  os_log : list oneshot_event;
}.

Definition os_set_model (v : Net C) (s : oneshot_state) : oneshot_state :=
  {| os_model := v; os_training := os_training s; os_grad := os_grad s;
     os_epoch := os_epoch s; os_files := os_files s;
     os_log := os_log s |}.
Definition os_set_training (v : bool) (s : oneshot_state) : oneshot_state :=
  {| os_model := os_model s; os_training := v; os_grad := os_grad s;
     os_epoch := os_epoch s; os_files := os_files s;
     os_log := os_log s |}.
Definition os_set_grad (v : bool) (s : oneshot_state) : oneshot_state :=
  {| os_model := os_model s; os_training := os_training s; os_grad := v;
     os_epoch := os_epoch s; os_files := os_files s;
     os_log := os_log s |}.
Definition os_set_epoch (v : option Z) (s : oneshot_state) : oneshot_state :=
  {| os_model := os_model s; os_training := os_training s; os_grad := os_grad s;
     os_epoch := v; os_files := os_files s;
     os_log := os_log s |}.
Definition os_set_files (v : gmap string (Checkpoint C)) (s : oneshot_state)
  : oneshot_state :=
  {| os_model := os_model s; os_training := os_training s; os_grad := os_grad s;
     os_epoch := os_epoch s; os_files := v;
     os_log := os_log s |}.
Definition os_record (e : oneshot_event) (s : oneshot_state) : oneshot_state :=
  {| os_model := os_model s; os_training := os_training s; os_grad := os_grad s;
     os_epoch := os_epoch s; os_files := os_files s;
     os_log := os_log s ++ [e] |}.

(** The state [main] starts in, with the files already on disk; autograd is
    on. *)
Definition oneshot_initial (files : gmap string (Checkpoint C)) : oneshot_state :=
  {| os_model := new_model C; os_training := true; os_grad := true;
     os_epoch := None; os_files := files; os_log := [] |}.

Definition Run (A : Type) : Type := oneshot_state → oneshot_state * result A.

Definition os_bind {A B} (m : Run A) (k : A → Run B) : Run B :=
  λ s, match m s with
       | (s', Ok a) => k a s'
       | (s', Raise e) => (s', Raise e)
       end.
Definition os_ret {A} (a : A) : Run A := λ s, (s, Ok a).
Definition os_do (f : oneshot_state → oneshot_state) : Run unit :=
  λ s, (f s, Ok tt).
Definition os_raise {A} (e : py_error) : Run A := λ s, (s, Raise e).

Fixpoint os_for {A} (l : list A) (body : A → Run unit) : Run unit :=
  match l with
  | [] => os_ret tt
  | x :: t => os_bind (body x) (λ _, os_for t body)
  end.

(** [model(data, ..., mode=m)] *)
Definition os_call (m : mode) (data : Batch C) (e : bool → bool → oneshot_event)
  : Run unit :=
  os_do (λ s, os_record (e (os_training s) (os_grad s))
                (os_set_model (forward C m (os_training s) (os_grad s) data (os_model s))
                   s)).

(** [with torch.no_grad(): ...] *)
Definition os_no_grad {A} (m : Run A) : Run A :=
  λ s, let g := os_grad s in
       match m (os_set_grad false s) with
       | (s', r) => (os_set_grad g s', r)
       end.

(** Lines 66-78: one pass over the background set *)
Definition pretrain_epoch (epoch : Z) : Run unit :=
  os_bind (os_do (os_set_epoch (Some epoch))) (λ _,
  os_bind (os_do (os_set_training true)) (λ _,
  os_for (imap (λ batch_idx data, (batch_idx, data)) (background_loader C epoch))
    (λ p, os_call Pretrain p.2 (OsPretrain epoch p.1)))).

(** Lines 57-83: the pretraining, which yields the new
    [pretrained_model_path] *)
Definition pretraining : Run string :=
  os_bind (os_do (λ s, os_set_training true (os_set_model (new_model C) s))) (λ _,
  os_bind (os_for (range_from 1 (pretrain_epochs ocfg + 1)) pretrain_epoch) (λ _,
  λ s, match os_epoch s with
       | None => (s, Raise (UnboundLocalError "epoch"))
       | Some epoch =>
           let path := model_file C epoch in
           (os_record (OsSave path)
              (os_set_files (<[path := state_dict C (os_model s)]> (os_files s)) s),
            Ok path)
       end)).

(** Lines 108-122: reset to the saved model and study *)
Definition oneshot_study (path : string) (idx : nat) (study : Batch C) : Run unit :=
  os_bind (λ s, match os_files s !! path with
                | None => (s, Raise CollaboratorError)
                | Some checkpoint =>
                    (os_record (OsLoad path checkpoint)
                       (os_set_model (load_state_dict C checkpoint (os_model s)) s),
                     Ok tt)
                end) (λ _,
  os_bind (os_do (λ s, os_record OsReset (os_set_model (reset C (os_model s)) s))) (λ _,
  os_bind (os_do (os_set_training true)) (λ _,
  os_for (range (study_steps ocfg)) (λ step, os_call Study study (OsStudy idx step))))).

(** Lines 132-134: the recall call.  The metrics and the image summaries
    that follow it in the same block (lines 136-165) belong to collaborators
    and are left out: they do not touch the model or the checkpoints, and
    the files they write are not part of [os_files]. *)
Definition oneshot_recall (idx : nat) (recall : Batch C) : Run unit :=
  os_bind (os_do (os_set_training false)) (λ _,
  os_no_grad (os_call Recall recall (OsRecall idx))).

(** Lines 108-163 *)
Definition oneshot_trial (path : string) (p : nat * (Batch C * Batch C))
  : Run unit :=
  os_bind (oneshot_study path p.1 p.2.1) (λ _, oneshot_recall p.1 p.2.2).

(** Lines 55-168 *)
Definition oneshot_main : Run unit :=
  os_bind (match pretrained_model_path ocfg with
           | Some path => if String.eqb path "" then pretraining else os_ret path
           | None => pretraining
           end) (λ pretrained_model_path,
  os_bind (if length (study_loader C) =? length (recall_loader C)
           then os_ret tt else os_raise (AssertionError "")) (λ _,
  os_bind (os_do (λ s, os_set_training true (os_set_model (new_model C) s))) (λ _,
  os_for (imap (λ idx b, (idx, b)) (zip (study_loader C) (recall_loader C)))
    (oneshot_trial pretrained_model_path)))).

(** The model after the passes over the background set. *)
Definition pretrain_pass (net : Net C) (epoch : Z) : Net C :=
  fold_left (λ n data, forward C Pretrain true true data n)
    (background_loader C epoch) net.

Definition pretrained (epochs : list Z) : Net C :=
  fold_left pretrain_pass epochs (new_model C).

(** What one trial does. *)
Definition trial_events (path : string) (checkpoint : Checkpoint C) (idx : nat)
  : list oneshot_event :=
  [OsLoad path checkpoint; OsReset] ++
  map (λ step, OsStudy idx step true true) (range (study_steps ocfg)) ++
  [OsRecall idx false false].

Definition is_trial_event (e : oneshot_event) : bool :=
  match e with
  | OsLoad _ _ | OsReset | OsStudy _ _ _ _ | OsRecall _ _ _ => true
  | _ => false
  end.

End Oneshot.

(** * The model of a seed ([schapiro_experiments.py], lines 92-184) *)

(** Lines 24-29 *)
Definition VAL_EVERY : nat := 20.
Definition SAVE_EVERY : Z := 1.
Definition MAX_VAL_STEPS : Z := 100.
Definition MAX_PRETRAIN_STEPS : Z := -1.

(** What the set-up of the model calls. *)
Record pretrainer : Type := {
  LtmNet : Type;
  LtmBatch : Type;
  (** [CLS(image_shape, config, ...).to(device)] in the [k]-th seed *)
  new_cls : Z → LtmNet;
  (** lines 104-115: the latest file [pretrained_model_*] of the directory,
      its entries that start with [ltm], loaded into the model *)
  load_latest_ltm : string → LtmNet → result LtmNet;
  (** [model(data, labels=..., mode=m)] with the autograd switch of the
      moment *)
  ltm_forward : mode → bool → LtmBatch → LtmNet → LtmNet;
  (** the batches of [train_loader] in a pass (seed, epoch) and those of
      [val_loader] in a validation (seed, epoch, batch index); both loaders
      shuffle *)
  train_batches : Z → Z → list LtmBatch;
  val_batches : Z → Z → nat → list LtmBatch;
  (** [utils.get_summary_dir(..., main_folder=False, seed=str(seed))] *)
  seed_summary_dir : Z → string;
}.

Inductive setup_event : Type :=
| SuLoad (dir : string)
| SuTrain (epoch : Z) (batch_idx : nat) (grad : bool)
| SuValidate (epoch : Z) (batch_idx batch_idx_val : nat) (grad : bool)
| SuSave (dir : string) (epoch : Z).

(** [for i, x in enumerate(l): if stop(i): break; body(i, x)], from index
    [i] on *)
Fixpoint for_enumerate_break {St A} (stop : nat → bool) (body : nat → A → St → St)
    (i : nat) (l : list A) (s : St) : St :=
  match l with
  | [] => s
  | x :: t =>
      if stop i then s
      else for_enumerate_break stop body (S i) t (body i x s)
  end.

Section Setup.
Context (P : pretrainer).

Record setup_state : Type := {
  su_model : LtmNet P;
  su_grad : bool;
  su_path : option string;
  su_log : list setup_event;
}.

Definition su_call (m : mode) (e : bool → setup_event) (data : LtmBatch P)
    (s : setup_state) : setup_state :=
  {| su_model := ltm_forward P m (su_grad s) data (su_model s);
     su_grad := su_grad s; su_path := su_path s;
     su_log := su_log s ++ [e (su_grad s)] |}.

Definition su_set_grad (g : bool) (s : setup_state) : setup_state :=
  {| su_model := su_model s; su_grad := g; su_path := su_path s;
     su_log := su_log s |}.

(** Lines 156-178: a validation pass under [torch.no_grad()] *)
Definition validation (k epoch : Z) (batch_idx : nat) (s : setup_state)
  : setup_state :=
  let g := su_grad s in
  su_set_grad g
    (for_enumerate_break (λ batch_idx_val, (Z.of_nat batch_idx_val >=? MAX_VAL_STEPS)%Z)
       (λ batch_idx_val val_data,
          su_call Validate (SuValidate epoch batch_idx batch_idx_val) val_data)
       0 (val_batches P k epoch batch_idx) (su_set_grad false s)).

(** Lines 137-178: one batch of the training pass *)
Definition train_batch (k epoch : Z) (len_train_loader : nat) (batch_idx : nat)
    (data : LtmBatch P) (s : setup_state) : setup_state :=
  let s := su_call Pretrain (SuTrain epoch batch_idx) data s in
  if (batch_idx mod VAL_EVERY =? 0) || (Z.of_nat batch_idx =? Z.of_nat len_train_loader - 1)%Z
  then validation k epoch batch_idx s
  else s.

(** Lines 135-184: one epoch of the pretraining *)
Definition train_epoch (k : Z) (s : setup_state) (epoch : Z) : setup_state :=
  let train_loader := train_batches P k epoch in
  let s :=
    for_enumerate_break
      (λ batch_idx, (0 <? MAX_PRETRAIN_STEPS)%Z
                    && (MAX_PRETRAIN_STEPS <? Z.of_nat batch_idx)%Z)
      (train_batch k epoch (length train_loader)) 0 train_loader s in
  let s :=
    if (epoch mod SAVE_EVERY =? 0)%Z
    then {| su_model := su_model s; su_grad := su_grad s; su_path := su_path s;
            su_log := su_log s ++ [SuSave (seed_summary_dir P k) epoch] |}
    else s in
  {| su_model := su_model s; su_grad := su_grad s;
     su_path := Some (seed_summary_dir P k); su_log := su_log s |}.

(** Lines 100-184: the model of the [k]-th seed, loaded or pretrained *)
Definition setup_model (pretrain_epochs : Z) (k : Z) (s : setup_state)
  : result setup_state :=
  let pretrain :=
    let s := {| su_model := new_cls P k; su_grad := su_grad s;
                su_path := su_path s; su_log := su_log s |} in
    Ok (fold_left (train_epoch k) (range_from 1 (pretrain_epochs + 1)) s) in
  match su_path s with
  | Some pretrained_model_path =>
      if String.eqb pretrained_model_path "" then pretrain
      else
        rbind (load_latest_ltm P pretrained_model_path (new_cls P k)) (λ model,
        Ok {| su_model := model; su_grad := su_grad s; su_path := su_path s;
              su_log := su_log s ++ [SuLoad pretrained_model_path] |})
  | None => pretrain
  end.

(** What an epoch of the pretraining does: every batch is trained on, a
    validation of at most [MAX_VAL_STEPS] batches follows every
    [VAL_EVERY]-th batch and the last one, and a checkpoint is saved. *)
Definition epoch_schedule (k epoch : Z) : list setup_event :=
  let train_loader := train_batches P k epoch in
  concat (imap (λ batch_idx _,
                  SuTrain epoch batch_idx true ::
                  (if (batch_idx mod 20 =? 0) || (S batch_idx =? length train_loader)
                   then imap (λ batch_idx_val _,
                                SuValidate epoch batch_idx batch_idx_val false)
                          (take 100 (val_batches P k epoch batch_idx))
                   else []))
            train_loader) ++
  [SuSave (seed_summary_dir P k) epoch].

End Setup.

(** * A small world to run the program in *)

(** Two items, two pairs in the sequence, one batch per pair; the model
    counts its calls and always answers with the same features. *)
Definition features0 : pyval :=
  Dict [("stm",
         Dict [("memory",
                Dict [("dg", Tensor [[1; 2; 4]; [2; 1; 0]]%R);
                      ("pr", Dict [("pr_out", Tensor [[0; 1]; [1; 3]; [5; 5]]%R)]);
                      ("decoding", Tensor [[1; 0]; [0; 1]]%R)])])].

Definition generator0 : Generator :=
  {| sequence := [(0, 1); (1, 0)]%Z;
     core_label_sequence := [(0, 1); (1, 0)]%Z;
     core_sequence := [(0, 1)]%Z;
     test_sequence := [(0, 0); (1, 1)]%Z;
     base_sequence := [(1, 0)]%Z;
     graph_sequences := [[(0, 0)]; [(0, 1)]; [(1, 0)]; [(1, 1)]]%Z |}.

Definition world0 : collaborators :=
  {| ModelState := nat;
     stimuli := unit;
     image := Z * Z;
     pretrained_model := λ _, 0;
     model_reset := λ m, m;
     model_forward := λ _ _ _ m, (S m, features0);
     prepare_stimuli := λ m _ _, Ok (m, (tt, tt));
     make_generator := λ _ _, generator0;
     DataLoader := map (λ x, [x]);
     alphabet := λ i, Ok ((i, 0%Z), i);
     alphabet_recall := λ i, Ok ((i, 1%Z), i);
     cat_images := λ x y, (x.1, y.1);
     flatten_image := λ x, [IZR x.1; IZR x.2];
     cos := dot |}.

Definition config0 : Config :=
  {| seeds := 1;
     experiment_name := Some "pairs_structure";
     test_components := ["dg"; "pr"];
     characters := 2;
     train_epochs := 1;
     late_response_steps := 3;
     early_response_step := 1;
     variation_training := false;
     metrics := None |}.

(** The same configuration with metrics lists of different lengths. *)
Definition config_metrics : Config :=
  {| seeds := 1;
     experiment_name := Some "pairs_structure";
     test_components := ["dg"; "pr"];
     characters := 2;
     train_epochs := 1;
     late_response_steps := 3;
     early_response_step := 1;
     variation_training := false;
     metrics := Some [("prefixes", ["a_"; "b_"]); ("comparison_types", ["match_mse"])] |}.

(** The context of an epoch of [generator0] in [world0]. *)
Definition context0 : epoch_ctx :=
  {| sequence_study := generator0;
     labels_study := [(0, 1); (1, 0)]%Z;
     main_pairs_flat := [[IZR 0; IZR 1]; [IZR 1; IZR 0]] |}.

(** Variations of a configuration. *)
Definition with_steps (early late : Z) (cfg : Config) : Config :=
  {| seeds := seeds cfg;
     experiment_name := experiment_name cfg;
     test_components := test_components cfg;
     characters := characters cfg;
     train_epochs := train_epochs cfg;
     late_response_steps := late;
     early_response_step := early;
     variation_training := variation_training cfg;
     metrics := metrics cfg |}.

Definition with_components (cs : list string) (cfg : Config) : Config :=
  {| seeds := seeds cfg;
     experiment_name := experiment_name cfg;
     test_components := cs;
     characters := characters cfg;
     train_epochs := train_epochs cfg;
     late_response_steps := late_response_steps cfg;
     early_response_step := early_response_step cfg;
     variation_training := variation_training cfg;
     metrics := metrics cfg |}.

Definition with_seeds (n : Z) (cfg : Config) : Config :=
  {| seeds := n;
     experiment_name := experiment_name cfg;
     test_components := test_components cfg;
     characters := characters cfg;
     train_epochs := train_epochs cfg;
     late_response_steps := late_response_steps cfg;
     early_response_step := early_response_step cfg;
     variation_training := variation_training cfg;
     metrics := metrics cfg |}.

Definition with_epochs (n : Z) (cfg : Config) : Config :=
  {| seeds := seeds cfg;
     experiment_name := experiment_name cfg;
     test_components := test_components cfg;
     characters := characters cfg;
     train_epochs := n;
     late_response_steps := late_response_steps cfg;
     early_response_step := early_response_step cfg;
     variation_training := variation_training cfg;
     metrics := metrics cfg |}.

Definition config_early0 : Config := with_steps 0 2 config0.
Definition config_late_first : Config := with_steps 3 2 config0.
Definition config_three_epochs : Config := with_epochs 3 config0.
Definition config_ltm : Config := with_components ["dg"; "ltm"] config0.
Definition config_only_ltm : Config := with_components ["ltm"] config0.
Definition config_twice : Config := with_components ["dg"; "dg"] config0.
Definition config_no_seeds : Config := with_seeds 0 config0.

Definition with_metrics (m : option (list (string * list string))) (cfg : Config)
  : Config :=
  {| seeds := seeds cfg;
     experiment_name := experiment_name cfg;
     test_components := test_components cfg;
     characters := characters cfg;
     train_epochs := train_epochs cfg;
     late_response_steps := late_response_steps cfg;
     early_response_step := early_response_step cfg;
     variation_training := variation_training cfg;
     metrics := m |}.

Definition config_no_epochs : Config := with_epochs 0 config0.

(** A metrics configuration with two comparisons. *)
Definition metrics0 : list (string * list string) :=
  [("primary_feature_names", ["recall.pr"; "recall.pc"]);
   ("primary_label_names", ["study.labels"; "study.labels"]);
   ("secondary_feature_names", ["study.pr"; "study.pc"]);
   ("secondary_label_names", ["recall.labels"; "recall.labels"]);
   ("comparison_types", ["match_mse"; "match_overlap"]);
   ("prefixes", ["pr_"; "pc_"])].

Definition config_compared : Config := with_metrics (Some metrics0) config0.

(** A directory in which every table has the same two rows. *)
Definition listing0 : directory := λ _, Ok [[1; 2]; [3; 4]]%R.

(** A one-shot world whose model is the sum of what it has seen. *)
Definition cls0 : cls :=
  {| Net := nat;
     Batch := nat;
     Checkpoint := nat;
     new_model := 0;
     forward := λ _ _ _ data net, S (net + data);
     state_dict := λ net, net;
     load_state_dict := λ checkpoint _, checkpoint;
     reset := λ net, net;
     background_loader := λ _, [1; 2];
     study_loader := [3; 4];
     recall_loader := [5; 6];
     model_file := λ epoch, if (epoch =? 2)%Z then "pretrained_model_2.pt"
                            else "pretrained_model.pt" |}.

(** The same world with one recall batch missing. *)
Definition cls_unequal : cls :=
  {| Net := nat;
     Batch := nat;
     Checkpoint := nat;
     new_model := 0;
     forward := λ _ _ _ data net, S (net + data);
     state_dict := λ net, net;
     load_state_dict := λ checkpoint _, checkpoint;
     reset := λ net, net;
     background_loader := λ _, [1; 2];
     study_loader := [3; 4];
     recall_loader := [5];
     model_file := λ epoch, if (epoch =? 2)%Z then "pretrained_model_2.pt"
                            else "pretrained_model.pt" |}.

Definition oneshot_pretrain : oneshot_config :=
  {| pretrained_model_path := None; pretrain_epochs := 2; study_steps := 3 |}.

Definition oneshot_checkpoint : oneshot_config :=
  {| pretrained_model_path := Some "model.pt"; pretrain_epochs := 2; study_steps := 3 |}.

Definition oneshot_no_epochs : oneshot_config :=
  {| pretrained_model_path := None; pretrain_epochs := 0; study_steps := 3 |}.

(** The frame and the palette of the bar plot of [listing0] for one
    component of a pairs_structure run. *)
Definition create_bar_frame0 : list (R * string * string) :=
  [(1%R, "Early " +:+ newline +:+ "pair", "dg");
   (3%R, "Early " +:+ newline +:+ "pair", "dg");
   (2%R, "Early " +:+ newline +:+ "shuffled", "dg");
   (4%R, "Early " +:+ newline +:+ "shuffled", "dg");
   (1%R, "Late " +:+ newline +:+ "pair", "dg");
   (3%R, "Late " +:+ newline +:+ "pair", "dg");
   (2%R, "Late " +:+ newline +:+ "shuffled", "dg");
   (4%R, "Late " +:+ newline +:+ "shuffled", "dg")].

Definition create_bar_colors0 : list string :=
  ["#DBAE81"; "#B29EC1"; "#D17A3D"; "#685CA2"].

(** A set-up whose model is the sum of what it has seen. *)
Definition pretrainer0 : pretrainer :=
  {| LtmNet := nat;
     LtmBatch := nat;
     new_cls := λ _, 0;
     load_latest_ltm := λ _ net, Ok net;
     ltm_forward := λ _ _ data net, S (net + data);
     train_batches := λ _ _, [1; 2];
     val_batches := λ _ _ _, [3];
     seed_summary_dir := λ _, "runs/seed" |}.

Definition setup0 : setup_state pretrainer0 :=
  {| su_model := (0 : LtmNet pretrainer0); su_grad := true; su_path := None;
     su_log := [] |}.

(** ** The state of [main] and its monad *)

Section Main.
Context (W : collaborators) (cfg : Config).

(** The variables of [main] that are assigned more than once, the autograd
    switch, the count of generator objects built so far, and the events. *)
Record state : Type := {
  pearson_r_tensor : gmap string (list matrix);
  pearson_r_test : gmap string (list (list R));
  recall_outputs_flat : option (list vec);
  stm_epoch_var : option Z;
  predictions : list (list (Z * Z));
  pairs_inputs : list (list (Z * Z));
  model : option (ModelState W);
  grad_enabled : bool;
  generators_built : nat;
  trace : list event;
}.

Definition set_tensor (v : gmap string (list matrix)) (s : state) : state :=
  {| pearson_r_tensor := v; pearson_r_test := pearson_r_test s;
     recall_outputs_flat := recall_outputs_flat s; stm_epoch_var := stm_epoch_var s;
     predictions := predictions s; pairs_inputs := pairs_inputs s;
     model := model s; grad_enabled := grad_enabled s;
     generators_built := generators_built s; trace := trace s |}.
Definition set_test (v : gmap string (list (list R))) (s : state) : state :=
  {| pearson_r_tensor := pearson_r_tensor s; pearson_r_test := v;
     recall_outputs_flat := recall_outputs_flat s; stm_epoch_var := stm_epoch_var s;
     predictions := predictions s; pairs_inputs := pairs_inputs s;
     model := model s; grad_enabled := grad_enabled s;
     generators_built := generators_built s; trace := trace s |}.
Definition set_flat (v : option (list vec)) (s : state) : state :=
  {| pearson_r_tensor := pearson_r_tensor s; pearson_r_test := pearson_r_test s;
     recall_outputs_flat := v; stm_epoch_var := stm_epoch_var s;
     predictions := predictions s; pairs_inputs := pairs_inputs s;
     model := model s; grad_enabled := grad_enabled s;
     generators_built := generators_built s; trace := trace s |}.
Definition set_stm_epoch (v : option Z) (s : state) : state :=
  {| pearson_r_tensor := pearson_r_tensor s; pearson_r_test := pearson_r_test s;
     recall_outputs_flat := recall_outputs_flat s; stm_epoch_var := v;
     predictions := predictions s; pairs_inputs := pairs_inputs s;
     model := model s; grad_enabled := grad_enabled s;
     generators_built := generators_built s; trace := trace s |}.
Definition set_predictions (v : list (list (Z * Z))) (s : state) : state :=
  {| pearson_r_tensor := pearson_r_tensor s; pearson_r_test := pearson_r_test s;
     recall_outputs_flat := recall_outputs_flat s; stm_epoch_var := stm_epoch_var s;
     predictions := v; pairs_inputs := pairs_inputs s;
     model := model s; grad_enabled := grad_enabled s;
     generators_built := generators_built s; trace := trace s |}.
Definition set_pairs_inputs (v : list (list (Z * Z))) (s : state) : state :=
  {| pearson_r_tensor := pearson_r_tensor s; pearson_r_test := pearson_r_test s;
     recall_outputs_flat := recall_outputs_flat s; stm_epoch_var := stm_epoch_var s;
     predictions := predictions s; pairs_inputs := v;
     model := model s; grad_enabled := grad_enabled s;
     generators_built := generators_built s; trace := trace s |}.
Definition set_model (v : option (ModelState W)) (s : state) : state :=
  {| pearson_r_tensor := pearson_r_tensor s; pearson_r_test := pearson_r_test s;
     recall_outputs_flat := recall_outputs_flat s; stm_epoch_var := stm_epoch_var s;
     predictions := predictions s; pairs_inputs := pairs_inputs s;
     model := v; grad_enabled := grad_enabled s;
     generators_built := generators_built s; trace := trace s |}.
Definition set_grad (v : bool) (s : state) : state :=
  {| pearson_r_tensor := pearson_r_tensor s; pearson_r_test := pearson_r_test s;
     recall_outputs_flat := recall_outputs_flat s; stm_epoch_var := stm_epoch_var s;
     predictions := predictions s; pairs_inputs := pairs_inputs s;
     model := model s; grad_enabled := v;
     generators_built := generators_built s; trace := trace s |}.
Definition set_generators_built (v : nat) (s : state) : state :=
  {| pearson_r_tensor := pearson_r_tensor s; pearson_r_test := pearson_r_test s;
     recall_outputs_flat := recall_outputs_flat s; stm_epoch_var := stm_epoch_var s;
     predictions := predictions s; pairs_inputs := pairs_inputs s;
     model := model s; grad_enabled := grad_enabled s;
     generators_built := v; trace := trace s |}.
Definition record_event (e : event) (s : state) : state :=
  {| pearson_r_tensor := pearson_r_tensor s; pearson_r_test := pearson_r_test s;
     recall_outputs_flat := recall_outputs_flat s; stm_epoch_var := stm_epoch_var s;
     predictions := predictions s; pairs_inputs := pairs_inputs s;
     model := model s; grad_enabled := grad_enabled s;
     generators_built := generators_built s; trace := trace s ++ [e] |}.

(** A computation keeps the state it reached when it raises. *)
Definition M (A : Type) : Type := state → state * result A.

Definition ret {A} (a : A) : M A := λ s, (s, Ok a).
Definition bind {A B} (m : M A) (k : A → M B) : M B :=
  λ s, match m s with
       | (s', Ok a) => k a s'
       | (s', Raise e) => (s', Raise e)
       end.
Definition lift {A} (r : result A) : M A := λ s, (s, r).
Definition modify (f : state → state) : M unit := λ s, (f s, Ok tt).
Definition read {A} (f : state → A) : M A := λ s, (s, Ok (f s)).
Definition emit (e : event) : M unit := modify (record_event e).

Fixpoint for_each {A} (l : list A) (body : A → M unit) : M unit :=
  match l with
  | [] => ret tt
  | x :: t => bind (body x) (λ _, for_each t body)
  end.

(** [with torch.no_grad(): ...]: the switch is restored on the way out,
    also when the block raises. *)
Definition with_no_grad {A} (m : M A) : M A :=
  λ s, let g := grad_enabled s in
       match m (set_grad false s) with
       | (s', r) => (set_grad g s', r)
       end.

Notation "'let*' x ':=' m 'in' k" := (bind m (λ x, k))
  (at level 10, x name, m at level 100, k at level 200, only parsing).
Notation "m '>>' k" := (bind m (λ _, k))
  (at level 100, k at level 200, right associativity, only parsing).

Definition unbound {A} (var : string) (v : option A) : M A :=
  lift (match v with
        | Some a => Ok a
        | None => Raise (UnboundLocalError var)
        end).

(** ** Lines 83-90: the accumulators and their placeholder entries *)

Definition components : list string := test_components cfg.

Definition zero_row : list R :=
  match experiment cfg with
  | community_structure => repeat 0%R 4
  | _ => repeat 0%R 2
  end.

Definition zero_matrix : matrix :=
  repeat (repeat 0%R (characters cfg)) (characters cfg).

(** [{k: v for k in keys}] *)
Definition dict_of_keys {V} (keys : list string) (v : V) : gmap string V :=
  foldr (λ k m, <[k := v]> m) ∅ keys.

Definition init_accumulators : M unit :=
  modify (set_test (dict_of_keys components [zero_row])) >>
  modify (set_tensor (dict_of_keys components [zero_matrix])).

Definition initial_state : state :=
  {| pearson_r_tensor := ∅; pearson_r_test := ∅;
     recall_outputs_flat := None; stm_epoch_var := None;
     predictions := []; pairs_inputs := [];
     model := None; grad_enabled := true;
     generators_built := 0; trace := [] |}.

(** ** Lines 319-374: one probe *)

(** [model(stim, target, mode=m, ...)] at loop index [step] *)
Definition call_model (m : mode) (step : Z) (stim : stimuli W) : M pyval :=
  let* mdl := read model in
  let* mdl := unbound "model" mdl in
  let* grad := read grad_enabled in
  let out := model_forward W m grad stim mdl in
  modify (set_model (Some out.1)) >>
  emit (EvModel m grad step) >>
  ret out.2.

(** [recall_outputs_flat = torch.flatten(recall_outputs[...]..., start_dim=1)] *)
Definition fetch (recall_outputs : pyval) (path : list string) : M unit :=
  let* rows := lift (rbind (dict_path recall_outputs path) torch_flatten) in
  modify (set_flat (Some rows)).

(** Lines 348-350 *)
Definition classify (ctx : epoch_ctx) (flat : list vec) : result (list (Z * Z)) :=
  let similarity := map (λ a, map (λ b, cos W a b) (main_pairs_flat ctx)) flat in
  rbind (rmap (λ t, rbind (py_max t) (py_index t)) similarity) (λ similarity_idx,
  rmap (λ a : nat, py_get (labels_study ctx) (Z.of_nat a)) similarity_idx).

Definition when (b : bool) (m : M unit) : M unit := if b then m else ret tt.

(** Lines 327-350: one [if] per known component name, no [else]. *)
Definition select_features (ctx : epoch_ctx) (recall_outputs : pyval)
    (component : string) : M unit :=
  when (String.eqb component "dg")
    (fetch recall_outputs ["stm"; "memory"; component]) >>
  when (String.eqb component "pr")
    (fetch recall_outputs ["stm"; "memory"; component; "pr_out"]) >>
  when (String.eqb component "ec_ca3")
    (fetch recall_outputs ["stm"; "memory"; component; "ca3_cue"]) >>
  when (String.eqb component "ca3_ca1")
    (fetch recall_outputs ["stm"; "memory"; component; "decoding"]) >>
  when (String.eqb component "ca1")
    (fetch recall_outputs ["stm"; "memory"; component; "decoding"]) >>
  when (String.eqb component "recon_pair")
    (fetch recall_outputs ["stm"; "memory"; "decoding"] >>
     let* flat := read recall_outputs_flat in
     let* flat := unbound "recall_outputs_flat" flat in
     let* row := lift (classify ctx flat) in
     modify (λ s, set_predictions (predictions s ++ [row]) s)).

(** Lines 358-372: the contrast vector of the experiment at hand. *)
Definition contrast (g : Generator) (pearson_r : matrix) : result (list R) :=
  match experiment cfg with
  | pairs_structure =>
      rbind (cells_mean pearson_r (test_sequence g)) (λ pearson_all_pattern,
      rbind (cells_mean pearson_r (core_sequence g)) (λ pearson_core_pattern,
      Ok [pearson_core_pattern; pearson_all_pattern]))
  | associative_inference =>
      rbind (cells_mean pearson_r (test_sequence g)) (λ pearson_transitive_pattern,
      rbind (cells_mean pearson_r (core_sequence g)) (λ pearson_direct_pattern,
      rbind (cells_mean pearson_r (base_sequence g)) (λ pearson_base_pattern,
      Ok [(pearson_transitive_pattern - pearson_base_pattern)%R;
          (pearson_direct_pattern - pearson_base_pattern)%R])))
  | community_structure =>
      let part (k : Z) :=
        rbind (py_get (graph_sequences g) k) (cells_mean pearson_r) in
      rbind (part 0%Z) (λ pearson_within_internal,
      rbind (part 1%Z) (λ pearson_within_boundary,
      rbind (part 2%Z) (λ pearson_across_boundary,
      rbind (part 3%Z) (λ pearson_across_other,
      Ok [pearson_within_internal; pearson_within_boundary;
          pearson_across_boundary; pearson_across_other]))))
  end.

(** [torch.cat((acc, pearson_r[None, :, :]), 0)]: an empty [pearson_r] is
    1-D and cannot be indexed with three indices; otherwise the shapes
    must agree with the [characters] x [characters] entries of [acc]. *)
Definition cat_matrix (acc : list matrix) (pearson_r : matrix) : result (list matrix) :=
  match pearson_r with
  | [] => Raise IndexError
  | _ =>
      if (length pearson_r =? characters cfg)
         && forallb (λ row : list R, length row =? characters cfg) pearson_r
      then Ok (acc ++ [pearson_r])
      else Raise (RuntimeError "Sizes of tensors must match except in dimension 0")
  end.

Definition dict_lookup {V} (d : gmap string V) (k : string) : result V :=
  match d !! k with
  | Some v => Ok v
  | None => Raise (KeyError k)
  end.

(** Lines 352-374.  The contrast row has the width of the placeholder row
    by construction, so the second [torch.cat] has no size check here. *)
Definition accumulate_correlations (ctx : epoch_ctx) (step : Z)
    (component : string) : M unit :=
  let* flat := read recall_outputs_flat in
  let* flat := unbound "recall_outputs_flat" flat in
  let flat := take (characters cfg) flat in
  modify (set_flat (Some flat)) >>
  let* pearson_r := lift (correlation_matrix flat) in
  let* tensors := read pearson_r_tensor in
  let* acc := lift (rbind (dict_lookup tensors component) (λ acc, cat_matrix acc pearson_r)) in
  modify (λ s, set_tensor (<[component := acc]> (pearson_r_tensor s)) s) >>
  emit (EvMatrix component step pearson_r) >>
  let* tmp_pearson_test := lift (contrast (sequence_study ctx) pearson_r) in
  let* tests := read pearson_r_test in
  let* acc := lift (dict_lookup tests component) in
  modify (λ s, set_test (<[component := acc ++ [tmp_pearson_test]]> (pearson_r_test s)) s) >>
  emit (EvContrast component step tmp_pearson_test).

Definition accumulate (ctx : epoch_ctx) (step : Z) (recall_outputs : pyval)
    (component : string) : M unit :=
  select_features ctx recall_outputs component >>
  accumulate_correlations ctx step component.

(** Lines 319-374 *)
Definition probe (ctx : epoch_ctx) (recall_stim : stimuli W) (step : Z) : M unit :=
  with_no_grad
    (let* recall_outputs := call_model Recall step recall_stim in
     for_each components (accumulate ctx step recall_outputs)).

Definition probe_due (step : Z) : bool :=
  (step =? early_response_step cfg - 1)%Z || (step =? late_response_steps cfg - 1)%Z.

(** Lines 303-374: one iteration of the study loop.  The losses are only
    printed. *)
Definition study_step (ctx : epoch_ctx) (stims : stimuli W * stimuli W)
    (step : Z) : M unit :=
  let* _ := call_model Study step stims.1 in
  if probe_due step then probe ctx stims.2 step else ret tt.

(** Lines 301-374 *)
Definition study_loop (ctx : epoch_ctx) (stims : stimuli W * stimuli W) : M unit :=
  for_each (range (late_response_steps cfg)) (study_step ctx stims).

(** ** Lines 244-443: one trial *)

(** [metrics_config[k][i]] *)
Definition metrics_entry (metrics_config : list (string * list string))
    (k : string) (i : nat) : result string :=
  match assoc k metrics_config with
  | None => Raise (KeyError k)
  | Some l =>
      match l !! i with
      | Some v => Ok v
      | None => Raise IndexError
      end
  end.

(** Lines 384-402.  [utils.find_json_value] and [oneshot_metrics.compare]
    belong to collaborators; the comparison is recorded with its prefix. *)
Definition compare_metrics : M unit :=
  match metrics cfg with
  | Some ((first_item :: _) as metrics_config) =>
      let metrics_len := map (λ kv : string * list string, length kv.2) metrics_config in
      let len0 := length first_item.2 in
      if forallb (λ x, x =? len0) metrics_len then
        for_each (seq 0 len0) (λ i,
          let* _ := lift (metrics_entry metrics_config "primary_feature_names" i) in
          let* _ := lift (metrics_entry metrics_config "primary_label_names" i) in
          let* _ := lift (metrics_entry metrics_config "secondary_feature_names" i) in
          let* _ := lift (metrics_entry metrics_config "secondary_label_names" i) in
          let* _ := lift (metrics_entry metrics_config "comparison_types" i) in
          let* prefix := lift (metrics_entry metrics_config "prefixes" i) in
          emit (EvCompare prefix))
      else lift (Raise (AssertionError "Mismatch in metrics config"))
  | _ => ret tt
  end.

(** Lines 382-443: the reports and image summaries leave no mark here. *)
Definition recall_phase : M unit :=
  with_no_grad (compare_metrics >> emit (EvCompare "pr_rf_")).

(** Lines 244-374: stimuli, reset, study loop.  The preparation of the
    stimuli (lines 246-294) is the collaborator [prepare_stimuli]: the calls
    [model(..., mode='validate')] it makes, with autograd on, act on the model
    it hands back and are not recorded as [EvModel]. *)
Definition study_phase (ctx : epoch_ctx) (idx : nat)
    (batch : list (Z * Z) * list (Z * Z)) : M unit :=
  emit (EvTrial idx) >>
  let* mdl := read model in
  let* mdl := unbound "model" mdl in
  let* prepared := lift (prepare_stimuli W mdl batch.1 batch.2) in
  modify (set_model (Some (model_reset W prepared.1))) >>
  emit EvReset >>
  study_loop ctx prepared.2.

Definition trial (ctx : epoch_ctx) (idx : nat)
    (batch : list (Z * Z) * list (Z * Z)) : M unit :=
  study_phase ctx idx batch >>
  modify (λ s, set_pairs_inputs (pairs_inputs s ++ [batch.1]) s) >>
  recall_phase.

(** ** Lines 213-443: one epoch, with the generators of its seed *)

(** Lines 229-237: the core labels and their reference patterns. *)
Definition epoch_context (gen_study : Generator) : result epoch_ctx :=
  let second_alphabet :=
    if variation_training cfg then alphabet_recall W else alphabet W in
  let labels := core_label_sequence gen_study in
  rbind (convert_sequence_to_images W (alphabet W) labels labels both
           (Some second_alphabet)) (λ main_pairs,
  Ok {| sequence_study := gen_study; labels_study := labels;
        main_pairs_flat := map (flatten_image W) main_pairs.1 |}).

Definition epoch (gen_study gen_recall : nat * Generator) (stm_epoch : Z) : M unit :=
  modify (set_stm_epoch (Some stm_epoch)) >>
  emit (EvEpoch stm_epoch gen_study.1 gen_recall.1) >>
  let study_loader := DataLoader W (sequence gen_study.2) in
  let recall_loader := DataLoader W (sequence gen_recall.2) in
  let pair_sequence_dataset := imap (λ idx b, (idx, b)) (zip study_loader recall_loader) in
  let* ctx := lift (epoch_context gen_study.2) in
  (* lines 238-239: single_characters *)
  let* _ :=
    lift (rbind (rmap (item_image W (alphabet_recall W))
                   (range (Z.of_nat (characters cfg)))) torch_stack) in
  for_each pair_sequence_dataset (λ p, trial ctx p.1 p.2).

(** ** Lines 92-464: one seed *)

(** Lines 199-207: a generator object is constructed. *)
Definition new_generator : M (nat * Generator) :=
  λ s, let id := generators_built s in
       (record_event (EvGenerator id) (set_generators_built (S id) s),
        Ok (id, make_generator W (experiment cfg) id)).

(** Lines 446-464 *)
Definition save_results : M unit :=
  let* preds := read predictions in
  let predictions_early := py_slice 0 (length preds) 2 preds in
  let predictions_late := py_slice 1 (length preds) 2 preds in
  let* e := read stm_epoch_var in
  let* _ := unbound "stm_epoch" e in
  emit (EvWrite "predictions_early" predictions_early) >>
  emit (EvWrite "predictions_late" predictions_late) >>
  let* inputs := read pairs_inputs in
  emit (EvWrite "pair_inputs" inputs).

Definition seed_run (k : Z) : M unit :=
  modify (set_model (Some (pretrained_model W k))) >>
  let* gen_study := new_generator in
  let* gen_recall := new_generator in
  modify (set_predictions []) >>
  modify (set_pairs_inputs []) >>
  for_each (range (train_epochs cfg)) (epoch gen_study gen_recall) >>
  save_results.

(** Lines 83-464 *)
Definition experiment_loops : M unit :=
  init_accumulators >> for_each (range (seeds cfg)) seed_run.

(** ** Lines 466-498: aggregation and export *)

Definition early_slice {A} (t : list A) : list A := py_slice 1 (length t) 2 t.
Definition late_slice {A} (t : list A) : list A := py_slice 2 (length t + 1) 2 t.

Definition entry (m : matrix) (i j : nat) : R := nth j (nth i m []) 0%R.

(** [torch.mean(t, 0)] for [t] of shape (k, characters, characters).  For
    k = 0 torch yields NaN entries, which have no counterpart here. *)
Definition torch_mean0 (t : list matrix) : matrix :=
  map (λ i, map (λ j, (py_sum (map (λ m, entry m i j) t) / INR (length t))%R)
              (seq 0 (characters cfg)))
      (seq 0 (characters cfg)).

Record summary : Type := {
  pearson_r_early : gmap string matrix;
  pearson_r_late : gmap string matrix;
  pearson_r_early_test : gmap string (list (list R));
  pearson_r_late_test : gmap string (list (list R));
}.

Definition aggregate (s : state) : summary :=
  {| pearson_r_early := torch_mean0 <$> (early_slice <$> pearson_r_tensor s);
     pearson_r_late := torch_mean0 <$> (late_slice <$> pearson_r_tensor s);
     pearson_r_early_test := early_slice <$> pearson_r_test s;
     pearson_r_late_test := late_slice <$> pearson_r_test s |}.

(** The keys of [{k: v for k in l}] in the order a loop over the dictionary
    visits them: the order of insertion, every name at its first
    occurrence. *)
Fixpoint dict_keys (l : list string) : list string :=
  match l with
  | [] => []
  | k :: rest => k :: filter (λ x, x ≠ k) (dict_keys rest)
  end.

(** The items of one of the four dictionaries of lines 466-473, with [name]
    before every key.  These dictionaries are comprehensions over the
    accumulators, whose keys are the names of [test_components] (lines
    88-90), so a loop visits them along [dict_keys components]. *)
Definition tables (name : string) (d : gmap string (list (list R)))
  : list (string * list (list R)) :=
  omap (λ k, (λ v, (name +:+ k, v)) <$> d !! k) (dict_keys components).

(** Lines 476-498: the files of the run, in the order they are written. *)
Definition exported_files (sm : summary) : list (string * list (list R)) :=
  tables "pearson_early_test_" (pearson_r_early_test sm) ++
  tables "pearson_late_test_" (pearson_r_late_test sm) ++
  tables "pearson_early_" (pearson_r_early sm) ++
  tables "pearson_late_" (pearson_r_late sm).

(** [np.stack(t.numpy(), 0)] on a 2-D tensor stacks its rows, and raises
    when there is none. *)
Definition np_stack_rows (rows : list (list R)) : result (list (list R)) :=
  match rows with
  | [] => Raise ValueError
  | _ => Ok rows
  end.

(** Lines 476-486: a contrast table is stacked before it is written; the
    file is open by then and stays empty when the stacking raises. *)
Definition write_stacked (f : string * list (list R)) : M unit :=
  let* rows := lift (np_stack_rows f.2) in
  emit (EvExport f.1 rows).

(** Lines 476-498 *)
Definition export : M unit :=
  let* sm := read aggregate in
  for_each (tables "pearson_early_test_" (pearson_r_early_test sm)) write_stacked >>
  for_each (tables "pearson_late_test_" (pearson_r_late_test sm)) write_stacked >>
  for_each (tables "pearson_early_" (pearson_r_early sm))
    (λ f, emit (EvExport f.1 f.2)) >>
  for_each (tables "pearson_late_" (pearson_r_late sm))
    (λ f, emit (EvExport f.1 f.2)).

(** Lines 500-507: the import of the plotters is commented out (line 18),
    so the first use of either name raises. *)
Definition render : M unit :=
  let* sm := read aggregate in
  if decide (pearson_r_early sm = ∅)
  then lift (Raise (NameError "BarPlotter"))
  else lift (Raise (NameError "HeatmapPlotter")).

Definition main : M unit :=
  experiment_loops >> export >> render.

(** * Definitions for the statements *)

(** A state in the middle of a run: the accumulators are set up, the model
    is loaded and [recall_outputs_flat] holds the rows of an earlier probe. *)
Definition ready (flat : list vec) (mdl : ModelState W) : state :=
  set_flat (Some flat) (set_model (Some mdl) (init_accumulators initial_state).1).

Definition matrices_of (a : string) (tr : list event) : list (Z * matrix) :=
  omap (λ e, match e with
             | EvMatrix c step m => if String.eqb c a then Some (step, m) else None
             | _ => None
             end) tr.

Definition contrasts_of (a : string) (tr : list event) : list (Z * list R) :=
  omap (λ e, match e with
             | EvContrast c step row => if String.eqb c a then Some (step, row) else None
             | _ => None
             end) tr.

Definition generators_of (tr : list event) : list nat :=
  omap (λ e, match e with EvGenerator id => Some id | _ => None end) tr.

Record advance (s s' : state) (evs : list event) : Prop := {
  adv_trace : trace s' = trace s ++ evs;
  adv_grad : grad_enabled s' = grad_enabled s;
  adv_generators :
    generators_built s' = generators_built s + length (generators_of evs);
  adv_tensor : ∀ a acc,
    pearson_r_tensor s !! a = Some acc →
    pearson_r_tensor s' !! a = Some (acc ++ (matrices_of a evs).*2);
  adv_test : ∀ a acc,
    pearson_r_test s !! a = Some acc →
    pearson_r_test s' !! a = Some (acc ++ (contrasts_of a evs).*2);
  adv_tensor_none : ∀ a,
    pearson_r_tensor s !! a = None → pearson_r_tensor s' !! a = None;
  adv_test_none : ∀ a,
    pearson_r_test s !! a = None → pearson_r_test s' !! a = None;
}.

(** An event other than the two appends and a construction. *)
Definition quiet (e : event) : Prop :=
  match e with
  | EvMatrix _ _ _ | EvContrast _ _ _ | EvGenerator _ => False
  | _ => True
  end.

(** A state change that leaves trace, accumulators, switch and count. *)
Definition same_books (s s' : state) : Prop :=
  trace s' = trace s ∧ grad_enabled s' = grad_enabled s ∧
  generators_built s' = generators_built s ∧
  pearson_r_tensor s' = pearson_r_tensor s ∧
  pearson_r_test s' = pearson_r_test s.

(** An event without what was computed. *)
Definition erase (e : event) : event :=
  match e with
  | EvMatrix c step _ => EvMatrix c step []
  | EvContrast c step _ => EvContrast c step []
  | EvCompare _ => EvCompare ""
  | EvWrite f _ => EvWrite f []
  | EvExport f _ => EvExport f []
  | _ => e
  end.

Definition shape_accumulate (step : Z) (c : string) : list event :=
  [EvMatrix c step []; EvContrast c step []].

Definition shape_probe (step : Z) : list event :=
  EvModel Recall false step :: concat (map (shape_accumulate step) components).

Definition shape_step (grad : bool) (step : Z) : list event :=
  EvModel Study grad step :: (if probe_due step then shape_probe step else []).

Definition shape_study_loop (grad : bool) : list event :=
  concat (map (shape_step grad) (range (late_response_steps cfg))).

Definition metrics_count : nat :=
  match metrics cfg with
  | Some (first_item :: _) => length first_item.2
  | _ => 0
  end.

Definition shape_recall_phase : list event :=
  repeat (EvCompare "") metrics_count ++ [EvCompare ""].

Definition shape_trial (grad : bool) (idx : nat) : list event :=
  EvTrial idx :: EvReset :: shape_study_loop grad ++ shape_recall_phase.

(** The trials of an epoch whose generators are the objects [n] and [n+1]. *)
Definition trials_of (n : nat) : list (nat * (list (Z * Z) * list (Z * Z))) :=
  imap (λ idx b, (idx, b))
    (zip (DataLoader W (sequence (make_generator W (experiment cfg) n)))
         (DataLoader W (sequence (make_generator W (experiment cfg) (S n))))).

Definition shape_epoch (grad : bool) (n : nat) (stm_epoch : Z) : list event :=
  EvEpoch stm_epoch n (S n) ::
  concat (map (λ p, shape_trial grad p.1) (trials_of n)).

Definition shape_seed (grad : bool) (n : nat) : list event :=
  EvGenerator n :: EvGenerator (S n) ::
  concat (map (shape_epoch grad n) (range (train_epochs cfg))) ++
  [EvWrite "predictions_early" []; EvWrite "predictions_late" [];
   EvWrite "pair_inputs" []].

Fixpoint shape_seeds {A} (grad : bool) (n : nat) (ks : list A) : list event :=
  match ks with
  | [] => []
  | _ :: rest => shape_seed grad n ++ shape_seeds grad (S (S n)) rest
  end.

Definition shape_run : list event :=
  shape_seeds true 0 (range (seeds cfg)).

Definition trials_of_trace (tr : list event) : list nat :=
  omap (λ e, match e with EvTrial idx => Some idx | _ => None end) tr.

Definition matrix_steps (a : string) (tr : list event) : list Z :=
  omap (λ e, match e with
             | EvMatrix c step _ => if String.eqb c a then Some step else None
             | _ => None
             end) tr.

Definition contrast_steps (a : string) (tr : list event) : list Z :=
  omap (λ e, match e with
             | EvContrast c step _ => if String.eqb c a then Some step else None
             | _ => None
             end) tr.

(** The two step indices at which a trial is probed. *)
Definition probe_pair : list Z :=
  [(early_response_step cfg - 1)%Z; (late_response_steps cfg - 1)%Z].

(** Per trial begun, one entry written at each of the two probe steps. *)
Definition balanced (a : string) (l : list event) : Prop :=
  matrix_steps a l = concat (repeat probe_pair (length (trials_of_trace l))) ∧
  contrast_steps a l = concat (repeat probe_pair (length (trials_of_trace l))).

(** The entries written at loop index [step]. *)
Definition tagged {X} (step : Z) (entries : list (Z * X)) : list X :=
  (filter (λ p : Z * X, p.1 = step) entries).*2.

(** The recall calls among some events: autograd switch and loop index. *)
Definition recall_calls (tr : list event) : list (bool * Z) :=
  omap (λ e, match e with
             | EvModel Recall grad step => Some (grad, step)
             | _ => None
             end) tr.

(** The second definition, in the words of the specification: the mean of
    the correlation cells over a partition. *)
Definition cell_value (m : matrix) (ij : Z * Z) : R :=
  entry m (Z.to_nat ij.1) (Z.to_nat ij.2).

Definition mean_over (m : matrix) (cells : list (Z * Z)) : R :=
  (fold_right Rplus 0 (map (cell_value m) cells) / INR (length cells))%R.

Definition within_internal (g : Generator) : list (Z * Z) := nth 0 (graph_sequences g) [].

Definition within_boundary (g : Generator) : list (Z * Z) := nth 1 (graph_sequences g) [].

Definition across_boundary (g : Generator) : list (Z * Z) := nth 2 (graph_sequences g) [].

Definition across_other (g : Generator) : list (Z * Z) := nth 3 (graph_sequences g) [].

Definition spec_contrast (e : Experiment) (g : Generator) (m : matrix) : list R :=
  match e with
  | pairs_structure =>
      [mean_over m (core_sequence g); mean_over m (test_sequence g)]
  | associative_inference =>
      [(mean_over m (test_sequence g) - mean_over m (base_sequence g))%R;
       (mean_over m (core_sequence g) - mean_over m (base_sequence g))%R]
  | community_structure =>
      [mean_over m (within_internal g); mean_over m (within_boundary g);
       mean_over m (across_boundary g); mean_over m (across_other g)]
  end.

(** The partitions an experiment reads. *)
Definition partitions (e : Experiment) (g : Generator) : list (list (Z * Z)) :=
  match e with
  | pairs_structure => [core_sequence g; test_sequence g]
  | associative_inference => [test_sequence g; core_sequence g; base_sequence g]
  | community_structure =>
      [within_internal g; within_boundary g; across_boundary g; across_other g]
  end.

Definition item_cell (ij : Z * Z) : Prop := (0 ≤ ij.1)%Z ∧ (0 ≤ ij.2)%Z.

(** A vector with two different entries. *)
Definition non_constant (x : vec) : Prop := ∃ u v, u ∈ x ∧ v ∈ x ∧ u ≠ v.

(** The second definition, in the words of the specification: the
    element-wise mean of a sequence of n x n matrices. *)
Definition elementwise_mean (n : nat) (ms : list matrix) : matrix :=
  map (λ i, map (λ j, (fold_right Rplus 0 (map (λ m, entry m i j) ms)
                       / INR (length ms))%R) (seq 0 n)) (seq 0 n).

Definition symmetric (n : nat) (m : matrix) : Prop :=
  ∀ i j, i < n → j < n → entry m i j = entry m j i.

Definition metrics_mismatch : bool :=
  match metrics cfg with
  | Some ((first_item :: _) as metrics_config) =>
      negb (forallb (λ x, x =? length first_item.2)
              (map (λ kv : string * list string, length kv.2) metrics_config))
  | _ => false
  end.

Definition recognized (c : string) : bool :=
  existsb (String.eqb c) ["dg"; "pr"; "ec_ca3"; "ca3_ca1"; "ca1"; "recon_pair"].

Definition epochs_of (tr : list event) : list (Z * nat * nat) :=
  omap (λ e, match e with
             | EvEpoch stm_epoch i j => Some (stm_epoch, i, j)
             | _ => None
             end) tr.

(** What the probes appended for a component, in order. *)
Definition written_matrices (a : string) (s : state) : list matrix :=
  (matrices_of a (trace s)).*2.

Definition written_rows (a : string) (s : state) : list (list R) :=
  (contrasts_of a (trace s)).*2.

(** Position [i] holds a maximum of [t], and no earlier position does. *)
Definition first_argmax (t : list R) (i : nat) : Prop :=
  ∃ v, t !! i = Some v ∧
       (∀ j w, t !! j = Some w → (w <= v)%R) ∧
       (∀ j w, j < i → t !! j = Some w → (w < v)%R).

(** The reference patterns of an epoch: one per core label pair. *)
Definition second_alphabet : Z → result (image W * Z) :=
  if variation_training cfg then alphabet_recall W else alphabet W.

Definition reference_pattern (a : Z * Z) (p : vec) : Prop :=
  ∃ x y, item_image W second_alphabet a.1 = Ok x ∧
         item_image W (alphabet W) a.2 = Ok y ∧
         p = flatten_image W (cat_images W x y).

(** Alternating merge, the first list leading. *)
Fixpoint interleave {A} (l1 l2 : list A) : list A :=
  match l1, l2 with
  | [], _ => l2
  | _, [] => l1
  | x :: t1, y :: t2 => x :: y :: interleave t1 t2
  end.

(** The calls of the model among some events. *)
Definition model_calls (tr : list event) : list (mode * bool * Z) :=
  omap (λ e, match e with
             | EvModel m grad step => Some (m, grad, step)
             | _ => None
             end) tr.

(** A study call with autograd on, or a recall call with autograd off. *)
Definition lawful_call (c : mode * bool * Z) : Prop :=
  match c.1.1 with
  | Study => c.1.2 = true
  | Recall => c.1.2 = false
  | _ => False
  end.

(** The loop indices of the study calls among some calls. *)
Definition studied (calls : list (mode * bool * Z)) : list Z :=
  omap (λ c : mode * bool * Z,
          match c.1.1 with
          | Study => Some c.2
          | _ => None
          end) calls.

(** Where lines 327-343 read the features of a component. *)
Definition feature_path (c : string) : list string :=
  if String.eqb c "dg" then ["stm"; "memory"; "dg"]
  else if String.eqb c "pr" then ["stm"; "memory"; "pr"; "pr_out"]
  else if String.eqb c "ec_ca3" then ["stm"; "memory"; "ec_ca3"; "ca3_cue"]
  else if String.eqb c "ca3_ca1" then ["stm"; "memory"; "ca3_ca1"; "decoding"]
  else ["stm"; "memory"; "ca1"; "decoding"].

(** The events of the export, in the order of the files. *)
Definition export_events (sm : summary) : list event :=
  map (λ f : string * list (list R), EvExport f.1 f.2) (exported_files sm).

(** The tables written at lines 476-498. *)
Definition exports_of (tr : list event) : list (string * list (list R)) :=
  omap (λ e, match e with EvExport f rows => Some (f, rows) | _ => None end) tr.

(** The trials of one epoch of the seed whose generators are the objects
    [n] and [n + 1]: one per pair of batches of the two loaders (lines
    217-220). *)
Definition trials_per_epoch (n : nat) : nat :=
  min (length (DataLoader W (sequence (make_generator W (experiment cfg) n))))
      (length (DataLoader W (sequence (make_generator W (experiment cfg) (S n))))).

(** The trials of a run: for each of the [seeds] seeds, [train_epochs]
    epochs over the batches of the two generators of that seed. *)
Definition total_trials : nat :=
  sum_list (map (λ k, Z.to_nat (train_epochs cfg) * trials_per_epoch (2 * k))
              (seq 0 (Z.to_nat (seeds cfg)))).

(** * Reasoning about runs *)

(** ** A successful computation, step by step *)

Lemma bind_ok {A B} (m : M A) (k : A → M B) s s' b :
  bind m k s = (s', Ok b) →
  ∃ s1 a, m s = (s1, Ok a) ∧ k a s1 = (s', Ok b).
Proof.
  unfold bind. destruct (m s) as [s1 [a|e]]; intros H.
  - exists s1, a. split; [reflexivity | exact H].
  - discriminate H.
Qed.

Lemma bind_run {A B} (m : M A) (k : A → M B) s s1 a :
  m s = (s1, Ok a) → bind m k s = k a s1.
Proof. unfold bind. intros ->. reflexivity. Qed.

Lemma bind_raise {A B} (m : M A) (k : A → M B) s s1 e :
  m s = (s1, Raise e) → bind m k s = (s1, Raise e).
Proof. unfold bind. intros ->. reflexivity. Qed.

Lemma ret_ok {A} (a b : A) s s' : ret a s = (s', Ok b) → s' = s ∧ b = a.
Proof. unfold ret. intros H. injection H as <- <-. auto. Qed.

Lemma lift_ok {A} (r : result A) s s' a : lift r s = (s', Ok a) → s' = s ∧ r = Ok a.
Proof. unfold lift. intros H. injection H as <- ->. auto. Qed.

Lemma read_ok {A} (f : state → A) s s' a : read f s = (s', Ok a) → s' = s ∧ a = f s.
Proof. unfold read. intros H. injection H as <- <-. auto. Qed.

Lemma modify_ok (f : state → state) s s' u : modify f s = (s', Ok u) → s' = f s.
Proof. unfold modify. intros H. injection H as <-. reflexivity. Qed.

Lemma emit_ok e s s' u : emit e s = (s', Ok u) → s' = record_event e s.
Proof. apply modify_ok. Qed.

Lemma unbound_ok {A} var (v : option A) s s' a :
  unbound var v s = (s', Ok a) → s' = s ∧ v = Some a.
Proof.
  unfold unbound. intros H. apply lift_ok in H as [-> H].
  destruct v; [injection H as -> | discriminate H]. auto.
Qed.

Lemma with_no_grad_ok {A} (m : M A) s s' a :
  with_no_grad m s = (s', Ok a) →
  ∃ s1, m (set_grad false s) = (s1, Ok a) ∧ s' = set_grad (grad_enabled s) s1.
Proof.
  unfold with_no_grad. destruct (m (set_grad false s)) as [s1 r]; intros H.
  injection H as <- ->. exists s1. auto.
Qed.

Lemma when_ok b (m : M unit) s s' u :
  when b m s = (s', Ok u) →
  (b = true ∧ m s = (s', Ok u)) ∨ (b = false ∧ s' = s).
Proof.
  destruct b; simpl; intros H; [left; auto |].
  right. apply ret_ok in H as [-> _]. auto.
Qed.

(** Splits the hypothesis of a successful run into its steps. *)
Ltac run_ok H :=
  repeat
    match type of H with
    | bind _ _ _ = (_, Ok _) =>
        let s1 := fresh "s" in
        let a := fresh "a" in
        let H1 := fresh "Hrun" in
        apply bind_ok in H as (s1 & a & H1 & H);
        lazymatch type of H1 with
        | read _ _ = _ => apply read_ok in H1 as [-> ->]
        | unbound _ _ _ = _ => apply unbound_ok in H1 as [-> H1]
        | lift _ _ = _ => apply lift_ok in H1 as [-> H1]
        | emit _ _ = _ => apply emit_ok in H1 as ->
        | modify _ _ = _ => apply modify_ok in H1 as ->
        | ret _ _ = _ => apply ret_ok in H1 as [-> ->]
        | _ => idtac
        end
    | ret _ _ = (_, Ok _) => apply ret_ok in H as [-> ?]
    | emit _ _ = (_, Ok _) => apply emit_ok in H as ->
    | modify _ _ = (_, Ok _) => apply modify_ok in H as ->
    end.

(** ** What a step adds to the trace and to the accumulators *)

Lemma matrices_of_app a tr1 tr2 :
  matrices_of a (tr1 ++ tr2) = matrices_of a tr1 ++ matrices_of a tr2.
Proof. apply omap_app. Qed.

Lemma contrasts_of_app a tr1 tr2 :
  contrasts_of a (tr1 ++ tr2) = contrasts_of a tr1 ++ contrasts_of a tr2.
Proof. apply omap_app. Qed.

Lemma generators_of_app tr1 tr2 :
  generators_of (tr1 ++ tr2) = generators_of tr1 ++ generators_of tr2.
Proof. apply omap_app. Qed.

Lemma advance_refl s : advance s s [].
Proof.
  split; simpl; intros; rewrite ?app_nil_r; auto; lia.
Qed.

Lemma advance_trans s1 s2 s3 evs1 evs2 :
  advance s1 s2 evs1 → advance s2 s3 evs2 → advance s1 s3 (evs1 ++ evs2).
Proof.
  intros [T1 G1 N1 A1 B1 C1 D1] [T2 G2 N2 A2 B2 C2 D2]. split.
  - rewrite T2, T1, app_assoc. reflexivity.
  - congruence.
  - rewrite N2, N1, generators_of_app, length_app. lia.
  - intros a acc Ha. rewrite matrices_of_app, fmap_app, app_assoc. eauto.
  - intros a acc Ha. rewrite contrasts_of_app, fmap_app, app_assoc. eauto.
  - auto.
  - auto.
Qed.

Lemma advance_event e s : quiet e → advance s (record_event e s) [e].
Proof.
  intros Hq. split; simpl; auto.
  - destruct e; simpl in *; auto; contradiction.
  - intros a acc Ha. destruct e; simpl in *; rewrite ?app_nil_r; auto; contradiction.
  - intros a acc Ha. destruct e; simpl in *; rewrite ?app_nil_r; auto; contradiction.
Qed.

Lemma advance_same_books s s' : same_books s s' → advance s s' [].
Proof.
  intros (T & G & N & A & B).
  split; simpl; intros; rewrite ?app_nil_r, ?T, ?A, ?B; auto; lia.
Qed.

Lemma advance_books_l s0 s s' evs :
  same_books s0 s → advance s s' evs → advance s0 s' evs.
Proof.
  intros Hb Ha. apply advance_same_books in Hb.
  exact (advance_trans _ _ _ [] evs Hb Ha).
Qed.

Lemma advance_books_r s s' s1 evs :
  advance s s' evs → same_books s' s1 → advance s s1 evs.
Proof.
  intros Ha Hb. apply advance_same_books in Hb.
  rewrite <- (app_nil_r evs). exact (advance_trans _ _ _ evs [] Ha Hb).
Qed.

(** ** One accumulation (lines 352-374) *)

Lemma dict_lookup_ok {V} (d : gmap string V) k v :
  dict_lookup d k = Ok v → d !! k = Some v.
Proof. unfold dict_lookup. destruct (d !! k); intros H; [injection H as -> | discriminate]. reflexivity. Qed.

Lemma cat_matrix_ok acc pearson_r acc' :
  cat_matrix acc pearson_r = Ok acc' →
  acc' = acc ++ [pearson_r] ∧ pearson_r ≠ [] ∧
  length pearson_r = characters cfg ∧
  Forall (λ row : list R, length row = characters cfg) pearson_r.
Proof.
  unfold cat_matrix. destruct pearson_r as [|r0 rest]; [discriminate |].
  destruct (_ && _) eqn:E; [| discriminate].
  intros H. injection H as <-.
  apply andb_true_iff in E as [E1 E2].
  apply Nat.eqb_eq in E1. rewrite forallb_forall in E2.
  repeat split; auto.
  apply List.Forall_forall. intros row Hrow. apply Nat.eqb_eq, E2, Hrow.
Qed.

Lemma accumulate_correlations_ok ctx step c s s' u :
  accumulate_correlations ctx step c s = (s', Ok u) →
  ∃ flat pearson_r row acc acc_t,
    recall_outputs_flat s = Some flat ∧
    correlation_matrix (take (characters cfg) flat) = Ok pearson_r ∧
    pearson_r_tensor s !! c = Some acc ∧
    cat_matrix acc pearson_r = Ok (acc ++ [pearson_r]) ∧
    contrast (sequence_study ctx) pearson_r = Ok row ∧
    pearson_r_test s !! c = Some acc_t ∧
    pearson_r_tensor s' = <[c := acc ++ [pearson_r]]> (pearson_r_tensor s) ∧
    pearson_r_test s' = <[c := acc_t ++ [row]]> (pearson_r_test s) ∧
    trace s' = trace s ++ [EvMatrix c step pearson_r; EvContrast c step row] ∧
    recall_outputs_flat s' = Some (take (characters cfg) flat) ∧
    grad_enabled s' = grad_enabled s ∧
    generators_built s' = generators_built s ∧
    predictions s' = predictions s ∧
    model s' = model s.
Proof.
  unfold accumulate_correlations. intros H. run_ok H. simpl in *.
  destruct (dict_lookup (pearson_r_tensor s) c) as [acc|] eqn:Hacc; [| discriminate].
  simpl in Hrun1.
  pose proof (cat_matrix_ok _ _ _ Hrun1) as (-> & _).
  apply dict_lookup_ok in Hacc. apply dict_lookup_ok in Hrun3.
  eexists _, _, _, _, _. repeat split; eauto.
  rewrite <- app_assoc. reflexivity.
Qed.

Lemma accumulate_correlations_advance ctx step c s s' u :
  accumulate_correlations ctx step c s = (s', Ok u) →
  ∃ pearson_r row,
    advance s s' [EvMatrix c step pearson_r; EvContrast c step row].
Proof.
  intros H. apply accumulate_correlations_ok in H
    as (flat & pearson_r & row & acc & acc_t & _ & _ & Hacc & _ & _ & Hacct
        & Ht & Hc & Htr & _ & Hg & Hn & _).
  exists pearson_r, row. split; auto.
  - simpl. lia.
  - intros a acc0 Ha. rewrite Ht. simpl.
    destruct (String.eqb_spec c a) as [->|Hne].
    + rewrite lookup_insert_eq. simpl. congruence.
    + rewrite lookup_insert_ne by exact Hne. simpl. rewrite app_nil_r. exact Ha.
  - intros a acc0 Ha. rewrite Hc. simpl.
    destruct (String.eqb_spec c a) as [->|Hne].
    + rewrite lookup_insert_eq. simpl. congruence.
    + rewrite lookup_insert_ne by exact Hne. simpl. rewrite app_nil_r. exact Ha.
  - intros a Ha. rewrite Ht. rewrite lookup_insert_ne; [exact Ha | congruence].
  - intros a Ha. rewrite Hc. rewrite lookup_insert_ne; [exact Ha | congruence].
Qed.

(** ** The choice of features (lines 327-350) *)

Lemma fetch_ok recall_outputs path s s' u :
  fetch recall_outputs path s = (s', Ok u) →
  ∃ rows, rbind (dict_path recall_outputs path) torch_flatten = Ok rows ∧
          s' = set_flat (Some rows) s.
Proof. unfold fetch. intros H. run_ok H. eauto. Qed.

Lemma same_books_refl s : same_books s s.
Proof. repeat split. Qed.

Lemma same_books_trans s1 s2 s3 :
  same_books s1 s2 → same_books s2 s3 → same_books s1 s3.
Proof.
  intros (T1 & G1 & N1 & A1 & B1) (T2 & G2 & N2 & A2 & B2).
  repeat split; congruence.
Qed.

Lemma when_fetch_books b recall_outputs path s s' u :
  when b (fetch recall_outputs path) s = (s', Ok u) → same_books s s'.
Proof.
  intros H. apply when_ok in H as [[_ H]|[_ ->]]; [| apply same_books_refl].
  apply fetch_ok in H as (rows & _ & ->). repeat split.
Qed.

Lemma select_features_books ctx recall_outputs c s s' u :
  select_features ctx recall_outputs c s = (s', Ok u) → same_books s s'.
Proof.
  unfold select_features. intros H.
  repeat (let s1 := fresh "s" in
          let H1 := fresh "H" in
          apply bind_ok in H as (s1 & ? & H1 & H);
          apply when_fetch_books in H1).
  apply when_ok in H as [[_ H]|[_ ->]].
  - run_ok H. apply fetch_ok in Hrun as (rows & _ & ->).
    repeat (eapply same_books_trans; [eassumption |]).
    repeat split.
  - repeat (eapply same_books_trans; [eassumption |]). apply same_books_refl.
Qed.

(** ** The shape of the trace of a successful run *)

(** A loop whose iterations advance the state advances it by the
    concatenation. *)
Lemma for_each_advance {A} (body : A → M unit) (shape : bool → A → list event) l :
  (∀ x s s' u, body x s = (s', Ok u) →
     ∃ evs, advance s s' evs ∧ map erase evs = shape (grad_enabled s) x) →
  ∀ s s' u, for_each l body s = (s', Ok u) →
    ∃ evs, advance s s' evs ∧
           map erase evs = concat (map (shape (grad_enabled s)) l).
Proof.
  intros Hbody. induction l as [|x l IH]; intros s s' u H; simpl in H.
  - apply ret_ok in H as [-> _]. exists []. split; [apply advance_refl | reflexivity].
  - apply bind_ok in H as (s1 & ? & H1 & H).
    apply Hbody in H1 as (evs1 & Ha1 & Hs1).
    apply IH in H as (evs2 & Ha2 & Hs2).
    exists (evs1 ++ evs2). split; [eapply advance_trans; eauto |].
    rewrite map_app, Hs1, Hs2. simpl.
    rewrite (adv_grad _ _ _ Ha1). reflexivity.
Qed.

Lemma accumulate_advance ctx step recall_outputs c s s' u :
  accumulate ctx step recall_outputs c s = (s', Ok u) →
  ∃ evs, advance s s' evs ∧ map erase evs = shape_accumulate step c.
Proof.
  unfold accumulate. intros H. apply bind_ok in H as (s1 & ? & H1 & H).
  apply select_features_books in H1.
  apply accumulate_correlations_advance in H as (pearson_r & row & Ha).
  eexists. split; [eapply advance_books_l; eauto | reflexivity].
Qed.

Lemma call_model_ok m step stim s s' out :
  call_model m step stim s = (s', Ok out) →
  advance s s' [EvModel m (grad_enabled s) step].
Proof.
  unfold call_model. intros H. run_ok H. simpl.
  eapply advance_books_l; [| apply advance_event; exact I].
  repeat split.
Qed.

Lemma advance_no_grad s s1 evs :
  advance (set_grad false s) s1 evs →
  advance s (set_grad (grad_enabled s) s1) evs.
Proof. intros [T G N A B C D]. split; simpl in *; auto. Qed.

Lemma probe_advance ctx recall_stim step s s' u :
  probe ctx recall_stim step s = (s', Ok u) →
  ∃ evs, advance s s' evs ∧ map erase evs = shape_probe step.
Proof.
  unfold probe. intros H. apply with_no_grad_ok in H as (s1 & H & ->).
  apply bind_ok in H as (s2 & out & H1 & H).
  apply call_model_ok in H1.
  apply (for_each_advance _ (λ _, shape_accumulate step)) in H
    as (evs & Ha & Hs); [| intros; eapply accumulate_advance; eauto].
  exists (EvModel Recall false step :: evs). split.
  - apply advance_no_grad. exact (advance_trans _ _ _ _ _ H1 Ha).
  - simpl. rewrite Hs. reflexivity.
Qed.

Lemma study_step_advance ctx stims step s s' u :
  study_step ctx stims step s = (s', Ok u) →
  ∃ evs, advance s s' evs ∧ map erase evs = shape_step (grad_enabled s) step.
Proof.
  unfold study_step, shape_step. intros H.
  apply bind_ok in H as (s1 & out & H1 & H).
  apply call_model_ok in H1.
  destruct (probe_due step).
  - apply probe_advance in H as (evs & Ha & Hs).
    eexists. split; [exact (advance_trans _ _ _ _ _ H1 Ha) |].
    simpl. rewrite Hs. reflexivity.
  - apply ret_ok in H as [-> _]. eexists. split; [exact H1 | reflexivity].
Qed.

Lemma study_loop_advance ctx stims s s' u :
  study_loop ctx stims s = (s', Ok u) →
  ∃ evs, advance s s' evs ∧ map erase evs = shape_study_loop (grad_enabled s).
Proof.
  unfold study_loop, shape_study_loop. intros H.
  eapply for_each_advance in H; [exact H |].
  intros. eapply study_step_advance; eauto.
Qed.

Lemma compare_metrics_advance s s' u :
  compare_metrics s = (s', Ok u) →
  ∃ evs, advance s s' evs ∧ map erase evs = repeat (EvCompare "") metrics_count.
Proof.
  unfold compare_metrics, metrics_count.
  destruct (metrics cfg) as [[|first_item rest]|]; intros H;
    try (apply ret_ok in H as [-> _]; exists [];
         split; [apply advance_refl | reflexivity]).
  destruct (forallb _ _); [| apply lift_ok in H as [_ H]; discriminate H].
  apply (for_each_advance _ (λ _ _, [EvCompare ""])) in H as (evs & Ha & Hs).
  - exists evs. split; [exact Ha |]. rewrite Hs.
    generalize (length first_item.2) at 1 2. intros n.
    generalize 0. induction n as [|n IH]; intros k; simpl; [reflexivity |].
    rewrite IH. reflexivity.
  - intros i s0 s0' u0 H0. run_ok H0.
    eexists. split; [apply advance_event; exact I | reflexivity].
Qed.

Lemma recall_phase_advance s s' u :
  recall_phase s = (s', Ok u) →
  ∃ evs, advance s s' evs ∧ map erase evs = shape_recall_phase.
Proof.
  unfold recall_phase, shape_recall_phase. intros H.
  apply with_no_grad_ok in H as (s1 & H & ->).
  apply bind_ok in H as (s2 & ? & H1 & H).
  apply compare_metrics_advance in H1 as (evs & Ha & Hs).
  apply emit_ok in H as ->.
  exists (evs ++ [EvCompare "pr_rf_"]). split.
  - apply advance_no_grad. eapply advance_trans; [exact Ha |].
    apply advance_event. exact I.
  - rewrite map_app, Hs. reflexivity.
Qed.

Lemma study_phase_advance ctx idx batch s s' u :
  study_phase ctx idx batch s = (s', Ok u) →
  ∃ evs, advance s s' evs ∧
         map erase evs = EvTrial idx :: EvReset :: shape_study_loop (grad_enabled s).
Proof.
  unfold study_phase. intros H. run_ok H.
  apply study_loop_advance in H as (evs & Ha & Hs).
  exists (EvTrial idx :: EvReset :: evs). split.
  - change (EvTrial idx :: EvReset :: evs) with ([EvTrial idx] ++ [EvReset] ++ evs).
    eapply advance_trans; [apply advance_event; exact I |].
    eapply advance_trans; [| exact Ha].
    eapply advance_books_l; [| apply advance_event; exact I]. repeat split.
  - simpl. rewrite Hs. reflexivity.
Qed.

Lemma trial_advance ctx idx batch s s' u :
  trial ctx idx batch s = (s', Ok u) →
  ∃ evs, advance s s' evs ∧ map erase evs = shape_trial (grad_enabled s) idx.
Proof.
  unfold trial, shape_trial. intros H.
  apply bind_ok in H as (s1 & ? & H1 & H).
  apply study_phase_advance in H1 as (evs1 & Ha1 & Hs1).
  run_ok H. apply recall_phase_advance in H as (evs2 & Ha2 & Hs2).
  exists (evs1 ++ evs2). split.
  - eapply advance_trans; [exact Ha1 |].
    eapply advance_books_l; [| exact Ha2]. repeat split.
  - rewrite map_app, Hs1, Hs2. reflexivity.
Qed.

Lemma epoch_advance n stm_epoch s s' u :
  epoch (n, make_generator W (experiment cfg) n)
        (S n, make_generator W (experiment cfg) (S n)) stm_epoch s = (s', Ok u) →
  ∃ evs, advance s s' evs ∧ map erase evs = shape_epoch (grad_enabled s) n stm_epoch.
Proof.
  unfold epoch, shape_epoch. intros H. run_ok H. simpl in H.
  apply (for_each_advance _ (λ g p, shape_trial g p.1)) in H as (evs & Ha & Hs);
    [| intros; eapply trial_advance; eauto].
  exists (EvEpoch stm_epoch n (S n) :: evs). split.
  - change (EvEpoch stm_epoch n (S n) :: evs)
      with ([EvEpoch stm_epoch n (S n)] ++ evs).
    eapply advance_trans; [| exact Ha].
    eapply advance_books_l; [| apply advance_event; exact I]. repeat split.
  - simpl. rewrite Hs. reflexivity.
Qed.

Lemma new_generator_ok s s' g :
  new_generator s = (s', Ok g) →
  g = (generators_built s, make_generator W (experiment cfg) (generators_built s)) ∧
  advance s s' [EvGenerator (generators_built s)].
Proof.
  unfold new_generator. intros H. injection H as <- <-.
  split; [reflexivity |]. split; simpl; intros; rewrite ?app_nil_r; auto; lia.
Qed.

Lemma save_results_advance s s' u :
  save_results s = (s', Ok u) →
  ∃ evs, advance s s' evs ∧
         map erase evs = [EvWrite "predictions_early" []; EvWrite "predictions_late" [];
                          EvWrite "pair_inputs" []].
Proof.
  unfold save_results. intros H. run_ok H.
  match goal with
  | |- ∃ _, advance _ (record_event ?e3 (record_event ?e2 (record_event ?e1 _))) _ ∧ _ =>
      exists [e1; e2; e3]
  end.
  split; [| reflexivity].
  eapply (advance_trans _ _ _ [_] [_; _]); [apply advance_event; exact I |].
  eapply (advance_trans _ _ _ [_] [_]); apply advance_event; exact I.
Qed.

(** The constructions among the events of a shape. *)
Lemma generators_of_erase evs : generators_of (map erase evs) = generators_of evs.
Proof.
  induction evs as [|e t IH]; [reflexivity |].
  change (generators_of ([erase e] ++ map erase t) = generators_of ([e] ++ t)).
  rewrite !generators_of_app, IH. destruct e; reflexivity.
Qed.

Lemma generators_of_concat_nil {A} (f : A → list event) l :
  (∀ x, generators_of (f x) = []) → generators_of (concat (map f l)) = [].
Proof.
  intros Hf. induction l as [|x l IH]; [reflexivity |].
  simpl. rewrite generators_of_app, Hf, IH. reflexivity.
Qed.

Lemma generators_of_trial grad idx : generators_of (shape_trial grad idx) = [].
Proof.
  unfold shape_trial, shape_study_loop, shape_recall_phase.
  change (EvTrial idx :: EvReset :: ?l) with ([EvTrial idx; EvReset] ++ l).
  rewrite !generators_of_app, generators_of_concat_nil.
  - simpl. induction metrics_count as [|n IH]; [reflexivity | exact IH].
  - intros step. unfold shape_step, shape_probe.
    destruct (probe_due step); [| reflexivity].
    change (generators_of (concat (map (shape_accumulate step) components)) = []).
    apply generators_of_concat_nil. reflexivity.
Qed.

Lemma generators_of_epoch grad n stm_epoch :
  generators_of (shape_epoch grad n stm_epoch) = [].
Proof.
  unfold shape_epoch.
  change (generators_of (concat (map (λ p, shape_trial grad p.1) (trials_of n))) = []).
  apply generators_of_concat_nil. intros p. apply generators_of_trial.
Qed.

Lemma generators_of_seed grad n : generators_of (shape_seed grad n) = [n; S n].
Proof.
  unfold shape_seed.
  change (EvGenerator n :: EvGenerator (S n) :: ?l)
    with ([EvGenerator n; EvGenerator (S n)] ++ l).
  rewrite !generators_of_app, generators_of_concat_nil; [reflexivity |].
  intros e. apply generators_of_epoch.
Qed.

Lemma seed_run_advance k s s' u :
  seed_run k s = (s', Ok u) →
  ∃ evs, advance s s' evs ∧
         map erase evs = shape_seed (grad_enabled s) (generators_built s).
Proof.
  unfold seed_run, shape_seed. intros H.
  apply bind_ok in H as (s1 & ? & H1 & H). apply modify_ok in H1 as ->.
  apply bind_ok in H as (s2 & g1 & H1 & H).
  apply new_generator_ok in H1 as [-> Ha1].
  apply bind_ok in H as (s3 & g2 & H2 & H).
  apply new_generator_ok in H2 as [-> Ha2].
  pose proof (adv_generators _ _ _ Ha1) as Hn. simpl in Hn.
  assert (generators_built s2 = S (generators_built s)) as Hn2 by lia.
  rewrite Hn2 in *. clear Hn.
  apply bind_ok in H as (s4 & ? & H3 & H). apply modify_ok in H3 as ->.
  apply bind_ok in H as (s5 & ? & H4 & H). apply modify_ok in H4 as ->.
  apply bind_ok in H as (s6 & ? & H5 & H).
  apply (for_each_advance _ (λ g e, shape_epoch g (generators_built s) e)) in H5
    as (evs5 & Ha5 & Hs5); [| intros; eapply epoch_advance; eauto].
  apply save_results_advance in H as (evs6 & Ha6 & Hs6).
  simpl in Hs5. rewrite (adv_grad _ _ _ Ha2), (adv_grad _ _ _ Ha1) in Hs5. simpl in Hs5.
  exists ([EvGenerator (generators_built s)] ++ [EvGenerator (S (generators_built s))]
          ++ evs5 ++ evs6). split.
  - apply (advance_books_l s (set_model (Some (pretrained_model W k)) s));
      [repeat split |].
    eapply advance_trans; [exact Ha1 |].
    eapply advance_trans; [exact Ha2 |].
    eapply advance_trans; [| exact Ha6].
    eapply advance_books_l; [| exact Ha5]. repeat split.
  - simpl. rewrite map_app, Hs5, Hs6. reflexivity.
Qed.

Lemma seeds_advance ks s s' u :
  for_each ks seed_run s = (s', Ok u) →
  ∃ evs, advance s s' evs ∧
         map erase evs = shape_seeds (grad_enabled s) (generators_built s) ks.
Proof.
  revert s. induction ks as [|k ks IH]; intros s H; simpl in H.
  - apply ret_ok in H as [-> _]. exists []. split; [apply advance_refl | reflexivity].
  - apply bind_ok in H as (s1 & ? & H1 & H).
    apply seed_run_advance in H1 as (evs1 & Ha1 & Hs1).
    apply IH in H as (evs2 & Ha2 & Hs2).
    exists (evs1 ++ evs2). split; [eapply advance_trans; eauto |].
    rewrite map_app, Hs1, Hs2. simpl.
    rewrite (adv_grad _ _ _ Ha1), (adv_generators _ _ _ Ha1).
    rewrite <- generators_of_erase, Hs1, generators_of_seed. simpl.
    repeat f_equal. lia.
Qed.

(** ** The accumulators of a run that took no exception *)

Lemma dict_of_keys_lookup {V} (keys : list string) (v : V) a :
  dict_of_keys keys v !! a = if decide (a ∈ keys) then Some v else None.
Proof.
  induction keys as [|k keys IH]; simpl.
  - rewrite lookup_empty. destruct (decide (a ∈ [])) as [Hin|]; [| reflexivity].
    inversion Hin.
  - destruct (decide (k = a)) as [->|Hne].
    + rewrite lookup_insert_eq. rewrite decide_True; [reflexivity | left].
    + rewrite lookup_insert_ne by exact Hne. rewrite IH.
      destruct (decide (a ∈ keys)) as [Hin|Hnin].
      * rewrite decide_True; [reflexivity | right; exact Hin].
      * rewrite decide_False; [reflexivity |].
        intros Hin. apply elem_of_cons in Hin as [->|Hin]; auto.
Qed.

Lemma experiment_loops_ok s' u :
  experiment_loops initial_state = (s', Ok u) →
  map erase (trace s') = shape_run ∧
  ∀ a, a ∈ components →
    pearson_r_tensor s' !! a = Some (zero_matrix :: (matrices_of a (trace s')).*2) ∧
    pearson_r_test s' !! a = Some (zero_row :: (contrasts_of a (trace s')).*2).
Proof.
  unfold experiment_loops, init_accumulators. intros H.
  apply bind_ok in H as (s1 & ? & H1 & H). run_ok H1.
  apply seeds_advance in H as (evs & [T G N A B _ _] & Hs). simpl in *.
  rewrite T. split; [exact Hs |].
  intros c Hc. split.
  - apply (A c [zero_matrix]). rewrite dict_of_keys_lookup, decide_True; auto.
  - apply (B c [zero_row]). rewrite dict_of_keys_lookup, decide_True; auto.
Qed.

(** ** Which probe wrote which entry *)

Lemma matrix_steps_app a l1 l2 :
  matrix_steps a (l1 ++ l2) = matrix_steps a l1 ++ matrix_steps a l2.
Proof. apply omap_app. Qed.

Lemma contrast_steps_app a l1 l2 :
  contrast_steps a (l1 ++ l2) = contrast_steps a l1 ++ contrast_steps a l2.
Proof. apply omap_app. Qed.

Lemma trials_of_trace_app l1 l2 :
  trials_of_trace (l1 ++ l2) = trials_of_trace l1 ++ trials_of_trace l2.
Proof. apply omap_app. Qed.

Lemma matrix_steps_erase a evs :
  matrix_steps a (map erase evs) = (matrices_of a evs).*1.
Proof.
  induction evs as [|e t IH]; [reflexivity |].
  change (matrix_steps a ([erase e] ++ map erase t) = (matrices_of a ([e] ++ t)).*1).
  rewrite matrix_steps_app, matrices_of_app, fmap_app, IH. f_equal.
  destruct e; try reflexivity. simpl. destruct (String.eqb component a); reflexivity.
Qed.

Lemma contrast_steps_erase a evs :
  contrast_steps a (map erase evs) = (contrasts_of a evs).*1.
Proof.
  induction evs as [|e t IH]; [reflexivity |].
  change (contrast_steps a ([erase e] ++ map erase t) = (contrasts_of a ([e] ++ t)).*1).
  rewrite contrast_steps_app, contrasts_of_app, fmap_app, IH. f_equal.
  destruct e; try reflexivity. simpl. destruct (String.eqb component a); reflexivity.
Qed.

Lemma trials_of_trace_erase evs :
  trials_of_trace (map erase evs) = trials_of_trace evs.
Proof.
  induction evs as [|e t IH]; [reflexivity |].
  change (trials_of_trace ([erase e] ++ map erase t) = trials_of_trace ([e] ++ t)).
  rewrite !trials_of_trace_app, IH. destruct e; reflexivity.
Qed.

Lemma omap_concat_map {A B C} (h : B → option C) (f : A → list B) l :
  omap h (concat (map f l)) = concat (map (λ x, omap h (f x)) l).
Proof.
  induction l as [|x l IH]; [reflexivity |].
  simpl. rewrite omap_app, IH. reflexivity.
Qed.

Lemma concat_map_nil {A B} (f : A → list B) l :
  (∀ x, x ∈ l → f x = []) → concat (map f l) = [].
Proof.
  induction l as [|x l IH]; intros H; [reflexivity |].
  simpl. rewrite H by left. apply IH. intros y Hy. apply H. right. exact Hy.
Qed.

Lemma probed_steps_with {B} (f : Z → B) :
  (1 ≤ early_response_step cfg < late_response_steps cfg)%Z →
  concat (map (λ step, if probe_due step then [f step] else [])
            (range (late_response_steps cfg)))
  = [f (early_response_step cfg - 1)%Z; f (late_response_steps cfg - 1)%Z].
Proof.
  intros Hsteps. unfold range.
  set (e := early_response_step cfg) in *. set (l := late_response_steps cfg) in *.
  set (i := Z.to_nat (e - 1)). set (j := Z.to_nat (l - 1)).
  assert (Z.to_nat l = i + (1 + ((j - i - 1) + 1))) as -> by lia.
  rewrite !seq_app, !map_app, !concat_app. simpl.
  rewrite !concat_map_nil.
  - unfold probe_due. fold e l.
    replace (Z.of_nat i) with (e - 1)%Z by lia.
    replace (Z.of_nat (i + 1 + (j - i - 1))) with (l - 1)%Z by lia.
    rewrite Z.eqb_refl. rewrite (Z.eqb_refl (l - 1)), orb_true_r.
    simpl. reflexivity.
  - intros x Hx. apply list_elem_of_In, in_map_iff in Hx as (k & <- & Hk).
    apply in_seq in Hk. unfold probe_due. fold e l.
    destruct (Z.eqb_spec (Z.of_nat k) (e - 1)); [lia |].
    destruct (Z.eqb_spec (Z.of_nat k) (l - 1)); [lia | reflexivity].
  - intros x Hx. apply list_elem_of_In, in_map_iff in Hx as (k & <- & Hk).
    apply in_seq in Hk. unfold probe_due. fold e l.
    destruct (Z.eqb_spec (Z.of_nat k) (e - 1)); [lia |].
    destruct (Z.eqb_spec (Z.of_nat k) (l - 1)); [lia | reflexivity].
Qed.

Lemma probed_steps :
  (1 ≤ early_response_step cfg < late_response_steps cfg)%Z →
  concat (map (λ step, if probe_due step then [step] else [])
            (range (late_response_steps cfg))) = probe_pair.
Proof. apply (probed_steps_with (λ step, step)). Qed.

Section Tagging.
Context (a : string).
Hypothesis Hsteps : (1 ≤ early_response_step cfg < late_response_steps cfg)%Z.
Hypothesis Hnodup : NoDup components.
Hypothesis Ha : a ∈ components.

Lemma matrix_steps_components step (l : list string) :
  NoDup l →
  matrix_steps a (concat (map (shape_accumulate step) l))
  = if decide (a ∈ l) then [step] else [].
Proof.
  induction l as [|c l IH]; intros Hnd.
  - destruct (decide (a ∈ [])) as [Hin|]; [inversion Hin | reflexivity].
  - apply NoDup_cons in Hnd as [Hc Hnd].
    rewrite map_cons, concat_cons, matrix_steps_app, IH by exact Hnd.
    assert (matrix_steps a (shape_accumulate step c)
            = if String.eqb c a then [step] else []) as ->.
    { unfold matrix_steps. simpl. destruct (String.eqb c a); reflexivity. }
    destruct (String.eqb_spec c a) as [->|Hne].
    + rewrite decide_False by exact Hc. rewrite decide_True by left. reflexivity.
    + destruct (decide (a ∈ l)) as [Hin|Hnin].
      * rewrite decide_True by (right; exact Hin). reflexivity.
      * rewrite decide_False; [reflexivity |].
        intros Hin. apply elem_of_cons in Hin as [->|Hin]; auto.
Qed.

Lemma contrast_steps_components step (l : list string) :
  NoDup l →
  contrast_steps a (concat (map (shape_accumulate step) l))
  = if decide (a ∈ l) then [step] else [].
Proof.
  induction l as [|c l IH]; intros Hnd.
  - destruct (decide (a ∈ [])) as [Hin|]; [inversion Hin | reflexivity].
  - apply NoDup_cons in Hnd as [Hc Hnd].
    rewrite map_cons, concat_cons, contrast_steps_app, IH by exact Hnd.
    assert (contrast_steps a (shape_accumulate step c)
            = if String.eqb c a then [step] else []) as ->.
    { unfold contrast_steps. simpl. destruct (String.eqb c a); reflexivity. }
    destruct (String.eqb_spec c a) as [->|Hne].
    + rewrite decide_False by exact Hc. rewrite decide_True by left. reflexivity.
    + destruct (decide (a ∈ l)) as [Hin|Hnin].
      * rewrite decide_True by (right; exact Hin). reflexivity.
      * rewrite decide_False; [reflexivity |].
        intros Hin. apply elem_of_cons in Hin as [->|Hin]; auto.
Qed.

Lemma matrix_steps_step grad step :
  matrix_steps a (shape_step grad step) = if probe_due step then [step] else [].
Proof.
  unfold shape_step, shape_probe. destruct (probe_due step); [| reflexivity].
  change (matrix_steps a (concat (map (shape_accumulate step) components)) = [step]).
  rewrite matrix_steps_components, decide_True; auto.
Qed.

Lemma contrast_steps_step grad step :
  contrast_steps a (shape_step grad step) = if probe_due step then [step] else [].
Proof.
  unfold shape_step, shape_probe. destruct (probe_due step); [| reflexivity].
  change (contrast_steps a (concat (map (shape_accumulate step) components)) = [step]).
  rewrite contrast_steps_components, decide_True; auto.
Qed.

Lemma trials_of_trace_step grad step : trials_of_trace (shape_step grad step) = [].
Proof.
  unfold shape_step, shape_probe. destruct (probe_due step); [| reflexivity].
  change (trials_of_trace (concat (map (shape_accumulate step) components)) = []).
  unfold trials_of_trace. rewrite omap_concat_map.
  apply concat_map_nil. reflexivity.
Qed.

Lemma balanced_nil : balanced a [].
Proof. split; reflexivity. Qed.

Lemma concat_repeat_add {A} (p : list A) n m :
  concat (repeat p (n + m)) = concat (repeat p n) ++ concat (repeat p m).
Proof. rewrite repeat_app, concat_app. reflexivity. Qed.

Lemma balanced_app l1 l2 : balanced a l1 → balanced a l2 → balanced a (l1 ++ l2).
Proof.
  intros [M1 C1] [M2 C2]. split.
  - rewrite matrix_steps_app, trials_of_trace_app, length_app,
      concat_repeat_add, M1, M2. reflexivity.
  - rewrite contrast_steps_app, trials_of_trace_app, length_app,
      concat_repeat_add, C1, C2. reflexivity.
Qed.

Lemma balanced_concat {A} (f : A → list event) l :
  (∀ x, balanced a (f x)) → balanced a (concat (map f l)).
Proof.
  intros Hf. induction l as [|x l IH]; [apply balanced_nil |].
  simpl. apply balanced_app; auto.
Qed.

Lemma matrix_steps_study_loop grad :
  matrix_steps a (shape_study_loop grad) = probe_pair.
Proof.
  unfold shape_study_loop, matrix_steps. rewrite omap_concat_map.
  rewrite (map_ext _ (λ step, if probe_due step then [step] else []));
    [apply probed_steps; exact Hsteps |].
  intros step. apply matrix_steps_step.
Qed.

Lemma contrast_steps_study_loop grad :
  contrast_steps a (shape_study_loop grad) = probe_pair.
Proof.
  unfold shape_study_loop, contrast_steps. rewrite omap_concat_map.
  rewrite (map_ext _ (λ step, if probe_due step then [step] else []));
    [apply probed_steps; exact Hsteps |].
  intros step. apply contrast_steps_step.
Qed.

Lemma trials_of_trace_study_loop grad :
  trials_of_trace (shape_study_loop grad) = [].
Proof.
  unfold shape_study_loop, trials_of_trace. rewrite omap_concat_map.
  apply concat_map_nil. intros step _. apply trials_of_trace_step.
Qed.

Lemma balanced_trial grad idx : balanced a (shape_trial grad idx).
Proof.
  unfold shape_trial, shape_recall_phase.
  change (EvTrial idx :: EvReset :: ?l) with ([EvTrial idx; EvReset] ++ l).
  assert (∀ n, matrix_steps a (repeat (EvCompare "") n) = [] ∧
               contrast_steps a (repeat (EvCompare "") n) = [] ∧
               trials_of_trace (repeat (EvCompare "") n) = []) as Hrep.
  { induction n as [|n IH]; [repeat split | exact IH]. }
  destruct (Hrep metrics_count) as (R1 & R2 & R3).
  split.
  - rewrite !matrix_steps_app, !trials_of_trace_app, R1, R3,
      matrix_steps_study_loop, trials_of_trace_study_loop.
    simpl. rewrite ?app_nil_r. reflexivity.
  - rewrite !contrast_steps_app, !trials_of_trace_app, R2, R3,
      contrast_steps_study_loop, trials_of_trace_study_loop.
    simpl. rewrite ?app_nil_r. reflexivity.
Qed.

Lemma balanced_epoch grad n stm_epoch : balanced a (shape_epoch grad n stm_epoch).
Proof.
  unfold shape_epoch. apply (balanced_app [_]); [split; reflexivity |].
  apply (balanced_concat (λ p, shape_trial grad p.1)).
  intros p. apply balanced_trial.
Qed.

Lemma balanced_seed grad n : balanced a (shape_seed grad n).
Proof.
  unfold shape_seed. apply (balanced_app [_; _]); [split; reflexivity |].
  apply balanced_app; [| split; reflexivity].
  apply balanced_concat. intros e. apply balanced_epoch.
Qed.

Lemma balanced_seeds {A} grad n (ks : list A) : balanced a (shape_seeds grad n ks).
Proof.
  revert n. induction ks as [|k ks IH]; intros n; [apply balanced_nil |].
  simpl. apply balanced_app; [apply balanced_seed | apply IH].
Qed.
End Tagging.

(** ** The two slices of an accumulator (lines 466-473) *)

Lemma early_slice_cons {A} (p : A) (l : list A) : early_slice (p :: l) = stride 2 0 l.
Proof.
  unfold early_slice, py_slice. rewrite take_ge by lia. reflexivity.
Qed.

Lemma late_slice_cons {A} (p : A) (l : list A) : late_slice (p :: l) = stride 2 1 l.
Proof.
  unfold late_slice, py_slice. rewrite take_ge by (simpl; lia).
  destruct l; reflexivity.
Qed.

Lemma stride_tagged {X} (x y : Z) (T : nat) (entries : list (Z * X)) :
  x ≠ y →
  entries.*1 = concat (repeat [x; y] T) →
  stride 2 0 entries.*2 = tagged x entries ∧
  stride 2 1 entries.*2 = tagged y entries ∧
  length (tagged x entries) = T ∧ length (tagged y entries) = T ∧
  length entries = 2 * T.
Proof.
  intros Hxy. revert entries. induction T as [|T IH]; intros entries H.
  - destruct entries; [| discriminate H]. repeat split.
  - destruct entries as [|[x1 m1] [|[y1 m2] rest]]; try discriminate H.
    simpl in H. injection H as -> -> H.
    destruct (IH rest H) as (E & L & NE & NL & Len).
    unfold tagged in *.
    rewrite !filter_cons. simpl.
    rewrite decide_True by reflexivity.
    rewrite (decide_False (P := y = x)) by congruence.
    rewrite (decide_False (P := x = y)) by congruence.
    rewrite decide_True by reflexivity.
    rewrite !fmap_cons. cbn [length snd].
    rewrite NE, NL, <- E, <- L, Len. repeat split; try reflexivity; lia.
Qed.

(** ** The number of trials of a run (lines 92, 213, 217-220) *)

Lemma length_trials_of n : length (trials_of n) = trials_per_epoch n.
Proof.
  unfold trials_of, trials_per_epoch. rewrite length_imap. apply length_zip_with.
Qed.

Lemma trials_of_trace_trials grad (l : list (nat * (list (Z * Z) * list (Z * Z)))) :
  length (trials_of_trace (concat (map (λ p, shape_trial grad p.1) l))) = length l.
Proof.
  induction l as [|p l IH]; [reflexivity |].
  rewrite map_cons, concat_cons, trials_of_trace_app, length_app, IH.
  unfold shape_trial, shape_recall_phase.
  change (EvTrial p.1 :: EvReset :: ?x) with ([EvTrial p.1; EvReset] ++ x).
  rewrite !trials_of_trace_app, trials_of_trace_study_loop.
  assert (∀ n, trials_of_trace (repeat (EvCompare "") n) = []) as Hrep
    by (induction n as [|n IHn]; [reflexivity | exact IHn]).
  rewrite Hrep. reflexivity.
Qed.

Lemma trials_of_trace_epochs grad n (epochs : list Z) :
  length (trials_of_trace (concat (map (shape_epoch grad n) epochs)))
  = length epochs * trials_per_epoch n.
Proof.
  induction epochs as [|e epochs IH]; [reflexivity |].
  rewrite map_cons, concat_cons, trials_of_trace_app, length_app, IH.
  unfold shape_epoch.
  change (EvEpoch e n (S n) :: ?x) with ([EvEpoch e n (S n)] ++ x).
  rewrite trials_of_trace_app, length_app, trials_of_trace_trials, length_trials_of.
  reflexivity.
Qed.

Lemma length_range n : length (range n) = Z.to_nat n.
Proof. unfold range. rewrite length_map, length_seq. reflexivity. Qed.

Lemma trials_of_trace_seed grad n :
  length (trials_of_trace (shape_seed grad n))
  = Z.to_nat (train_epochs cfg) * trials_per_epoch n.
Proof.
  unfold shape_seed.
  change (EvGenerator n :: EvGenerator (S n) :: ?x ++ ?y)
    with ([EvGenerator n; EvGenerator (S n)] ++ x ++ y).
  rewrite !trials_of_trace_app, !length_app, trials_of_trace_epochs, length_range.
  simpl. lia.
Qed.

Lemma trials_of_trace_seeds {A} grad (ks : list A) :
  ∀ n, length (trials_of_trace (shape_seeds grad n ks))
       = sum_list (map (λ k, Z.to_nat (train_epochs cfg) * trials_per_epoch (n + 2 * k))
                     (seq 0 (length ks))).
Proof.
  induction ks as [|k ks IH]; intros n; [reflexivity |].
  change (shape_seeds grad n (k :: ks))
    with (shape_seed grad n ++ shape_seeds grad (S (S n)) ks).
  rewrite trials_of_trace_app, length_app, trials_of_trace_seed, IH.
  simpl. rewrite Nat.add_0_r. f_equal.
  rewrite <- seq_shift, map_map. f_equal. apply map_ext. intros i.
  f_equal. f_equal. lia.
Qed.

Lemma trials_of_run s' u :
  experiment_loops initial_state = (s', Ok u) →
  length (trials_of_trace (trace s')) = total_trials.
Proof.
  intros Hrun. destruct (experiment_loops_ok _ _ Hrun) as [Hshape _].
  rewrite <- trials_of_trace_erase, Hshape. unfold shape_run, total_trials.
  rewrite trials_of_trace_seeds, length_range. reflexivity.
Qed.

Lemma slices_of_run (a : string) (s' : state) (u : unit) :
  (1 ≤ early_response_step cfg < late_response_steps cfg)%Z →
  NoDup components →
  a ∈ components →
  experiment_loops initial_state = (s', Ok u) →
  let T := total_trials in
  let early := (early_response_step cfg - 1)%Z in
  let late := (late_response_steps cfg - 1)%Z in
  ∃ tensor test,
    pearson_r_tensor s' !! a = Some tensor ∧
    pearson_r_test s' !! a = Some test ∧
    length (early_slice tensor) = T ∧ length (late_slice tensor) = T ∧
    length (early_slice test) = T ∧ length (late_slice test) = T ∧
    early_slice tensor = tagged early (matrices_of a (trace s')) ∧
    late_slice tensor = tagged late (matrices_of a (trace s')) ∧
    early_slice test = tagged early (contrasts_of a (trace s')) ∧
    late_slice test = tagged late (contrasts_of a (trace s')) ∧
    length tensor = 1 + 2 * T ∧ length test = 1 + 2 * T ∧
    Forall (λ p, (p.1 = early ∨ p.1 = late) ∧ early ≠ late) (matrices_of a (trace s')) ∧
    Forall (λ p, (p.1 = early ∨ p.1 = late) ∧ early ≠ late) (contrasts_of a (trace s')).
Proof.
  intros Hsteps Hnd Ha Hrun. rewrite <- (trials_of_run s' u Hrun).
  intros T early late.
  destruct (experiment_loops_ok _ _ Hrun) as [Hshape Hacc].
  destruct (Hacc a Ha) as [Ht Hc].
  pose proof (balanced_seeds a Hsteps Hnd Ha true 0 (range (seeds cfg))) as [Bm Bc].
  fold shape_run in Bm, Bc. rewrite <- Hshape in Bm, Bc.
  rewrite matrix_steps_erase, trials_of_trace_erase in Bm.
  rewrite contrast_steps_erase, trials_of_trace_erase in Bc.
  assert (early ≠ late) as Hne by (unfold early, late; lia).
  destruct (stride_tagged early late T _ Hne Bm) as (M1 & M2 & M3 & M4 & M5).
  destruct (stride_tagged early late T _ Hne Bc) as (C1 & C2 & C3 & C4 & C5).
  assert (∀ X (entries : list (Z * X)),
            entries.*1 = concat (repeat [early; late] T) →
            Forall (λ p, (p.1 = early ∨ p.1 = late) ∧ early ≠ late) entries) as Hall.
  { intros X entries He. apply Forall_forall. intros p Hp. split; [| exact Hne].
    assert (p.1 ∈ entries.*1) as Hin by (apply list_elem_of_fmap; eauto).
    rewrite He in Hin. clear -Hin. induction T as [|n IH]; [inversion Hin |].
    simpl in Hin. apply elem_of_cons in Hin as [->|Hin]; [auto |].
    apply elem_of_cons in Hin as [->|Hin]; auto. }
  exists (zero_matrix :: (matrices_of a (trace s')).*2),
         (zero_row :: (contrasts_of a (trace s')).*2).
  rewrite !early_slice_cons, !late_slice_cons, M1, M2, C1, C2.
  simpl. rewrite !length_fmap, M5, C5.
  repeat split; auto.
Qed.

(** C1, amended: when the early step lies strictly between 0 and the late
    step, so that every trial is probed once early and once late, and no
    component is listed twice, a run without exception leaves, for every
    listed component, [T] entries in the early slice and [T] in the late
    slice of both accumulators, where [T] is the number of trials of the
    run: over the seeds and the epochs, one per pair of batches of the two
    loaders.  The early slice holds exactly the entries written at the early
    probe, the late slice those written at the late probe, and every entry
    ever written is one or the other (the two steps differ). *)
Theorem C1_early_late_counts (a : string) (s' : state) (u : unit) :
  (1 ≤ early_response_step cfg < late_response_steps cfg)%Z →
  NoDup components →
  a ∈ components →
  experiment_loops initial_state = (s', Ok u) →
  let T := total_trials in
  let early := (early_response_step cfg - 1)%Z in
  let late := (late_response_steps cfg - 1)%Z in
  ∃ tensor test,
    pearson_r_tensor s' !! a = Some tensor ∧
    pearson_r_test s' !! a = Some test ∧
    length (early_slice tensor) = T ∧ length (late_slice tensor) = T ∧
    length (early_slice test) = T ∧ length (late_slice test) = T ∧
    early_slice tensor = tagged early (matrices_of a (trace s')) ∧
    late_slice tensor = tagged late (matrices_of a (trace s')) ∧
    early_slice test = tagged early (contrasts_of a (trace s')) ∧
    late_slice test = tagged late (contrasts_of a (trace s')) ∧
    length tensor = 1 + 2 * T ∧ length test = 1 + 2 * T ∧
    Forall (λ p, (p.1 = early ∨ p.1 = late) ∧ early ≠ late) (matrices_of a (trace s')) ∧
    Forall (λ p, (p.1 = early ∨ p.1 = late) ∧ early ≠ late) (contrasts_of a (trace s')).
Proof. apply slices_of_run. Qed.

(** ** The probes of a trial *)

Lemma recall_calls_erase evs : recall_calls (map erase evs) = recall_calls evs.
Proof.
  induction evs as [|e t IH]; [reflexivity |].
  change (recall_calls ([erase e] ++ map erase t) = recall_calls ([e] ++ t)).
  unfold recall_calls in *. rewrite !omap_app, IH. destruct e; reflexivity.
Qed.

Lemma recall_calls_step grad step :
  recall_calls (shape_step grad step)
  = if probe_due step then [(false, step)] else [].
Proof.
  unfold shape_step, shape_probe. destruct (probe_due step); [| reflexivity].
  change (recall_calls (EvModel Study grad step :: EvModel Recall false step :: ?l))
    with ((false, step) :: recall_calls l).
  f_equal. unfold recall_calls. rewrite omap_concat_map.
  apply concat_map_nil. reflexivity.
Qed.

(** C2, amended: when the early step is at least 1 and strictly below the
    number of late steps, a study loop that takes no exception calls the
    model in recall mode exactly twice, at the loop indices early - 1 and
    late - 1, both times with autograd switched off. *)
Theorem C2_two_probes_per_trial (ctx : epoch_ctx) (stims : stimuli W * stimuli W)
    (s s' : state) (u : unit) :
  (1 ≤ early_response_step cfg < late_response_steps cfg)%Z →
  study_loop ctx stims s = (s', Ok u) →
  ∃ evs, trace s' = trace s ++ evs ∧
         recall_calls evs = [(false, (early_response_step cfg - 1)%Z);
                             (false, (late_response_steps cfg - 1)%Z)].
Proof.
  intros Hsteps H. apply study_loop_advance in H as (evs & Ha & Hs).
  exists evs. split; [apply (adv_trace _ _ _ Ha) |].
  rewrite <- recall_calls_erase, Hs.
  unfold shape_study_loop, recall_calls. rewrite omap_concat_map.
  rewrite (map_ext _ (λ step, if probe_due step then [(false, step)] else []));
    [| intros step; apply recall_calls_step].
  apply (probed_steps_with (λ step, (false, step))). exact Hsteps.
Qed.

(** ** Contrast vectors (lines 358-374) *)

Lemma rmap_ok {A B} (f : A → result B) l ys :
  rmap f l = Ok ys → Forall2 (λ x y, f x = Ok y) l ys.
Proof.
  revert ys. induction l as [|x l IH]; intros ys H; simpl in H.
  - injection H as <-. constructor.
  - destruct (f x) as [y|] eqn:Hx; [| discriminate H]. simpl in H.
    destruct (rmap f l) as [ys'|]; [| discriminate H]. simpl in H.
    injection H as <-. constructor; auto.
Qed.

Lemma py_sum_fold_right l : py_sum l = fold_right Rplus 0%R l.
Proof.
  unfold py_sum. apply fold_symmetric; intros; lra.
Qed.

Lemma py_get_nonneg {A} (l : list A) (i : Z) x :
  (0 ≤ i)%Z → py_get l i = Ok x → l !! Z.to_nat i = Some x.
Proof.
  intros Hi. unfold py_get.
  destruct (Z.ltb_spec i 0); [lia |].
  destruct (_ || _); [discriminate |].
  destruct (l !! Z.to_nat i); [| discriminate]. intros Hx. injection Hx as ->. reflexivity.
Qed.

Lemma cell_ok m ij v : item_cell ij → cell m ij = Ok v → v = cell_value m ij.
Proof.
  intros [H1 H2]. unfold cell, cell_value, entry.
  destruct (py_get m ij.1) as [row|] eqn:Hrow; [| discriminate]. simpl.
  intros Hv. apply py_get_nonneg in Hrow; [| exact H1].
  apply py_get_nonneg in Hv; [| exact H2].
  rewrite (nth_lookup_Some _ _ [] _ Hrow). symmetry. apply nth_lookup_Some. exact Hv.
Qed.

Lemma cells_mean_ok m cells v :
  Forall item_cell cells → cells_mean m cells = Ok v →
  v = mean_over m cells ∧ cells ≠ [].
Proof.
  intros Hcells. unfold cells_mean, mean_over.
  destruct (rmap (cell m) cells) as [xs|] eqn:Hxs; [| discriminate]. simpl.
  destruct (Nat.eqb_spec (length cells) 0) as [|Hlen]; [discriminate |].
  intros H. injection H as <-. split; [| intros ->; apply Hlen; reflexivity].
  f_equal. rewrite py_sum_fold_right. f_equal.
  apply rmap_ok in Hxs. clear Hlen.
  induction Hxs as [|ij x cells xs Hx _ IH]; [reflexivity |].
  apply Forall_cons in Hcells as [Hij Hcells]. simpl.
  rewrite (cell_ok _ _ _ Hij Hx), IH by exact Hcells. reflexivity.
Qed.

Lemma py_get_nth {A} (l : list A) (k : nat) (d x : A) :
  py_get l (Z.of_nat k) = Ok x → nth k l d = x.
Proof.
  intros H. apply py_get_nonneg in H; [| lia].
  rewrite Nat2Z.id in H. apply nth_lookup_Some. exact H.
Qed.

Lemma contrast_ok g m row :
  Forall (Forall item_cell) (partitions (experiment cfg) g) →
  contrast g m = Ok row →
  row = spec_contrast (experiment cfg) g m.
Proof.
  unfold contrast, spec_contrast, partitions.
  destruct (experiment cfg); intros Hp H.
  - apply Forall_cons in Hp as [Hcore Hp]. apply Forall_cons in Hp as [Htest _].
    destruct (cells_mean m (test_sequence g)) as [x|] eqn:E1; [| discriminate H].
    destruct (cells_mean m (core_sequence g)) as [y|] eqn:E2; [| discriminate H].
    simpl in H. injection H as <-.
    apply cells_mean_ok in E1 as [-> _]; [| exact Htest].
    apply cells_mean_ok in E2 as [-> _]; [| exact Hcore]. reflexivity.
  - apply Forall_cons in Hp as [H0 Hp]. apply Forall_cons in Hp as [H1 Hp].
    apply Forall_cons in Hp as [H2 Hp]. apply Forall_cons in Hp as [H3 _].
    destruct (py_get (graph_sequences g) 0) as [p0|] eqn:P0; [| discriminate H].
    simpl in H.
    destruct (cells_mean m p0) as [x0|] eqn:E0; [| discriminate H]. simpl in H.
    destruct (py_get (graph_sequences g) 1) as [p1|] eqn:P1; [| discriminate H].
    simpl in H.
    destruct (cells_mean m p1) as [x1|] eqn:E1; [| discriminate H]. simpl in H.
    destruct (py_get (graph_sequences g) 2) as [p2|] eqn:P2; [| discriminate H].
    simpl in H.
    destruct (cells_mean m p2) as [x2|] eqn:E2; [| discriminate H]. simpl in H.
    destruct (py_get (graph_sequences g) 3) as [p3|] eqn:P3; [| discriminate H].
    simpl in H.
    destruct (cells_mean m p3) as [x3|] eqn:E3; [| discriminate H]. simpl in H.
    injection H as <-.
    apply (py_get_nth _ 0 []) in P0. apply (py_get_nth _ 1 []) in P1.
    apply (py_get_nth _ 2 []) in P2. apply (py_get_nth _ 3 []) in P3.
    unfold within_internal, within_boundary, across_boundary, across_other in *.
    subst p0 p1 p2 p3.
    apply cells_mean_ok in E0 as [-> _]; [| exact H0].
    apply cells_mean_ok in E1 as [-> _]; [| exact H1].
    apply cells_mean_ok in E2 as [-> _]; [| exact H2].
    apply cells_mean_ok in E3 as [-> _]; [| exact H3]. reflexivity.
  - apply Forall_cons in Hp as [Htest Hp]. apply Forall_cons in Hp as [Hcore Hp].
    apply Forall_cons in Hp as [Hbase _].
    destruct (cells_mean m (test_sequence g)) as [x|] eqn:E1; [| discriminate H].
    destruct (cells_mean m (core_sequence g)) as [y|] eqn:E2; [| discriminate H].
    destruct (cells_mean m (base_sequence g)) as [z|] eqn:E3; [| discriminate H].
    simpl in H. injection H as <-.
    apply cells_mean_ok in E1 as [-> _]; [| exact Htest].
    apply cells_mean_ok in E2 as [-> _]; [| exact Hcore].
    apply cells_mean_ok in E3 as [-> _]; [| exact Hbase]. reflexivity.
Qed.

(** C3: at every probe and for every component whose accumulation takes no
    exception, the row appended to the contrast accumulator is the contrast
    vector of the experiment in the words of the specification: means of the
    cells of the probe's correlation matrix over the generator's partitions,
    whose cells are item indices. *)
Theorem C3_contrast_vector (ctx : epoch_ctx) (step : Z) (c : string)
    (s s' : state) (u : unit) :
  Forall (Forall item_cell) (partitions (experiment cfg) (sequence_study ctx)) →
  accumulate_correlations ctx step c s = (s', Ok u) →
  ∃ flat pearson_r acc,
    recall_outputs_flat s = Some flat ∧
    correlation_matrix (take (characters cfg) flat) = Ok pearson_r ∧
    pearson_r_test s !! c = Some acc ∧
    pearson_r_test s' !! c
    = Some (acc ++ [spec_contrast (experiment cfg) (sequence_study ctx) pearson_r]).
Proof.
  intros Hp H. apply accumulate_correlations_ok in H
    as (flat & pearson_r & row & acc & acc_t & Hflat & Hm & _ & _ & Hrow & Hacc
        & _ & Ht & _).
  apply contrast_ok in Hrow as ->; [| exact Hp].
  exists flat, pearson_r, acc_t. repeat split; auto.
  rewrite Ht, lookup_insert_eq. reflexivity.
Qed.

(** ** The correlation matrix of a probe (lines 352-356) *)

Lemma dot_fold_right x y : dot x y = fold_right Rplus 0%R (zip_with Rmult x y).
Proof. apply py_sum_fold_right. Qed.

Lemma dot_comm x y : dot x y = dot y x.
Proof.
  rewrite !dot_fold_right. revert y.
  induction x as [|a x IH]; intros [|b y]; simpl; try reflexivity.
  rewrite IH. lra.
Qed.

Lemma dot_self_nonneg x : (0 <= dot x x)%R.
Proof.
  rewrite dot_fold_right. induction x as [|a x IH]; simpl; [lra |]. nra.
Qed.

Lemma dot_self_pos x v : v ∈ x → v ≠ 0%R → (0 < dot x x)%R.
Proof.
  intros Hin Hv. rewrite dot_fold_right.
  induction x as [|a x IH]; [inversion Hin |].
  pose proof (dot_self_nonneg x) as Hx. rewrite dot_fold_right in Hx. simpl.
  apply elem_of_cons in Hin as [<-|Hin].
  - assert (0 < v * v)%R by nra. lra.
  - specialize (IH Hin). nra.
Qed.

Lemma dot_scale_self c x :
  c ≠ 0%R → dot (scale_by c x) (scale_by c x) = (dot x x / (c * c))%R.
Proof.
  intros Hc. rewrite !dot_fold_right. unfold scale_by.
  induction x as [|a x IH]; simpl; [field; exact Hc |].
  rewrite IH. field. exact Hc.
Qed.

Lemma center_nonzero x : non_constant x → ∃ w, w ∈ center x ∧ w ≠ 0%R.
Proof.
  intros (u & v & Hu & Hv & Huv). unfold center.
  destruct (Req_dec_T (u - np_mean x) 0) as [E|E].
  - exists (v - np_mean x)%R. split; [| lra].
    apply list_elem_of_fmap. exists v. auto.
  - exists (u - np_mean x)%R. split; [| exact E].
    apply list_elem_of_fmap. exists u. auto.
Qed.

Lemma pearsonr_sym a b v : pearsonr a b = Ok v → pearsonr b a = Ok v.
Proof.
  unfold pearsonr.
  destruct (Nat.eqb_spec (length a) (length b)) as [E|]; [| discriminate]. simpl.
  destruct (Nat.ltb_spec (length a) 2); [discriminate |].
  intros Hv. injection Hv as <-.
  destruct (Nat.eqb_spec (length b) (length a)) as [_|]; [| congruence]. simpl.
  destruct (Nat.ltb_spec (length b) 2); [lia |].
  rewrite dot_comm. reflexivity.
Qed.

Lemma pearsonr_self a v : non_constant a → pearsonr a a = Ok v → v = 1%R.
Proof.
  intros Hnc. unfold pearsonr.
  destruct (negb _); [discriminate |]. destruct (_ <? _); [discriminate |].
  intros H. injection H as <-.
  destruct (center_nonzero a Hnc) as (w & Hw & Hw0).
  pose proof (dot_self_pos _ _ Hw Hw0) as Hpos.
  assert (norm (center a) * norm (center a) = dot (center a) (center a))%R as Hsq.
  { unfold norm. apply sqrt_sqrt. lra. }
  assert (norm (center a) ≠ 0%R) as Hn by (intros E; rewrite E in Hsq; lra).
  rewrite dot_scale_self by exact Hn. rewrite Hsq.
  replace (dot (center a) (center a) / dot (center a) (center a))%R with 1%R
    by (field; lra).
  rewrite Rmin_left by lra. apply Rmax_left. lra.
Qed.

Lemma entry_lookup (m : matrix) i j row v :
  m !! i = Some row → row !! j = Some v → entry m i j = v.
Proof.
  intros Hi Hj. unfold entry.
  rewrite (nth_lookup_Some _ _ [] _ Hi). apply nth_lookup_Some. exact Hj.
Qed.

Lemma correlation_matrix_ok flat m :
  correlation_matrix flat = Ok m →
  length m = length flat ∧
  Forall (λ row : list R, length row = length flat) m ∧
  ∀ i j a b, flat !! i = Some a → flat !! j = Some b →
    ∃ v, pearsonr a b = Ok v ∧ entry m j i = v.
Proof.
  unfold correlation_matrix. intros H. apply rmap_ok in H.
  split; [symmetry; apply (Forall2_length _ _ _ H) |]. split.
  - apply Forall_forall. intros row Hrow.
    apply list_elem_of_lookup in Hrow as [j Hj].
    destruct (Forall2_lookup_r _ _ _ _ _ H Hj) as (b & _ & Hb).
    apply rmap_ok in Hb. symmetry. apply (Forall2_length _ _ _ Hb).
  - intros i j a b Hi Hj.
    destruct (Forall2_lookup_l _ _ _ _ _ H Hj) as (row & Hrow & Hb).
    apply rmap_ok in Hb.
    destruct (Forall2_lookup_l _ _ _ _ _ Hb Hi) as (v & Hv & Hab).
    exists v. split; [exact Hab |]. eapply entry_lookup; eauto.
Qed.

(** C4: the matrix a probe appends for a component is the Pearson matrix of
    the first [characters] rows of the flattened output and of nothing else;
    it is [characters] x [characters] and symmetric, and its diagonal is 1
    wherever the rows compared are not constant.  (Real arithmetic: the
    floating point tolerance of the claim becomes equality.) *)
Theorem C4_correlation_matrix (ctx : epoch_ctx) (step : Z) (c : string)
    (s s' : state) (u : unit) :
  accumulate_correlations ctx step c s = (s', Ok u) →
  ∃ flat pearson_r acc,
    recall_outputs_flat s = Some flat ∧
    correlation_matrix (take (characters cfg) flat) = Ok pearson_r ∧
    pearson_r_tensor s !! c = Some acc ∧
    matrices_of c (drop (length (trace s)) (trace s')) = [(step, pearson_r)] ∧
    length pearson_r = characters cfg ∧
    Forall (λ row : list R, length row = characters cfg) pearson_r ∧
    (∀ i j, i < characters cfg → j < characters cfg →
       entry pearson_r i j = entry pearson_r j i) ∧
    (Forall non_constant (take (characters cfg) flat) →
     ∀ i, i < characters cfg → entry pearson_r i i = 1%R).
Proof.
  intros H. apply accumulate_correlations_ok in H
    as (flat & pearson_r & row & acc & acc_t & Hflat & Hm & Hacc & Hcat & _ & _
        & _ & _ & Htr & _).
  apply cat_matrix_ok in Hcat as (_ & _ & Hlen & Hrows).
  destruct (correlation_matrix_ok _ _ Hm) as (Hlen' & _ & Hcells).
  assert (length (take (characters cfg) flat) = characters cfg) as Hn by congruence.
  exists flat, pearson_r, acc. repeat split; auto.
  - rewrite Htr, drop_app_length. simpl. rewrite String.eqb_refl. reflexivity.
  - intros i j Hi Hj.
    destruct (lookup_lt_is_Some_2 (take (characters cfg) flat) i) as [a Ha]; [lia |].
    destruct (lookup_lt_is_Some_2 (take (characters cfg) flat) j) as [b Hb]; [lia |].
    destruct (Hcells _ _ _ _ Ha Hb) as (v & Hv & <-).
    destruct (Hcells _ _ _ _ Hb Ha) as (w & Hw & <-).
    apply pearsonr_sym in Hv. congruence.
  - intros Hnc i Hi.
    destruct (lookup_lt_is_Some_2 (take (characters cfg) flat) i) as [a Ha]; [lia |].
    destruct (Hcells _ _ _ _ Ha Ha) as (v & Hv & <-).
    apply (pearsonr_self a); [| exact Hv].
    rewrite Forall_forall in Hnc. apply Hnc. apply list_elem_of_lookup. eauto.
Qed.

(** ** Aggregation (lines 466-473) *)

Lemma stride_lookup {A} (l : list A) k :
  stride 2 0 l !! k = l !! (2 * k) ∧ stride 2 1 l !! k = l !! (2 * k + 1).
Proof.
  revert k. induction l as [|x t IH]; intros k; [split; reflexivity |].
  split.
  - destruct k as [|k]; [reflexivity |].
    replace (2 * S k) with (S (2 * k + 1)) by lia. simpl. apply IH.
  - replace (2 * k + 1) with (S (2 * k)) by lia. simpl. apply IH.
Qed.

Lemma stride_lookup_0 {A} (l : list A) k : stride 2 0 l !! k = l !! (2 * k).
Proof. apply stride_lookup. Qed.

Lemma stride_lookup_1 {A} (l : list A) k : stride 2 1 l !! k = l !! (2 * k + 1).
Proof. apply stride_lookup. Qed.

Lemma early_slice_lookup {A} (p : A) l k :
  early_slice (p :: l) !! k = (p :: l) !! (2 * k + 1).
Proof.
  rewrite early_slice_cons, stride_lookup_0.
  replace (2 * k + 1) with (S (2 * k)) by lia. reflexivity.
Qed.

Lemma late_slice_lookup {A} (p : A) l k :
  late_slice (p :: l) !! k = (p :: l) !! (2 * k + 2).
Proof.
  rewrite late_slice_cons, stride_lookup_1.
  replace (2 * k + 2) with (S (2 * k + 1)) by lia. reflexivity.
Qed.

Lemma torch_mean0_elementwise t : torch_mean0 t = elementwise_mean (characters cfg) t.
Proof.
  unfold torch_mean0, elementwise_mean.
  apply map_ext. intros i. apply map_ext. intros j.
  rewrite py_sum_fold_right. reflexivity.
Qed.

Lemma entry_elementwise_mean n ms i j :
  i < n → j < n →
  entry (elementwise_mean n ms) i j
  = (fold_right Rplus 0 (map (λ m, entry m i j) ms) / INR (length ms))%R.
Proof.
  intros Hi Hj. unfold elementwise_mean, entry.
  set (row := λ i, map _ (seq 0 n)).
  rewrite (nth_indep _ [] (row 0)) by (rewrite List.length_map, List.length_seq; exact Hi).
  rewrite List.map_nth, List.seq_nth by exact Hi. unfold row.
  set (cellf := λ j : nat, (_ / _)%R).
  rewrite (nth_indep _ 0%R (cellf 0)) by (rewrite List.length_map, List.length_seq; exact Hj).
  rewrite List.map_nth, List.seq_nth by exact Hj. reflexivity.
Qed.

Lemma elementwise_mean_symmetric n ms :
  Forall (symmetric n) ms → symmetric n (elementwise_mean n ms).
Proof.
  intros Hms i j Hi Hj. rewrite !entry_elementwise_mean by assumption.
  f_equal. f_equal. induction Hms as [|m ms Hm _ IH]; [reflexivity |].
  simpl. rewrite IH, (Hm i j Hi Hj). reflexivity.
Qed.

Lemma Forall_stride {A} (P : A → Prop) k (l : list A) :
  k ≤ 1 → Forall P l → Forall P (stride 2 k l).
Proof.
  intros Hk Hl. apply Forall_forall. intros x Hx.
  apply list_elem_of_lookup in Hx as [i Hi].
  rewrite Forall_forall in Hl. apply Hl.
  destruct k as [|[|k]]; [| | lia].
  - rewrite stride_lookup_0 in Hi. apply list_elem_of_lookup. eauto.
  - rewrite stride_lookup_1 in Hi. apply list_elem_of_lookup. eauto.
Qed.

(** C5, amended: when the early step lies strictly between 0 and the late
    step, no component is listed twice and the run has at least one trial,
    then after a run without exception the aggregated early matrix of a
    listed component is the element-wise mean over exactly the entries
    written at the early probes, one per trial, and the aggregated late
    matrix that over exactly the entries written at the late probes; every
    entry written is of one kind and not the other, so none contributes to
    both; each mean is symmetric when the entries written are. *)
Theorem C5_aggregated_means (a : string) (s' : state) (u : unit) :
  (1 ≤ early_response_step cfg < late_response_steps cfg)%Z →
  NoDup components →
  a ∈ components →
  0 < total_trials →
  experiment_loops initial_state = (s', Ok u) →
  let early := (early_response_step cfg - 1)%Z in
  let late := (late_response_steps cfg - 1)%Z in
  let written := matrices_of a (trace s') in
  pearson_r_early (aggregate s') !! a
  = Some (elementwise_mean (characters cfg) (tagged early written)) ∧
  pearson_r_late (aggregate s') !! a
  = Some (elementwise_mean (characters cfg) (tagged late written)) ∧
  length (tagged early written) = total_trials ∧
  length (tagged late written) = total_trials ∧
  length written = 2 * total_trials ∧
  Forall (λ p, (p.1 = early ∨ p.1 = late) ∧ early ≠ late) written ∧
  (Forall (symmetric (characters cfg)) written.*2 →
   symmetric (characters cfg)
     (elementwise_mean (characters cfg) (tagged early written)) ∧
   symmetric (characters cfg)
     (elementwise_mean (characters cfg) (tagged late written))).
Proof.
  intros Hsteps Hnd Ha Hpos Hrun early late written.
  destruct (slices_of_run a s' u Hsteps Hnd Ha Hrun)
    as (tensor & test & Ht & _ & NE & NL & _ & _ & E & L & _ & _ & Len & _ & Hall & _).
  fold early late written in E, L, Hall.
  destruct (experiment_loops_ok _ _ Hrun) as [_ Hacc].
  destruct (Hacc a Ha) as [Ht' _]. rewrite Ht in Ht'. injection Ht' as ->.
  rewrite E in NE. rewrite L in NL.
  simpl in Len. rewrite length_fmap in Len. fold written in Len.
  unfold aggregate. simpl. rewrite !lookup_fmap, Ht. simpl.
  rewrite !torch_mean0_elementwise, E, L.
  repeat (split; [first [reflexivity | assumption | lia] |]).
  intros Hsym.
  assert (∀ step, Forall (symmetric (characters cfg)) (tagged step written)) as Htag.
  { intros step. apply Forall_forall. intros m Hm.
    rewrite Forall_forall in Hsym. apply Hsym.
    unfold tagged in Hm. apply list_elem_of_fmap in Hm as (p & -> & Hp).
    apply list_elem_of_filter in Hp as [_ Hp].
    apply list_elem_of_fmap. eauto. }
  split; apply elementwise_mean_symmetric, Htag.
Qed.

(** ** The metrics check (lines 384-388) *)

Lemma compare_metrics_mismatch s :
  metrics_mismatch = true →
  compare_metrics s = (s, Raise (AssertionError "Mismatch in metrics config")).
Proof.
  unfold metrics_mismatch, compare_metrics.
  destruct (metrics cfg) as [[|first_item rest]|]; try discriminate.
  destruct (forallb _ _); [discriminate | reflexivity].
Qed.

(** C6, amended: when the lists of the metrics configuration differ in
    length, a trial whose study phase took no exception raises
    AssertionError in its recall phase; by then the trial, the reset and
    every study step with its probes and accumulations are in the trace. *)
Theorem C6_metrics_checked_after_study (ctx : epoch_ctx) (idx : nat)
    (batch : list (Z * Z) * list (Z * Z)) (s s1 : state) (u : unit) :
  metrics_mismatch = true →
  study_phase ctx idx batch s = (s1, Ok u) →
  ∃ s2 evs,
    trial ctx idx batch s
    = (s2, Raise (AssertionError "Mismatch in metrics config")) ∧
    trace s2 = trace s ++ evs ∧
    map erase evs = EvTrial idx :: EvReset :: shape_study_loop (grad_enabled s).
Proof.
  intros Hmm Hstudy.
  destruct (study_phase_advance _ _ _ _ _ _ Hstudy) as (evs & Ha & Hs).
  unfold trial. rewrite (bind_run _ _ _ _ _ Hstudy).
  unfold bind at 1, modify at 1, recall_phase, with_no_grad, bind.
  rewrite compare_metrics_mismatch by exact Hmm.
  eexists _, evs. split; [reflexivity |]. simpl.
  split; [apply (adv_trace _ _ _ Ha) | exact Hs].
Qed.

(** ** Component names without a branch (lines 327-350) *)

Lemma select_features_unrecognized ctx recall_outputs c s :
  recognized c = false →
  select_features ctx recall_outputs c s = (s, Ok tt).
Proof.
  unfold recognized, select_features. simpl. intros H.
  repeat (let E := fresh "E" in apply orb_false_elim in H as [E H]; rewrite E).
  reflexivity.
Qed.

(** A name without a branch leaves [recall_outputs_flat] as the previous
    iteration set it, and the accumulation goes on with those rows. *)
Lemma accumulate_unrecognized ctx step recall_outputs c s :
  recognized c = false →
  accumulate ctx step recall_outputs c s = accumulate_correlations ctx step c s.
Proof.
  intros H. unfold accumulate.
  rewrite (bind_run _ _ _ _ _ (select_features_unrecognized ctx recall_outputs c s H)).
  reflexivity.
Qed.

(** ** Generators and epochs (lines 199-213) *)

Lemma epochs_of_erase evs : epochs_of (map erase evs) = epochs_of evs.
Proof.
  induction evs as [|e t IH]; [reflexivity |].
  change (epochs_of ([erase e] ++ map erase t) = epochs_of ([e] ++ t)).
  unfold epochs_of in *. rewrite !omap_app, IH. destruct e; reflexivity.
Qed.

Lemma epochs_of_trial grad idx : epochs_of (shape_trial grad idx) = [].
Proof.
  unfold shape_trial, shape_study_loop, shape_recall_phase, epochs_of.
  change (EvTrial idx :: EvReset :: ?l) with ([EvTrial idx; EvReset] ++ l).
  rewrite !omap_app, omap_concat_map, concat_map_nil.
  - simpl. induction metrics_count as [|n IH]; [reflexivity | exact IH].
  - intros step _. unfold shape_step, shape_probe.
    destruct (probe_due step); [| reflexivity].
    change (omap ?f (EvModel Study grad step :: EvModel Recall false step :: ?l))
      with (omap f l).
    rewrite omap_concat_map. apply concat_map_nil. reflexivity.
Qed.

Lemma epochs_of_epoch grad n e :
  epochs_of (shape_epoch grad n e) = [(e, n, S n)].
Proof.
  unfold shape_epoch.
  change (epochs_of (EvEpoch e n (S n) :: ?l)) with ((e, n, S n) :: epochs_of l).
  f_equal. unfold epochs_of. rewrite omap_concat_map. apply concat_map_nil.
  intros p _. apply epochs_of_trial.
Qed.

Lemma epochs_of_seed grad n :
  epochs_of (shape_seed grad n) = map (λ e, (e, n, S n)) (range (train_epochs cfg)).
Proof.
  unfold shape_seed.
  change (EvGenerator n :: EvGenerator (S n) :: ?l)
    with ([EvGenerator n; EvGenerator (S n)] ++ l).
  unfold epochs_of. rewrite !omap_app, omap_concat_map.
  change (omap _ [EvGenerator n; EvGenerator (S n)]) with (@nil (Z * nat * nat)).
  change (omap _ [EvWrite _ _; EvWrite _ _; EvWrite _ _]) with (@nil (Z * nat * nat)).
  rewrite app_nil_r, app_nil_l.
  induction (range (train_epochs cfg)) as [|e l IH]; [reflexivity |].
  rewrite !map_cons, concat_cons, IH.
  change (omap _ (shape_epoch grad n e)) with (epochs_of (shape_epoch grad n e)).
  rewrite epochs_of_epoch. reflexivity.
Qed.

(** C9, amended: a seed whose run takes no exception constructs exactly two
    generator objects, before its first epoch, and each of its
    [train_epochs] epochs reads those same two objects. *)
Theorem C9_generators_per_seed (k : Z) (s s' : state) (u : unit) :
  seed_run k s = (s', Ok u) →
  ∃ evs,
    trace s' = trace s ++ evs ∧
    generators_of evs = [generators_built s; S (generators_built s)] ∧
    epochs_of evs
    = map (λ e, (e, generators_built s, S (generators_built s)))
        (range (train_epochs cfg)) ∧
    take 2 (map erase evs)
    = [EvGenerator (generators_built s); EvGenerator (S (generators_built s))].
Proof.
  intros H. apply seed_run_advance in H as (evs & Ha & Hs).
  exists evs. split; [apply (adv_trace _ _ _ Ha) |].
  rewrite <- generators_of_erase, <- epochs_of_erase, Hs.
  rewrite generators_of_seed, epochs_of_seed. repeat split.
Qed.

(** ** The placeholder entries (lines 83-90) *)

Lemma experiment_loops_domain s' u a :
  experiment_loops initial_state = (s', Ok u) →
  a ∉ components →
  pearson_r_tensor s' !! a = None ∧ pearson_r_test s' !! a = None.
Proof.
  unfold experiment_loops, init_accumulators. intros H Ha.
  apply bind_ok in H as (s1 & ? & H1 & H). run_ok H1.
  apply seeds_advance in H as (evs & [_ _ _ _ _ A B] & _). simpl in *.
  split.
  - apply A. rewrite dict_of_keys_lookup, decide_False; auto.
  - apply B. rewrite dict_of_keys_lookup, decide_False; auto.
Qed.

Lemma elem_of_tables name (d : gmap string (list (list R))) f :
  f ∈ tables name d → ∃ k v, d !! k = Some v ∧ f = (name +:+ k, v).
Proof.
  unfold tables. intros Hf. apply list_elem_of_omap in Hf as (k & _ & Hk).
  simpl in Hk. destruct (d !! k) as [v|] eqn:Hv; [| discriminate Hk].
  injection Hk as <-. exists k, v. split; [exact Hv | reflexivity].
Qed.

(** C10: after a run without exception the accumulators of a listed
    component are the placeholder followed by what the probes appended; both
    slices read from position 1 on, so they are the same for any other first
    entry, and the aggregated matrices, the contrast tables and every
    exported table are computed from the appended entries alone. *)
Theorem C10_placeholder_excluded (a : string) (s' : state) (u : unit) :
  a ∈ components →
  experiment_loops initial_state = (s', Ok u) →
  let mats := written_matrices a s' in
  let rows := written_rows a s' in
  pearson_r_tensor s' !! a = Some (zero_matrix :: mats) ∧
  pearson_r_test s' !! a = Some (zero_row :: rows) ∧
  (∀ p, early_slice (p :: mats) = stride 2 0 mats ∧
        late_slice (p :: mats) = stride 2 1 mats) ∧
  (∀ q, early_slice (q :: rows) = stride 2 0 rows ∧
        late_slice (q :: rows) = stride 2 1 rows) ∧
  (∀ k, early_slice (zero_matrix :: mats) !! k = mats !! (2 * k) ∧
        late_slice (zero_matrix :: mats) !! k = mats !! (2 * k + 1) ∧
        early_slice (zero_row :: rows) !! k = rows !! (2 * k) ∧
        late_slice (zero_row :: rows) !! k = rows !! (2 * k + 1)) ∧
  pearson_r_early (aggregate s') !! a = Some (torch_mean0 (stride 2 0 mats)) ∧
  pearson_r_late (aggregate s') !! a = Some (torch_mean0 (stride 2 1 mats)) ∧
  pearson_r_early_test (aggregate s') !! a = Some (stride 2 0 rows) ∧
  pearson_r_late_test (aggregate s') !! a = Some (stride 2 1 rows) ∧
  (∀ f, f ∈ exported_files (aggregate s') →
     ∃ b, b ∈ components ∧
          (f.2 = stride 2 0 (written_rows b s') ∨
           f.2 = stride 2 1 (written_rows b s') ∨
           f.2 = torch_mean0 (stride 2 0 (written_matrices b s')) ∨
           f.2 = torch_mean0 (stride 2 1 (written_matrices b s')))).
Proof.
  intros Ha Hrun mats rows.
  destruct (experiment_loops_ok _ _ Hrun) as [_ Hacc].
  destruct (Hacc a Ha) as [Ht Hc].
  split; [exact Ht |]. split; [exact Hc |].
  split; [intros p; rewrite early_slice_cons, late_slice_cons; auto |].
  split; [intros q; rewrite early_slice_cons, late_slice_cons; auto |].
  split.
  { intros k. rewrite !early_slice_cons, !late_slice_cons,
      !stride_lookup_0, !stride_lookup_1. auto. }
  unfold aggregate. simpl. rewrite !lookup_fmap, Ht, Hc. simpl.
  rewrite !early_slice_cons, !late_slice_cons.
  repeat (split; [reflexivity |]).
  intros f Hf. unfold exported_files in Hf. simpl in Hf.
  assert (∀ b, b ∈ components ∨ b ∉ components) as Hdec.
  { intros b. destruct (decide (b ∈ components)); auto. }
  repeat (apply elem_of_app in Hf as [Hf|Hf]);
    apply elem_of_tables in Hf as (b & v & Hb & ->);
    rewrite ?lookup_fmap in Hb;
    (destruct (Hdec b) as [Hin|Hout];
     [ destruct (Hacc b Hin) as [Htb Hcb]; rewrite ?Htb, ?Hcb in Hb;
       simpl in Hb; injection Hb as <-;
       rewrite ?early_slice_cons, ?late_slice_cons; exists b; split; [exact Hin | auto]
     | destruct (experiment_loops_domain _ _ b Hrun Hout) as [Htb Hcb];
       rewrite ?Htb, ?Hcb in Hb; discriminate Hb ]).
Qed.

(** ** Classification of recalled patterns (lines 344-350) *)

Lemma fold_max_spec rest x :
  let v := fold_left (λ m y, if Rgtb y m then y else m) rest x in
  (v = x ∨ v ∈ rest) ∧ (x <= v)%R ∧ ∀ w, w ∈ rest → (w <= v)%R.
Proof.
  revert x. induction rest as [|y rest IH]; intros x; simpl.
  - split; [auto |]. split; [lra |]. intros w Hw. inversion Hw.
  - destruct (Rgtb y x) eqn:E.
    + assert (y > x)%R as Hgt
        by (unfold Rgtb in E; destruct (Rgt_dec y x); [assumption | discriminate]).
      destruct (IH y) as (Hin & Hy & Hrest).
      split; [right; destruct Hin as [->|Hin]; [left | right; exact Hin] |].
      split; [lra |].
      intros w Hw. apply elem_of_cons in Hw as [->|Hw]; auto.
    + assert (¬ (y > x)%R) as Hle
        by (unfold Rgtb in E; destruct (Rgt_dec y x); [discriminate | assumption]).
      destruct (IH x) as (Hin & Hx & Hrest).
      split; [destruct Hin as [->|Hin]; [auto | right; right; exact Hin] |].
      split; [exact Hx |].
      intros w Hw. apply elem_of_cons in Hw as [->|Hw]; [lra | auto].
Qed.

Lemma py_max_spec t :
  t ≠ [] → ∃ v, py_max t = Ok v ∧ v ∈ t ∧ ∀ w, w ∈ t → (w <= v)%R.
Proof.
  destruct t as [|x rest]; [congruence |]. intros _.
  destruct (fold_max_spec rest x) as (Hin & Hx & Hrest).
  eexists. split; [reflexivity |]. split.
  - destruct Hin as [->|Hin]; [left | right; exact Hin].
  - intros w Hw. apply elem_of_cons in Hw as [->|Hw]; auto.
Qed.

Lemma py_index_spec t v :
  v ∈ t →
  ∃ i, py_index t v = Ok i ∧ t !! i = Some v ∧
       ∀ j w, j < i → t !! j = Some w → w ≠ v.
Proof.
  induction t as [|x t IH]; intros Hin; [inversion Hin |].
  simpl. unfold Reqb. destruct (Req_dec_T x v) as [->|Hne].
  - exists 0. repeat split. intros j w Hj. lia.
  - apply elem_of_cons in Hin as [->|Hin]; [congruence |].
    destruct (IH Hin) as (i & Hi & Hv & Hfirst). rewrite Hi. simpl.
    exists (S i). repeat split; [exact Hv |].
    intros [|j] w Hj Hw; simpl in Hw.
    + injection Hw as <-. exact Hne.
    + apply (Hfirst j); [lia | exact Hw].
Qed.

Lemma argmax_ok t :
  t ≠ [] → ∃ i, rbind (py_max t) (py_index t) = Ok i ∧ first_argmax t i.
Proof.
  intros Ht. destruct (py_max_spec t Ht) as (v & Hmax & Hin & Hle).
  destruct (py_index_spec t v Hin) as (i & Hi & Hv & Hfirst).
  exists i. rewrite Hmax. simpl. split; [exact Hi |].
  exists v. split; [exact Hv |]. split.
  - intros j w Hj. apply Hle, list_elem_of_lookup. eauto.
  - intros j w Hj Hw.
    assert (w <= v)%R by (apply Hle, list_elem_of_lookup; eauto).
    specialize (Hfirst j w Hj Hw). lra.
Qed.

Lemma py_get_of_nat {A} (l : list A) i x :
  l !! i = Some x → py_get l (Z.of_nat i) = Ok x.
Proof.
  intros H. unfold py_get.
  pose proof (lookup_lt_Some _ _ _ H) as Hlt.
  destruct (Z.ltb_spec (Z.of_nat i) 0); [lia |].
  destruct (Z.ltb_spec (Z.of_nat i) 0); [lia |].
  destruct (Z.leb_spec (Z.of_nat (length l)) (Z.of_nat i)); [lia |].
  simpl. rewrite Nat2Z.id, H. reflexivity.
Qed.

Lemma rmap_cons {A B} (f : A → result B) x l :
  rmap f (x :: l) = rbind (f x) (λ y, rbind (rmap f l) (λ ys, Ok (y :: ys))).
Proof. reflexivity. Qed.

Lemma rmap_Forall2 {A B} (f : A → result B) l ys :
  Forall2 (λ x y, f x = Ok y) l ys → rmap f l = Ok ys.
Proof.
  induction 1 as [|x y l ys Hxy _ IH]; simpl; [reflexivity |].
  rewrite Hxy. simpl. rewrite IH. reflexivity.
Qed.

Lemma classify_ok ctx flat :
  main_pairs_flat ctx ≠ [] →
  length (main_pairs_flat ctx) = length (labels_study ctx) →
  ∃ row, classify ctx flat = Ok row ∧
    Forall2 (λ a label,
               ∃ i, first_argmax (map (cos W a) (main_pairs_flat ctx)) i ∧
                    labels_study ctx !! i = Some label) flat row.
Proof.
  intros Hne Hlen. unfold classify.
  assert (∀ a, ∃ i label,
            rbind (py_max (map (λ b, cos W a b) (main_pairs_flat ctx)))
                  (py_index (map (λ b, cos W a b) (main_pairs_flat ctx))) = Ok i ∧
            first_argmax (map (cos W a) (main_pairs_flat ctx)) i ∧
            labels_study ctx !! i = Some label) as Hone.
  { intros a. destruct (argmax_ok (map (cos W a) (main_pairs_flat ctx))) as (i & Hi & Hfa).
    - destruct (main_pairs_flat ctx); [congruence | discriminate].
    - destruct Hfa as (v & Hv & Hrest).
      apply lookup_lt_Some in Hv as Hlt. rewrite List.length_map, Hlen in Hlt.
      destruct (lookup_lt_is_Some_2 _ _ Hlt) as [label Hlabel].
      exists i, label. split; [exact Hi |]. split; [exists v; auto | exact Hlabel]. }
  induction flat as [|a flat IH].
  - exists []. split; [reflexivity | constructor].
  - destruct IH as (row & Hrow & Hall).
    destruct (Hone a) as (i & label & Hi & Hfa & Hlabel).
    rewrite map_cons, rmap_cons. cbv beta. rewrite Hi.
    destruct (rmap _ (map _ flat)) as [idx|]; [| discriminate Hrow].
    cbn [rbind] in *. rewrite rmap_cons. cbv beta.
    rewrite (py_get_of_nat _ _ _ Hlabel), Hrow.
    exists (label :: row). split; [reflexivity |]. constructor; eauto.
Qed.

Lemma convert_both_ok (alph second : Z → result (image W * Z))
    (seq main_labels : list (Z * Z)) imgs labels :
  convert_sequence_to_images W alph seq main_labels both (Some second)
  = Ok (imgs, labels) →
  imgs ≠ [] ∧
  Forall2 (λ a img, ∃ x y, item_image W second a.1 = Ok x ∧
                           item_image W alph a.2 = Ok y ∧
                           img = cat_images W x y) seq imgs.
Proof.
  unfold convert_sequence_to_images. intros H.
  match type of H with
  | rbind ?r _ = _ => destruct r as [pairs_images|] eqn:Himgs; [| discriminate H]
  end.
  cbn [rbind] in H.
  match type of H with
  | rbind ?r _ = _ => destruct r as [ls|]; [| discriminate H]
  end.
  cbn [rbind] in H.
  match type of H with
  | rbind ?r _ = _ => destruct r as [idx|]; [| discriminate H]
  end.
  cbn [rbind] in H.
  destruct pairs_images as [|img rest]; [discriminate H |].
  simpl in H. injection H as <- <-. split; [discriminate |].
  apply rmap_ok in Himgs.
  eapply Forall2_impl; [exact Himgs |].
  intros a p Hp. simpl in Hp.
  destruct (item_image W second a.1) as [x|]; [| discriminate Hp]. simpl in Hp.
  destruct (item_image W alph a.2) as [y|]; [| discriminate Hp]. simpl in Hp.
  injection Hp as <-. exists x, y. auto.
Qed.

Lemma epoch_context_ok g ctx :
  epoch_context g = Ok ctx →
  sequence_study ctx = g ∧
  labels_study ctx = core_label_sequence g ∧
  main_pairs_flat ctx ≠ [] ∧
  Forall2 reference_pattern (core_label_sequence g) (main_pairs_flat ctx).
Proof.
  unfold epoch_context. fold second_alphabet. intros H.
  destruct (convert_sequence_to_images _ _ _ _ _ _) as [[imgs labels]|] eqn:Hc;
    [| discriminate H].
  simpl in H. injection H as <-. simpl.
  apply convert_both_ok in Hc as [Hne Hall].
  repeat split.
  - destruct imgs; [congruence | discriminate].
  - clear Hne. induction Hall as [|a img l imgs (x & y & Hx & Hy & ->) _ IH];
      [constructor |].
    simpl. constructor; [exists x, y; auto | exact IH].
Qed.

(** C8: in an epoch whose reference patterns could be built, a probe of
    [recon_pair] whose decoding is in the model's output classifies every
    recalled row: it takes the cosine similarity to each reference pattern,
    one per core label pair, picks the first position of the maximum and
    records the core label at that position. *)
Theorem C8_classification (g : Generator) (ctx : epoch_ctx)
    (recall_outputs : pyval) (flat : list vec) (s : state) :
  epoch_context g = Ok ctx →
  rbind (dict_path recall_outputs ["stm"; "memory"; "decoding"]) torch_flatten
  = Ok flat →
  ∃ row,
    select_features ctx recall_outputs "recon_pair" s
    = (set_predictions (predictions s ++ [row]) (set_flat (Some flat) s), Ok tt) ∧
    Forall2 (λ a label,
               ∃ i, first_argmax (map (cos W a) (main_pairs_flat ctx)) i ∧
                    core_label_sequence g !! i = Some label) flat row ∧
    Forall2 reference_pattern (core_label_sequence g) (main_pairs_flat ctx).
Proof.
  intros Hctx Hflat.
  destruct (epoch_context_ok _ _ Hctx) as (_ & Hlabels & Hne & Href).
  destruct (classify_ok ctx flat Hne) as (row & Hrow & Hall).
  { rewrite Hlabels. symmetry. apply (Forall2_length _ _ _ Href). }
  exists row. rewrite Hlabels in Hall. split; [| split; assumption].
  unfold select_features. simpl.
  unfold fetch, bind, lift, read, unbound, modify, when, ret. rewrite Hflat.
  simpl. rewrite Hrow. reflexivity.
Qed.

(** * Further properties of the program *)

(** ** Slices (lines 446-447, 466-473) *)

Lemma list_pair_ind {A} (P : list A → Prop) :
  P [] → (∀ x, P [x]) → (∀ x y l, P l → P (x :: y :: l)) → ∀ l, P l.
Proof.
  intros H0 H1 H2 l.
  assert (P l ∧ ∀ x, P (x :: l)) as [Hl _]; [| exact Hl].
  induction l as [|y l [IH1 IH2]]; split; auto.
Qed.

Lemma stride_interleave {A} (l : list A) :
  interleave (stride 2 0 l) (stride 2 1 l) = l.
Proof.
  induction l as [|x|x y l IH] using list_pair_ind; [reflexivity | reflexivity |].
  change (stride 2 0 (x :: y :: l)) with (x :: stride 2 0 l).
  change (stride 2 1 (x :: y :: l)) with (y :: stride 2 1 l).
  simpl. rewrite IH. reflexivity.
Qed.

Lemma stride_lengths {A} (l : list A) :
  length (stride 2 0 l) = Nat.div2 (S (length l)) ∧
  length (stride 2 1 l) = Nat.div2 (length l).
Proof.
  induction l as [|x l [IH0 IH1]]; [split; reflexivity |].
  split.
  - change (stride 2 0 (x :: l)) with (x :: stride 2 1 l).
    simpl length. rewrite IH1. destruct (length l); reflexivity.
  - change (stride 2 1 (x :: l)) with (stride 2 0 l).
    rewrite IH0. reflexivity.
Qed.

(** X1: the early and the late slice of an accumulator, merged in turn,
    give back everything after its first entry: no appended entry is lost or
    used twice, whatever the number of entries.  The early slice has the
    larger half. *)
Theorem slices_partition_accumulator {A} (t : list A) :
  interleave (early_slice t) (late_slice t) = drop 1 t ∧
  length (early_slice t) = Nat.div2 (length t) ∧
  length (late_slice t) = Nat.div2 (length t - 1).
Proof.
  destruct t as [|p rest]; [repeat split |].
  rewrite early_slice_cons, late_slice_cons, stride_interleave.
  destruct (stride_lengths rest) as [H0 H1]. rewrite H0, H1.
  simpl. rewrite Nat.sub_0_r. repeat split.
Qed.

(** X2: the split of the predictions of a seed (lines 446-447): the rows at
    even positions and the rows at odd positions, merged in turn, are the
    list of predictions. *)
Theorem predictions_split {A} (preds : list A) :
  interleave (py_slice 0 (length preds) 2 preds)
             (py_slice 1 (length preds) 2 preds) = preds ∧
  length (py_slice 0 (length preds) 2 preds) = Nat.div2 (S (length preds)) ∧
  length (py_slice 1 (length preds) 2 preds) = Nat.div2 (length preds).
Proof.
  unfold py_slice. rewrite take_ge by lia. rewrite drop_0.
  assert (stride 2 0 (drop 1 preds) = stride 2 1 preds) as ->
    by (destruct preds; reflexivity).
  split; [apply stride_interleave | apply stride_lengths].
Qed.

(** ** The two accumulators of a component stay in step (lines 356, 374) *)

Lemma steps_aligned_accumulate a step c :
  matrix_steps a (shape_accumulate step c) = contrast_steps a (shape_accumulate step c).
Proof.
  unfold matrix_steps, contrast_steps. simpl. destruct (String.eqb c a); reflexivity.
Qed.

Lemma steps_aligned_concat {A} a (f : A → list event) l :
  (∀ x, matrix_steps a (f x) = contrast_steps a (f x)) →
  matrix_steps a (concat (map f l)) = contrast_steps a (concat (map f l)).
Proof.
  intros Hf. unfold matrix_steps, contrast_steps in *.
  rewrite !omap_concat_map. f_equal. apply map_ext. exact Hf.
Qed.

Lemma steps_aligned_step a grad step :
  matrix_steps a (shape_step grad step) = contrast_steps a (shape_step grad step).
Proof.
  unfold shape_step, shape_probe. destruct (probe_due step); [| reflexivity].
  change (matrix_steps a (concat (map (shape_accumulate step) components))
          = contrast_steps a (concat (map (shape_accumulate step) components))).
  apply steps_aligned_concat. intros c. apply steps_aligned_accumulate.
Qed.

Lemma steps_aligned_trial a grad idx :
  matrix_steps a (shape_trial grad idx) = contrast_steps a (shape_trial grad idx).
Proof.
  unfold shape_trial, shape_study_loop, shape_recall_phase.
  change (EvTrial idx :: EvReset :: ?l) with ([EvTrial idx; EvReset] ++ l).
  rewrite !matrix_steps_app, !contrast_steps_app.
  f_equal. f_equal; [apply steps_aligned_concat; intros; apply steps_aligned_step |].
  f_equal. induction metrics_count as [|n IH]; [reflexivity | exact IH].
Qed.

Lemma steps_aligned_seed a grad n :
  matrix_steps a (shape_seed grad n) = contrast_steps a (shape_seed grad n).
Proof.
  unfold shape_seed.
  change (EvGenerator n :: EvGenerator (S n) :: ?l)
    with ([EvGenerator n; EvGenerator (S n)] ++ l).
  rewrite !matrix_steps_app, !contrast_steps_app. f_equal. f_equal.
  apply steps_aligned_concat. intros e. unfold shape_epoch.
  change (matrix_steps a (concat (map (λ p, shape_trial grad p.1) (trials_of n)))
          = contrast_steps a (concat (map (λ p, shape_trial grad p.1) (trials_of n)))).
  apply steps_aligned_concat. intros p. apply steps_aligned_trial.
Qed.

Lemma steps_aligned_seeds {A} a grad n (ks : list A) :
  matrix_steps a (shape_seeds grad n ks) = contrast_steps a (shape_seeds grad n ks).
Proof.
  revert n. induction ks as [|k ks IH]; intros n; [reflexivity |].
  change (shape_seeds grad n (k :: ks))
    with (shape_seed grad n ++ shape_seeds grad (S (S n)) ks).
  rewrite matrix_steps_app, contrast_steps_app, steps_aligned_seed, IH.
  reflexivity.
Qed.

(** X3: after a run without exception the two accumulators of a listed
    component have the same number of entries, and their entries were
    written pairwise at the same probes, whatever the steps configured and
    however often the component is listed. *)
Theorem accumulators_in_step (a : string) (s' : state) (u : unit) :
  a ∈ components →
  experiment_loops initial_state = (s', Ok u) →
  ∃ tensor test,
    pearson_r_tensor s' !! a = Some tensor ∧
    pearson_r_test s' !! a = Some test ∧
    length tensor = length test ∧
    (matrices_of a (trace s')).*1 = (contrasts_of a (trace s')).*1.
Proof.
  intros Ha Hrun.
  destruct (experiment_loops_ok _ _ Hrun) as [Hshape Hacc].
  destruct (Hacc a Ha) as [Ht Hc].
  assert ((matrices_of a (trace s')).*1 = (contrasts_of a (trace s')).*1) as Heq.
  { rewrite <- matrix_steps_erase, <- contrast_steps_erase, Hshape.
    apply steps_aligned_seeds. }
  eexists _, _. split; [exact Ht |]. split; [exact Hc |]. split; [| exact Heq].
  apply (f_equal length) in Heq. rewrite !length_fmap in Heq.
  rewrite !length_cons, !length_fmap, Heq. reflexivity.
Qed.

(** ** Probes when the early step is out of range (line 318) *)

Lemma probed_steps_single {B} (f : Z → B) :
  (1 ≤ late_response_steps cfg)%Z →
  (early_response_step cfg ≤ 0 ∨ late_response_steps cfg ≤ early_response_step cfg)%Z →
  concat (map (λ step, if probe_due step then [f step] else [])
            (range (late_response_steps cfg)))
  = [f (late_response_steps cfg - 1)%Z].
Proof.
  intros Hl He. unfold range.
  set (e := early_response_step cfg) in *. set (l := late_response_steps cfg) in *.
  set (j := Z.to_nat (l - 1)).
  assert (Z.to_nat l = j + 1) as -> by lia.
  rewrite seq_app, !map_app, concat_app. simpl.
  rewrite concat_map_nil.
  - unfold probe_due. fold e l.
    replace (Z.of_nat j) with (l - 1)%Z by lia.
    rewrite (Z.eqb_refl (l - 1)), orb_true_r. reflexivity.
  - intros x Hx. apply list_elem_of_In, in_map_iff in Hx as (k & <- & Hk).
    apply in_seq in Hk. unfold probe_due. fold e l.
    destruct (Z.eqb_spec (Z.of_nat k) (e - 1)); [lia |].
    destruct (Z.eqb_spec (Z.of_nat k) (l - 1)); [lia | reflexivity].
Qed.

(** X4: when the early step is 0 or less, or is not below the number of late
    steps, a study loop of at least one step that takes no exception probes
    exactly once, at the last step; the early probe is silently dropped. *)
Theorem single_probe_when_early_out_of_range (ctx : epoch_ctx)
    (stims : stimuli W * stimuli W) (s s' : state) (u : unit) :
  (1 ≤ late_response_steps cfg)%Z →
  (early_response_step cfg ≤ 0 ∨ late_response_steps cfg ≤ early_response_step cfg)%Z →
  study_loop ctx stims s = (s', Ok u) →
  ∃ evs, trace s' = trace s ++ evs ∧
         recall_calls evs = [(false, (late_response_steps cfg - 1)%Z)].
Proof.
  intros Hl He H. apply study_loop_advance in H as (evs & Ha & Hs).
  exists evs. split; [apply (adv_trace _ _ _ Ha) |].
  rewrite <- recall_calls_erase, Hs.
  unfold shape_study_loop, recall_calls. rewrite omap_concat_map.
  rewrite (map_ext _ (λ step, if probe_due step then [(false, step)] else []));
    [| intros step; apply recall_calls_step].
  apply (probed_steps_single (λ step, (false, step))); assumption.
Qed.

(** ** Autograd in the study loop (lines 301-321) *)

Lemma model_calls_app l1 l2 : model_calls (l1 ++ l2) = model_calls l1 ++ model_calls l2.
Proof. apply omap_app. Qed.

Lemma model_calls_erase evs : model_calls (map erase evs) = model_calls evs.
Proof.
  induction evs as [|e t IH]; [reflexivity |].
  change (model_calls ([erase e] ++ map erase t) = model_calls ([e] ++ t)).
  rewrite !model_calls_app, IH. destruct e; reflexivity.
Qed.

Lemma lawful_concat {A} (f : A → list event) l :
  (∀ x, Forall lawful_call (model_calls (f x))) →
  Forall lawful_call (model_calls (concat (map f l))).
Proof.
  intros Hf. induction l as [|x l IH]; [constructor |].
  simpl. rewrite model_calls_app. apply Forall_app. auto.
Qed.

Lemma lawful_step step : Forall lawful_call (model_calls (shape_step true step)).
Proof.
  unfold shape_step, shape_probe.
  destruct (probe_due step); [| repeat constructor].
  change (Forall lawful_call
            ((Study, true, step) :: (Recall, false, step)
             :: model_calls (concat (map (shape_accumulate step) components)))).
  repeat (constructor; [reflexivity |]).
  apply lawful_concat. intros c. constructor.
Qed.

Lemma studied_app l1 l2 : studied (l1 ++ l2) = studied l1 ++ studied l2.
Proof. apply omap_app. Qed.

Lemma studied_step step : studied (model_calls (shape_step true step)) = [step].
Proof.
  unfold shape_step, shape_probe.
  destruct (probe_due step); [| reflexivity].
  change (step :: studied (model_calls
                             (concat (map (shape_accumulate step) components)))
          = [step]).
  f_equal. induction components as [|c l IH]; [reflexivity | exact IH].
Qed.

Lemma studied_steps (steps : list Z) :
  studied (model_calls (concat (map (shape_step true) steps))) = steps.
Proof.
  induction steps as [|step steps IH]; [reflexivity |].
  rewrite map_cons, concat_cons, model_calls_app, studied_app, studied_step, IH.
  reflexivity.
Qed.

(** X5: a study loop that is entered with autograd on and takes no
    exception calls the model in study mode once at every step, in order and
    with autograd on, makes every recall call with autograd off, calls the
    model in no other mode, and leaves autograd on.  (The validation passes
    of lines 258-288 come before the loop and are not part of it.) *)
Theorem autograd_discipline (ctx : epoch_ctx) (stims : stimuli W * stimuli W)
    (s s' : state) (u : unit) :
  grad_enabled s = true →
  study_loop ctx stims s = (s', Ok u) →
  ∃ evs,
    trace s' = trace s ++ evs ∧
    Forall lawful_call (model_calls evs) ∧
    studied (model_calls evs) = range (late_response_steps cfg) ∧
    grad_enabled s' = true.
Proof.
  intros Hg H. apply study_loop_advance in H as (evs & Ha & Hs).
  rewrite Hg in Hs.
  exists evs. split; [apply (adv_trace _ _ _ Ha) |].
  rewrite <- model_calls_erase, Hs. unfold shape_study_loop.
  split; [apply lawful_concat; intros step; apply lawful_step |].
  split; [apply studied_steps |].
  rewrite (adv_grad _ _ _ Ha). exact Hg.
Qed.

(** ** The trials of an epoch (lines 217-220, 244) *)

Lemma trials_of_trace_trial grad idx : trials_of_trace (shape_trial grad idx) = [idx].
Proof.
  unfold shape_trial, shape_recall_phase.
  change (EvTrial idx :: EvReset :: ?l) with ([EvTrial idx; EvReset] ++ l).
  rewrite !trials_of_trace_app, trials_of_trace_study_loop.
  assert (∀ n, trials_of_trace (repeat (EvCompare "") n) = []) as Hrep
    by (induction n as [|n IH]; [reflexivity | exact IH]).
  rewrite Hrep. reflexivity.
Qed.

Lemma imap_fst_seq {A} (l : list A) k :
  map fst (imap (λ idx b, (k + idx, b)) l) = seq k (length l).
Proof.
  revert k. induction l as [|x l IH]; intros k; [reflexivity |].
  simpl. rewrite Nat.add_0_r. f_equal.
  rewrite <- (IH (S k)). f_equal. apply imap_ext. intros i y _. simpl. f_equal. lia.
Qed.

(** X6: an epoch that takes no exception runs one trial per pair of batches
    of the two loaders, numbered from 0; when the loaders differ in length
    the batches of the longer one beyond the shorter are never used, and
    nothing is raised for it. *)
Theorem epoch_trials (gen_study gen_recall : nat * Generator) (stm_epoch : Z)
    (s s' : state) (u : unit) :
  epoch gen_study gen_recall stm_epoch s = (s', Ok u) →
  ∃ evs, trace s' = trace s ++ evs ∧
         trials_of_trace evs
         = seq 0 (min (length (DataLoader W (sequence gen_study.2)))
                      (length (DataLoader W (sequence gen_recall.2)))).
Proof.
  unfold epoch. intros H. run_ok H. simpl in H.
  apply (for_each_advance _ (λ g p, shape_trial g p.1)) in H as (evs & Ha & Hs);
    [| intros; eapply trial_advance; eauto].
  exists (EvEpoch stm_epoch gen_study.1 gen_recall.1 :: evs). split.
  - rewrite (adv_trace _ _ _ Ha). simpl. rewrite <- app_assoc. reflexivity.
  - change (trials_of_trace (EvEpoch stm_epoch gen_study.1 gen_recall.1 :: evs))
      with (trials_of_trace evs).
    rewrite <- trials_of_trace_erase, Hs.
    unfold trials_of_trace. rewrite omap_concat_map.
    rewrite (map_ext _ (λ p, [p.1])) by (intros p; apply trials_of_trace_trial).
    rewrite <- length_zip.
    generalize (zip (DataLoader W (sequence gen_study.2))
                    (DataLoader W (sequence gen_recall.2))).
    intros l. rewrite <- (imap_fst_seq l 0).
    change (imap (λ idx b, (0 + idx, b)) l) with (imap (λ idx b, (idx, b)) l).
    generalize (imap (λ idx (b : list (Z * Z) * list (Z * Z)), (idx, b)) l).
    intros l'.
    induction l' as [|p l' IH]; [reflexivity |]. simpl. rewrite IH. reflexivity.
Qed.

(** ** A seed without epochs (lines 213, 449) *)

Lemma range_nonpositive n : (n ≤ 0)%Z → range n = [].
Proof. intros Hn. unfold range. replace (Z.to_nat n) with 0 by lia. reflexivity. Qed.

Lemma range_positive n : (1 ≤ n)%Z → ∃ rest, range n = 0%Z :: rest.
Proof.
  intros Hn. unfold range. destruct (Z.to_nat n) as [|k] eqn:E; [lia |].
  simpl. eauto.
Qed.

Lemma seed_run_no_epochs (k : Z) (s : state) :
  (train_epochs cfg ≤ 0)%Z →
  stm_epoch_var s = None →
  ∃ s', seed_run k s = (s', Raise (UnboundLocalError "stm_epoch")) ∧
        trace s' = trace s ++ [EvGenerator (generators_built s);
                               EvGenerator (S (generators_built s))].
Proof.
  intros He Hv. unfold seed_run. rewrite (range_nonpositive _ He).
  unfold bind, modify, new_generator, save_results, read, unbound, lift,
    for_each, ret, emit.
  cbn. rewrite Hv. eexists. split; [reflexivity |].
  cbn. rewrite <- app_assoc. reflexivity.
Qed.

(** X7: with at least one seed and no training epoch the run stops in the
    first seed, after constructing its two generators and before any trial,
    because [stm_epoch] is read at line 449 without ever being bound. *)
Theorem no_epochs_unbound_stm_epoch :
  (1 ≤ seeds cfg)%Z →
  (train_epochs cfg ≤ 0)%Z →
  ∃ s',
    experiment_loops initial_state = (s', Raise (UnboundLocalError "stm_epoch")) ∧
    trace s' = [EvGenerator 0; EvGenerator 1].
Proof.
  intros Hs He. unfold experiment_loops.
  destruct (range_positive _ Hs) as [rest ->].
  unfold bind at 1.
  assert (∃ s0, init_accumulators initial_state = (s0, Ok tt) ∧
                stm_epoch_var s0 = None ∧ trace s0 = [] ∧ generators_built s0 = 0)
    as (s0 & -> & Hv & Ht & Hg).
  { eexists. split; [reflexivity |]. repeat split. }
  destruct (seed_run_no_epochs 0 s0 He Hv) as (s' & Hrun & Htr).
  exists s'. split.
  - change (for_each (0%Z :: rest) seed_run s0)
      with (bind (seed_run 0%Z) (λ _, for_each rest seed_run) s0).
    unfold bind. rewrite Hrun. reflexivity.
  - rewrite Htr, Ht, Hg. reflexivity.
Qed.

(** ** Too few rows (lines 352-356) *)

(** X8: when the flattened output of a probe has fewer rows than there are
    characters, the accumulation raises; it appends nothing and records
    nothing, and only restricts [recall_outputs_flat]. *)
Theorem too_few_rows_not_accumulated (ctx : epoch_ctx) (step : Z) (c : string)
    (s : state) (flat : list vec) :
  recall_outputs_flat s = Some flat →
  length flat < characters cfg →
  ∃ e, accumulate_correlations ctx step c s
       = (set_flat (Some (take (characters cfg) flat)) s, Raise e).
Proof.
  intros Hflat Hlen. unfold accumulate_correlations, bind, read, unbound, lift, modify.
  rewrite Hflat.
  destruct (correlation_matrix (take (characters cfg) flat)) as [m|e] eqn:Hm;
    [| eauto].
  simpl. unfold dict_lookup.
  destruct (pearson_r_tensor s !! c) as [acc|]; [| simpl; eauto].
  simpl. apply correlation_matrix_ok in Hm as (Hl & _).
  rewrite length_take in Hl.
  unfold cat_matrix. destruct m as [|row m]; [eauto |].
  destruct (Nat.eqb_spec (length (row :: m)) (characters cfg)) as [E|_]; [lia |].
  simpl. eauto.
Qed.

(** ** The features of a component with a branch (lines 327-343) *)

(** X9: for each of [dg], [pr], [ec_ca3], [ca3_ca1] and [ca1] exactly one
    branch fires and reads the component's own entry of the recall output.
    When that entry is missing or is no tensor, the probe raises there (a
    KeyError for a missing key) with the state untouched: nothing is
    appended for the component.  Otherwise the accumulation works on the
    rows just read. *)
Theorem accumulate_reads_own_features (ctx : epoch_ctx) (step : Z)
    (recall_outputs : pyval) (c : string) (s : state) :
  c ∈ ["dg"; "pr"; "ec_ca3"; "ca3_ca1"; "ca1"] →
  match rbind (dict_path recall_outputs (feature_path c)) torch_flatten with
  | Ok rows =>
      accumulate ctx step recall_outputs c s
      = accumulate_correlations ctx step c (set_flat (Some rows) s)
  | Raise e => accumulate ctx step recall_outputs c s = (s, Raise e)
  end.
Proof.
  intros Hc.
  repeat (apply elem_of_cons in Hc as [->|Hc]); [| | | | | inversion Hc];
    unfold accumulate, select_features, feature_path, fetch; simpl;
    unfold bind at 1; unfold bind at 1; unfold lift at 1;
    match goal with
    | |- context [rbind ?r torch_flatten] => destruct (rbind r torch_flatten)
    end; reflexivity.
Qed.

(** ** The end of [main] (lines 18, 466-507) *)

Lemma for_each_emit {A} (g : A → event) (l : list A) (s : state) :
  ∃ s', for_each l (λ x, emit (g x)) s = (s', Ok tt) ∧
        trace s' = trace s ++ map g l ∧
        pearson_r_tensor s' = pearson_r_tensor s ∧
        pearson_r_test s' = pearson_r_test s.
Proof.
  revert s. induction l as [|x l IH]; intros s.
  - exists s. simpl. rewrite app_nil_r. auto.
  - destruct (IH (record_event (g x) s)) as (s' & Hrun & Ht & Ha & Hb).
    exists s'. split; [| split; [| split]].
    + simpl. unfold bind, emit, modify. exact Hrun.
    + rewrite Ht. simpl. rewrite <- app_assoc. reflexivity.
    + rewrite Ha. reflexivity.
    + rewrite Hb. reflexivity.
Qed.

Lemma elem_of_dict_keys (l : list string) (x : string) : x ∈ dict_keys l ↔ x ∈ l.
Proof.
  induction l as [|k l IH]; [reflexivity |].
  simpl. rewrite !elem_of_cons, list_elem_of_filter, IH.
  destruct (decide (x = k)); tauto.
Qed.

Lemma elem_of_tables_intro name (d : gmap string (list (list R))) k v :
  k ∈ components → d !! k = Some v → (name +:+ k, v) ∈ tables name d.
Proof.
  intros Hin Hk. unfold tables. apply list_elem_of_omap.
  exists k. split; [apply elem_of_dict_keys, Hin |]. rewrite Hk. reflexivity.
Qed.

Lemma tables_names name (d : gmap string (list (list R))) :
  (∀ k, k ∈ components → is_Some (d !! k)) →
  (tables name d).*1 = map (λ k, name +:+ k) (dict_keys components).
Proof.
  unfold tables. intros Hd.
  assert (∀ k, k ∈ dict_keys components → is_Some (d !! k)) as Hk
    by (intros k Hk; apply Hd, elem_of_dict_keys, Hk).
  clear Hd. induction (dict_keys components) as [|k l IH]; [reflexivity |].
  destruct (Hk k (list_elem_of_here _ _)) as [v Hv].
  simpl. rewrite Hv. simpl. f_equal.
  apply IH. intros x Hx. apply Hk, list_elem_of_further, Hx.
Qed.

Lemma write_stacked_run (l : list (string * list (list R))) :
  Forall (λ f, f.2 ≠ []) l →
  ∀ s, ∃ s',
    for_each l write_stacked s = (s', Ok tt) ∧
    trace s' = trace s ++ map (λ f, EvExport f.1 f.2) l ∧
    pearson_r_tensor s' = pearson_r_tensor s ∧
    pearson_r_test s' = pearson_r_test s.
Proof.
  induction 1 as [|[name rows] l Hrows _ IH]; intros s.
  - exists s. simpl. rewrite app_nil_r. auto.
  - destruct (IH (record_event (EvExport name rows) s)) as (s' & Hrun & Ht & Ha & Hb).
    exists s'. split; [| split; [| split]].
    + simpl in *. destruct rows as [|row rows]; [contradiction |].
      unfold bind, write_stacked, bind, lift, emit, modify. exact Hrun.
    + rewrite Ht. simpl. rewrite <- app_assoc. reflexivity.
    + rewrite Ha. reflexivity.
    + rewrite Hb. reflexivity.
Qed.

Lemma export_run (s : state) :
  Forall (λ f, f.2 ≠ [])
    (tables "pearson_early_test_" (pearson_r_early_test (aggregate s))) →
  Forall (λ f, f.2 ≠ [])
    (tables "pearson_late_test_" (pearson_r_late_test (aggregate s))) →
  ∃ s', export s = (s', Ok tt) ∧
        trace s' = trace s ++ export_events (aggregate s) ∧
        aggregate s' = aggregate s.
Proof.
  intros Hearly Hlate. unfold export, export_events, exported_files.
  unfold bind at 1. unfold read at 1.
  destruct (write_stacked_run _ Hearly s) as (s1 & R1 & T1 & A1 & B1).
  destruct (write_stacked_run _ Hlate s1) as (s2 & R2 & T2 & A2 & B2).
  destruct (for_each_emit (λ f : string * list (list R), EvExport f.1 f.2)
              (tables "pearson_early_" (pearson_r_early (aggregate s))) s2)
    as (s3 & R3 & T3 & A3 & B3).
  destruct (for_each_emit (λ f : string * list (list R), EvExport f.1 f.2)
              (tables "pearson_late_" (pearson_r_late (aggregate s))) s3)
    as (s4 & R4 & T4 & A4 & B4).
  exists s4. split; [| split].
  - rewrite (bind_run _ _ _ _ _ R1), (bind_run _ _ _ _ _ R2), (bind_run _ _ _ _ _ R3).
    exact R4.
  - rewrite T4, T3, T2, T1, !map_app, <- !app_assoc. reflexivity.
  - unfold aggregate. rewrite A4, A3, A2, A1, B4, B3, B2, B1. reflexivity.
Qed.

Lemma render_raises (s : state) : ∃ e, render s = (s, Raise (NameError e)).
Proof.
  unfold render, bind, read, lift.
  destruct (decide (pearson_r_early (aggregate s) = ∅)); eauto.
Qed.

(** X10: [main] never returns normally: when nothing raises earlier, the
    first use of a plotter raises a NameError, because the import of
    [Visualisations] is commented out. *)
Theorem main_never_returns (s : state) : ∃ e, (main s).2 = Raise e.
Proof.
  unfold main. unfold bind at 1.
  destruct (experiment_loops s) as [s1 [[]|e]]; [| eauto].
  unfold bind at 1.
  destruct (export s1) as [s2 [[]|e]]; [| eauto].
  destruct (render_raises s2) as (e & ->). eauto.
Qed.

Lemma exports_of_export_events sm : exports_of (export_events sm) = exported_files sm.
Proof.
  unfold exports_of, export_events.
  induction (exported_files sm) as [|[f rows] l IH]; [reflexivity |].
  simpl. f_equal. exact IH.
Qed.

Lemma stride_nonempty {A} (k : nat) (l : list A) : k < length l → stride 2 k l ≠ [].
Proof.
  revert k. induction l as [|x l IH]; intros k Hk; [simpl in Hk; lia |].
  destruct k as [|k]; [discriminate |].
  simpl. apply IH. simpl in Hk. lia.
Qed.

(** X11: when the loops over seeds, epochs and trials end without an
    exception and have appended at least two contrast rows for every listed
    component, so that no contrast table is empty, [main] goes on to write
    the four tables of every listed component: first the early contrast
    tables, then the late ones, then the early and the late mean matrices,
    each group in the order in which the components are first listed.  It
    writes nothing else, and then stops with a NameError at the first
    plotter: [HeatmapPlotter] when a component is listed, [BarPlotter]
    otherwise. *)
Theorem main_exports_then_name_error (s1 : state) (u : unit) :
  experiment_loops initial_state = (s1, Ok u) →
  (∀ a, a ∈ components → 2 ≤ length (written_rows a s1)) →
  ∃ s' evs,
    main initial_state
    = (s', Raise (NameError match components with
                            | [] => "BarPlotter"
                            | _ => "HeatmapPlotter"
                            end)) ∧
    trace s' = trace s1 ++ evs ∧
    map (λ f : string * list (list R), EvExport f.1 f.2) (exports_of evs) = evs ∧
    (exports_of evs).*1
    = concat (map (λ name, map (λ k, name +:+ k) (dict_keys components))
                ["pearson_early_test_"; "pearson_late_test_";
                 "pearson_early_"; "pearson_late_"]) ∧
    ∀ a, a ∈ components →
      ∃ early_test late_test early late,
        pearson_r_early_test (aggregate s1) !! a = Some early_test ∧
        pearson_r_late_test (aggregate s1) !! a = Some late_test ∧
        pearson_r_early (aggregate s1) !! a = Some early ∧
        pearson_r_late (aggregate s1) !! a = Some late ∧
        ("pearson_early_test_" +:+ a, early_test) ∈ exports_of evs ∧
        ("pearson_late_test_" +:+ a, late_test) ∈ exports_of evs ∧
        ("pearson_early_" +:+ a, early) ∈ exports_of evs ∧
        ("pearson_late_" +:+ a, late) ∈ exports_of evs.
Proof.
  intros Hrun Hrows.
  destruct (experiment_loops_ok _ _ Hrun) as [_ Hacc].
  assert (∀ name (slice : list (list R) → list (list R)),
            (∀ rows, 2 ≤ length rows → slice (zero_row :: rows) ≠ []) →
            Forall (λ f : string * list (list R), f.2 ≠ [])
              (tables name (slice <$> pearson_r_test s1))) as Hfull.
  { intros name slice Hslice. apply Forall_forall. intros f Hf.
    apply elem_of_tables in Hf as (k & v & Hk & ->). simpl.
    rewrite lookup_fmap in Hk.
    destruct (decide (k ∈ components)) as [Hin|Hout].
    - destruct (Hacc k Hin) as [_ Hte]. rewrite Hte in Hk. injection Hk as <-.
      apply Hslice, Hrows, Hin.
    - destruct (experiment_loops_domain _ _ k Hrun Hout) as [_ Hte].
      rewrite Hte in Hk. discriminate Hk. }
  destruct (export_run s1) as (s2 & Hexp & Ht & Hagg).
  { apply Hfull. intros rows Hr. rewrite early_slice_cons.
    apply stride_nonempty. lia. }
  { apply Hfull. intros rows Hr. rewrite late_slice_cons.
    apply stride_nonempty. lia. }
  exists s2, (export_events (aggregate s1)).
  split; [| split; [exact Ht | split; [| split]]].
  - unfold main. rewrite (bind_run _ _ _ _ _ Hrun), (bind_run _ _ _ _ _ Hexp).
    unfold render, bind, read, lift. rewrite Hagg.
    destruct (decide (pearson_r_early (aggregate s1) = ∅)) as [He|Hne].
    + destruct components as [|a l] eqn:Hc; [reflexivity |].
      exfalso. destruct (Hacc a (list_elem_of_here _ _)) as [Hta _].
      apply (f_equal (λ m : gmap string matrix, m !! a)) in He.
      unfold aggregate in He. simpl in He.
      rewrite !lookup_fmap, Hta, lookup_empty in He. discriminate He.
    + destruct components as [|a l] eqn:Hc; [| reflexivity].
      exfalso. apply Hne. unfold aggregate. simpl.
      apply map_eq. intros a. rewrite !lookup_fmap, lookup_empty.
      destruct (experiment_loops_domain _ _ a Hrun) as [-> _]; [| reflexivity].
      rewrite Hc. apply not_elem_of_nil.
  - rewrite exports_of_export_events. reflexivity.
  - rewrite exports_of_export_events. unfold exported_files.
    rewrite !fmap_app.
    rewrite !tables_names.
    + simpl. rewrite app_nil_r. reflexivity.
    + intros k Hk. destruct (Hacc k Hk) as [Hta _].
      unfold aggregate. simpl. rewrite !lookup_fmap, Hta. eauto.
    + intros k Hk. destruct (Hacc k Hk) as [Hta _].
      unfold aggregate. simpl. rewrite !lookup_fmap, Hta. eauto.
    + intros k Hk. destruct (Hacc k Hk) as [_ Hte].
      unfold aggregate. simpl. rewrite !lookup_fmap, Hte. eauto.
    + intros k Hk. destruct (Hacc k Hk) as [_ Hte].
      unfold aggregate. simpl. rewrite !lookup_fmap, Hte. eauto.
  - intros a Ha. destruct (Hacc a Ha) as [Hta Hte].
    rewrite exports_of_export_events.
    unfold aggregate. simpl. rewrite !lookup_fmap, Hta, Hte. simpl.
    do 4 eexists. repeat split; try reflexivity.
    all: unfold exported_files; rewrite !elem_of_app.
    + left. apply (elem_of_tables_intro _ _ _ _ Ha). simpl.
      rewrite lookup_fmap, Hte. reflexivity.
    + right. left. apply (elem_of_tables_intro _ _ _ _ Ha). simpl.
      rewrite lookup_fmap, Hte. reflexivity.
    + right. right. left. apply (elem_of_tables_intro _ _ _ _ Ha). simpl.
      rewrite !lookup_fmap, Hta. reflexivity.
    + right. right. right. apply (elem_of_tables_intro _ _ _ _ Ha). simpl.
      rewrite !lookup_fmap, Hta. reflexivity.
Qed.

(** X24: when the loops end without an exception but no contrast row was
    appended for the component listed first (no seed, or no batch in a
    loader), the stacking of its empty early contrast table raises
    ValueError: [main] stops there, before any table is written and before
    the plotters are reached. *)
Theorem main_without_probe_raises (s1 : state) (u : unit) (k0 : string)
    (rest : list string) :
  components = k0 :: rest →
  experiment_loops initial_state = (s1, Ok u) →
  written_rows k0 s1 = [] →
  main initial_state = (s1, Raise ValueError).
Proof.
  intros Hc Hrun Hrows.
  destruct (experiment_loops_ok _ _ Hrun) as [_ Hacc].
  destruct (Hacc k0) as [_ Hte]; [rewrite Hc; apply list_elem_of_here |].
  unfold written_rows in Hrows. rewrite Hrows in Hte.
  unfold main. rewrite (bind_run _ _ _ _ _ Hrun).
  apply bind_raise. unfold export. unfold bind at 1. unfold read at 1.
  apply bind_raise. unfold tables. rewrite Hc.
  change (dict_keys (k0 :: rest)) with (k0 :: filter (λ x, x ≠ k0) (dict_keys rest)).
  cbn [omap list_omap]. unfold aggregate at 1. cbn [pearson_r_early_test].
  rewrite lookup_fmap, Hte. reflexivity.
Qed.

(** ** [convert_sequence_to_images] (lines 509-521) *)

Lemma label_index_ok (main_labels : list (Z * Z)) (value : Z * Z) (i : nat) :
  label_index main_labels value = Ok i →
  main_labels !! i = Some value ∧ ∀ j, j < i → main_labels !! j ≠ Some value.
Proof.
  revert i. induction main_labels as [|x rest IH]; intros i H; simpl in H.
  - discriminate H.
  - destruct ((x.1 =? value.1)%Z && (x.2 =? value.2)%Z) eqn:E.
    + injection H as <-. apply andb_true_iff in E as [E1 E2].
      apply Z.eqb_eq in E1, E2. split; [| intros j Hj; lia].
      simpl. f_equal. destruct x, value. simpl in *. congruence.
    + destruct (label_index rest value) as [k|] eqn:Hk; [| discriminate H].
      simpl in H. injection H as <-. destruct (IH k eq_refl) as [Hl Hm].
      split; [exact Hl |]. intros [|j] Hj; simpl.
      * intros Hx. injection Hx as ->.
        rewrite !Z.eqb_refl in E. discriminate E.
      * apply Hm. lia.
Qed.

Lemma label_index_missing (main_labels : list (Z * Z)) (value : Z * Z) :
  value ∉ main_labels → label_index main_labels value = Raise ValueError.
Proof.
  induction main_labels as [|x rest IH]; intros Hv; simpl; [reflexivity |].
  apply not_elem_of_cons in Hv as [Hx Hrest].
  destruct ((x.1 =? value.1)%Z && (x.2 =? value.2)%Z) eqn:E.
  - apply andb_true_iff in E as [E1 E2]. apply Z.eqb_eq in E1, E2.
    exfalso. apply Hx. destruct x, value. simpl in *. congruence.
  - rewrite (IH Hrest). reflexivity.
Qed.

Lemma rmap_raise {A B} (f : A → result B) (l : list A) (e : py_error) :
  (∀ x, x ∈ l → ∃ y, f x = Ok y ∨ f x = Raise e) →
  (∃ x, x ∈ l ∧ f x = Raise e) →
  rmap f l = Raise e.
Proof.
  induction l as [|x l IH]; intros Hall (x0 & Hin & Hx0).
  - inversion Hin.
  - rewrite rmap_cons.
    destruct (Hall x (list_elem_of_here _ _)) as (y & [Hy|Hy]); rewrite Hy;
      [| reflexivity].
    simpl. rewrite IH; [reflexivity | |].
    + intros z Hz. apply Hall. apply list_elem_of_further. exact Hz.
    + apply elem_of_cons in Hin as [->|Hin]; [congruence | eauto].
Qed.

Lemma rmap_total {A B} (f : A → result B) (l : list A) :
  (∀ x, x ∈ l → ∃ y, f x = Ok y) → ∃ ys, rmap f l = Ok ys ∧ Forall2 (λ x y, f x = Ok y) l ys.
Proof.
  induction l as [|x l IH]; intros Hall.
  - exists []. split; [reflexivity | constructor].
  - destruct (Hall x (list_elem_of_here _ _)) as (y & Hy).
    destruct IH as (ys & Hys & HF).
    { intros z Hz. apply Hall. apply list_elem_of_further. exact Hz. }
    exists (y :: ys). rewrite rmap_cons, Hy. simpl. rewrite Hys. simpl.
    split; [reflexivity | constructor; assumption].
Qed.

(** X12: when [convert_sequence_to_images] returns, the sequence was not
    empty, there is one image and one index per entry of the sequence, and
    the index of an entry is the first position of [main_labels] that holds
    the pair of the labels of its two characters. *)
Theorem convert_sequence_labels (alph : dataset W) (sequence main_labels : list (Z * Z))
    (el : element) (second_alphabet : option (dataset W))
    (pairs_images : list (image W)) (labels : list nat) :
  convert_sequence_to_images W alph sequence main_labels el second_alphabet
  = Ok (pairs_images, labels) →
  sequence ≠ [] ∧
  length pairs_images = length sequence ∧
  Forall2 (λ (a : Z * Z) (i : nat),
             ∃ l1 l2,
               item_label W alph a.1 = Ok l1 ∧
               item_label W alph a.2 = Ok l2 ∧
               main_labels !! i = Some (l1, l2) ∧
               ∀ j, j < i → main_labels !! j ≠ Some (l1, l2))
          sequence labels.
Proof.
  unfold convert_sequence_to_images. intros H.
  match type of H with
  | rbind ?r _ = _ => destruct r as [imgs|] eqn:Himgs; [| discriminate H]
  end.
  simpl in H.
  match type of H with
  | rbind ?r _ = _ => destruct r as [pairs|] eqn:Hpairs; [| discriminate H]
  end.
  simpl in H.
  destruct (rmap (label_index main_labels) pairs) as [idx|] eqn:Hidx;
    [| discriminate H].
  simpl in H.
  destruct imgs as [|img imgs]; [discriminate H |]. simpl in H.
  injection H as <- <-.
  assert (length (img :: imgs) = length sequence) as Hlen.
  { destruct el; [| | destruct second_alphabet as [d2|]];
      apply rmap_ok in Himgs; symmetry; apply (Forall2_length _ _ _ Himgs). }
  split; [intros ->; discriminate Hlen |]. split; [exact Hlen |].
  apply rmap_ok in Hpairs, Hidx. clear Himgs Hlen.
  revert idx Hidx. induction Hpairs as [|a p sequence pairs Ha _ IH]; intros idx Hidx.
  - inversion Hidx. constructor.
  - inversion Hidx as [|? i ? idx' Hi Hrest]; subst. constructor; [| apply IH; exact Hrest].
    destruct (item_label W alph a.1) as [l1|] eqn:H1; [| discriminate Ha].
    simpl in Ha.
    destruct (item_label W alph a.2) as [l2|] eqn:H2; [| discriminate Ha].
    simpl in Ha. injection Ha as <-.
    apply label_index_ok in Hi as [Hi Hm].
    exists l1, l2. repeat split; assumption.
Qed.

(** X13: when both datasets hold every character of the sequence but the
    label pair of some entry does not occur in [main_labels], the call
    raises the ValueError of [list.index]. *)
Theorem convert_sequence_missing_label (alph second_alphabet : dataset W)
    (sequence main_labels : list (Z * Z)) (el : element) (bad : Z * Z) :
  (∀ a, a ∈ sequence →
     ∃ x y z, second_alphabet a.1 = Ok x ∧ alph a.1 = Ok y ∧ alph a.2 = Ok z) →
  bad ∈ sequence →
  (∀ y z, alph bad.1 = Ok y → alph bad.2 = Ok z → (y.2, z.2) ∉ main_labels) →
  convert_sequence_to_images W alph sequence main_labels el (Some second_alphabet)
  = Raise ValueError.
Proof.
  intros Hall Hbad Hmiss. unfold convert_sequence_to_images.
  assert (∃ imgs,
            match el with
            | both =>
                rmap (λ a : Z * Z,
                        rbind (item_image W second_alphabet a.1) (λ x,
                        rbind (item_image W alph a.2) (λ y,
                        Ok (cat_images W x y)))) sequence
            | first => rmap (λ a : Z * Z, item_image W alph a.1) sequence
            | second => rmap (λ a : Z * Z, item_image W alph a.2) sequence
            end = Ok imgs) as (imgs & ->).
  { destruct el;
      match goal with
      | |- ∃ _, rmap ?f _ = _ =>
          destruct (rmap_total f sequence) as (ys & Hys & _); [| eauto]
      end;
      intros a Ha; destruct (Hall a Ha) as (x & y & z & Hx & Hy & Hz);
      unfold item_image; rewrite ?Hx, ?Hy, ?Hz; simpl; rewrite ?Hz; simpl; eauto. }
  simpl.
  match goal with
  | |- rbind (rmap ?f _) _ = _ =>
      destruct (rmap_total f sequence) as (pairs & -> & HF)
  end.
  { intros a Ha. destruct (Hall a Ha) as (x & y & z & Hx & Hy & Hz).
    unfold item_label. rewrite Hy, Hz. simpl. eauto. }
  simpl.
  rewrite (rmap_raise (label_index main_labels) pairs ValueError); [reflexivity | |].
  - intros p _. clear. induction main_labels as [|x rest IH]; simpl.
    + exists 0. auto.
    + destruct ((x.1 =? p.1)%Z && (x.2 =? p.2)%Z); [exists 0; auto |].
      destruct IH as (k & [->| ->]); simpl; [exists (S k) | exists 0]; auto.
  - apply list_elem_of_lookup in Hbad as (k & Hk).
    destruct (Forall2_lookup_l _ _ _ _ _ HF Hk) as (p & Hp & Hfp).
    exists p. split; [apply list_elem_of_lookup; eauto |].
    apply label_index_missing.
    destruct (Hall bad) as (x & y & z & Hx & Hy & Hz);
      [apply list_elem_of_lookup; eauto |].
    unfold item_label in Hfp. rewrite Hy, Hz in Hfp. simpl in Hfp.
    injection Hfp as <-. apply Hmiss; assumption.
Qed.

(** ** The comparisons of a trial (lines 384-402) *)

Lemma assoc_elem {V} (k : string) (entries : list (string * V)) (v : V) :
  assoc k entries = Some v → (k, v) ∈ entries.
Proof.
  induction entries as [|[k' v'] rest IH]; simpl; [discriminate |].
  destruct (String.eqb_spec k k') as [->|_].
  - intros H. injection H as ->. apply list_elem_of_here.
  - intros H. apply list_elem_of_further, IH, H.
Qed.

Lemma metrics_entry_ok mc k i v :
  metrics_entry mc k i = Ok v → ∃ l, assoc k mc = Some l ∧ l !! i = Some v.
Proof.
  unfold metrics_entry. destruct (assoc k mc) as [l|]; [| discriminate].
  destruct (l !! i) as [x|] eqn:E; [| discriminate].
  intros H. injection H as ->. eauto.
Qed.

Lemma compare_loop_trace mc prefixes :
  assoc "prefixes" mc = Some prefixes →
  ∀ n k s s' u,
    for_each (seq k n) (λ i,
      let* _ := lift (metrics_entry mc "primary_feature_names" i) in
      let* _ := lift (metrics_entry mc "primary_label_names" i) in
      let* _ := lift (metrics_entry mc "secondary_feature_names" i) in
      let* _ := lift (metrics_entry mc "secondary_label_names" i) in
      let* _ := lift (metrics_entry mc "comparison_types" i) in
      let* prefix := lift (metrics_entry mc "prefixes" i) in
      emit (EvCompare prefix)) s = (s', Ok u) →
    trace s' = trace s ++ map EvCompare (take n (drop k prefixes)).
Proof.
  intros Hp. induction n as [|n IH]; intros k s s' u H; simpl in H.
  - apply ret_ok in H as [-> _]. rewrite take_0. simpl. rewrite app_nil_r. reflexivity.
  - apply bind_ok in H as (s1 & ? & H1 & H). run_ok H1.
    match goal with
    | Hx : metrics_entry _ "prefixes" _ = Ok _ |- _ =>
        apply metrics_entry_ok in Hx as (l & Hl & Hk)
    end.
    rewrite Hp in Hl. injection Hl as <-.
    apply IH in H. rewrite H. simpl.
    rewrite (drop_S _ _ _ Hk). simpl.
    rewrite <- app_assoc. reflexivity.
Qed.

(** X14: with a metrics configuration whose lists all have the same
    positive length, a recall phase that takes no exception compares once
    per entry of the [prefixes] list, in the order of that list, before the
    comparison with prefix [pr_rf_] is made. *)
Theorem metrics_compared_by_prefix (mc : list (string * list string))
    (s s' : state) (u : unit) :
  metrics cfg = Some mc →
  0 < metrics_count →
  recall_phase s = (s', Ok u) →
  ∃ prefixes,
    assoc "prefixes" mc = Some prefixes ∧
    length prefixes = metrics_count ∧
    trace s' = trace s ++ map EvCompare (prefixes ++ ["pr_rf_"]).
Proof.
  unfold recall_phase, metrics_count, compare_metrics. intros Hmc Hpos H.
  apply with_no_grad_ok in H as (s1 & H & ->).
  apply bind_ok in H as (s2 & ? & H1 & H). apply emit_ok in H as ->.
  rewrite Hmc in *. destruct mc as [|first_item rest]; [lia |].
  destruct (forallb _ _) eqn:Hall; [| apply lift_ok in H1 as [_ H1]; discriminate H1].
  destruct (length first_item.2) as [|n] eqn:Hlen; [lia |].
  assert (∃ prefixes, assoc "prefixes" (first_item :: rest) = Some prefixes)
    as (prefixes & Hp).
  { simpl in H1. apply bind_ok in H1 as (s3 & ? & H1 & _). run_ok H1.
    match goal with
    | Hx : metrics_entry _ "prefixes" _ = Ok _ |- _ =>
        apply metrics_entry_ok in Hx as (l & Hl & _)
    end.
    exists l. exact Hl. }
  exists prefixes. split; [exact Hp |].
  assert (length prefixes = S n) as Hpl.
  { rewrite forallb_forall in Hall.
    apply Nat.eqb_eq, Hall, in_map_iff.
    exists ("prefixes", prefixes). split; [reflexivity |].
    apply list_elem_of_In, assoc_elem, Hp. }
  split; [exact Hpl |].
  apply (compare_loop_trace _ _ Hp) in H1.
  rewrite drop_0, <- Hpl, firstn_all in H1.
  change (trace s2 ++ [EvCompare "pr_rf_"]
          = trace s ++ map EvCompare (prefixes ++ ["pr_rf_"])).
  rewrite H1, map_app, app_assoc. reflexivity.
Qed.

(** ** The inputs recorded for a seed (lines 209-210, 378, 457-460) *)

(** A computation that leaves [pairs_inputs] alone, however it ends. *)
Definition keeps_inputs {A} (m : M A) : Prop :=
  ∀ s s' r, m s = (s', r) → pairs_inputs s' = pairs_inputs s.

Lemma keeps_ret {A} (a : A) : keeps_inputs (ret a).
Proof. intros s s' r H. injection H as <- _. reflexivity. Qed.

Lemma keeps_lift {A} (x : result A) : keeps_inputs (lift x).
Proof. intros s s' r H. injection H as <- _. reflexivity. Qed.

Lemma keeps_read {A} (f : state → A) : keeps_inputs (read f).
Proof. intros s s' r H. injection H as <- _. reflexivity. Qed.

Lemma keeps_unbound {A} var (v : option A) : keeps_inputs (unbound var v).
Proof. apply keeps_lift. Qed.

Lemma keeps_modify (f : state → state) :
  (∀ s, pairs_inputs (f s) = pairs_inputs s) → keeps_inputs (modify f).
Proof. intros Hf s s' r H. injection H as <- _. apply Hf. Qed.

Lemma keeps_emit e : keeps_inputs (emit e).
Proof. apply keeps_modify. reflexivity. Qed.

Lemma keeps_bind {A B} (m : M A) (k : A → M B) :
  keeps_inputs m → (∀ a, keeps_inputs (k a)) → keeps_inputs (bind m k).
Proof.
  intros Hm Hk s s' r H. unfold bind in H.
  destruct (m s) as [s1 [a|e]] eqn:E.
  - rewrite (Hk a _ _ _ H). apply (Hm _ _ _ E).
  - injection H as <- _. apply (Hm _ _ _ E).
Qed.

Lemma keeps_for_each {A} (l : list A) (body : A → M unit) :
  (∀ x, keeps_inputs (body x)) → keeps_inputs (for_each l body).
Proof.
  intros Hb. induction l as [|x l IH]; simpl.
  - apply keeps_ret.
  - apply keeps_bind; [apply Hb | intros _; exact IH].
Qed.

Lemma keeps_no_grad {A} (m : M A) : keeps_inputs m → keeps_inputs (with_no_grad m).
Proof.
  intros Hm s s' r H. unfold with_no_grad in H.
  destruct (m (set_grad false s)) as [s1 r1] eqn:E.
  injection H as <- _. apply (Hm _ _ _ E).
Qed.

Lemma keeps_when (b : bool) (m : M unit) : keeps_inputs m → keeps_inputs (when b m).
Proof. intros Hm. destruct b; [exact Hm | apply keeps_ret]. Qed.

Ltac keeps :=
  repeat first
    [ apply keeps_bind; [| intros ?]
    | apply keeps_when
    | apply keeps_no_grad
    | apply keeps_for_each; intros ?
    | apply keeps_ret
    | apply keeps_lift
    | apply keeps_read
    | apply keeps_unbound
    | apply keeps_emit
    | apply keeps_modify; intros ?; reflexivity ].

Lemma keeps_call_model m step stim : keeps_inputs (call_model m step stim).
Proof. unfold call_model. keeps. Qed.

Lemma keeps_accumulate ctx step recall_outputs c :
  keeps_inputs (accumulate ctx step recall_outputs c).
Proof.
  unfold accumulate, select_features, fetch, accumulate_correlations. keeps.
Qed.

Lemma keeps_probe ctx recall_stim step : keeps_inputs (probe ctx recall_stim step).
Proof.
  unfold probe. apply keeps_no_grad, keeps_bind; [apply keeps_call_model |].
  intros recall_outputs. apply keeps_for_each. intros c. apply keeps_accumulate.
Qed.

Lemma keeps_study_loop ctx stims : keeps_inputs (study_loop ctx stims).
Proof.
  unfold study_loop. apply keeps_for_each. intros step. unfold study_step.
  apply keeps_bind; [apply keeps_call_model | intros _].
  destruct (probe_due step); [apply keeps_probe | apply keeps_ret].
Qed.

Lemma keeps_study_phase ctx idx batch : keeps_inputs (study_phase ctx idx batch).
Proof.
  unfold study_phase.
  repeat (apply keeps_bind; [keeps | intros ?]).
  apply keeps_study_loop.
Qed.

Lemma keeps_compare_metrics : keeps_inputs compare_metrics.
Proof.
  unfold compare_metrics.
  destruct (metrics cfg) as [[|first_item rest]|]; try apply keeps_ret.
  destruct (forallb _ _); [| apply keeps_lift].
  apply keeps_for_each. intros i. keeps.
Qed.

Lemma keeps_recall_phase : keeps_inputs recall_phase.
Proof.
  unfold recall_phase. apply keeps_no_grad, keeps_bind;
    [apply keeps_compare_metrics | intros _; apply keeps_emit].
Qed.

Lemma keeps_save_results : keeps_inputs save_results.
Proof. unfold save_results. keeps. Qed.

Lemma trial_inputs ctx idx batch s s' u :
  trial ctx idx batch s = (s', Ok u) →
  pairs_inputs s' = pairs_inputs s ++ [batch.1].
Proof.
  unfold trial. intros H.
  apply bind_ok in H as (s1 & ? & H1 & H).
  apply bind_ok in H as (s2 & ? & H2 & H).
  apply modify_ok in H2 as ->.
  rewrite (keeps_recall_phase _ _ _ H). simpl.
  rewrite (keeps_study_phase _ _ _ _ _ _ H1). reflexivity.
Qed.

Lemma trials_inputs ctx (dataset : list (nat * (list (Z * Z) * list (Z * Z)))) :
  ∀ s s' u,
    for_each dataset (λ p, trial ctx p.1 p.2) s = (s', Ok u) →
    pairs_inputs s' = pairs_inputs s ++ map (λ p, p.2.1) dataset.
Proof.
  induction dataset as [|p dataset IH]; intros s s' u H; simpl in H.
  - apply ret_ok in H as [-> _]. simpl. rewrite app_nil_r. reflexivity.
  - apply bind_ok in H as (s1 & ? & H1 & H).
    rewrite (IH _ _ _ H), (trial_inputs _ _ _ _ _ _ H1), <- app_assoc.
    reflexivity.
Qed.

Lemma zip_fst_take {A B} (l : list A) (k : list B) :
  (zip l k).*1 = take (min (length l) (length k)) l.
Proof.
  revert k. induction l as [|a l IH]; intros [|b k]; simpl; try reflexivity.
  rewrite IH. reflexivity.
Qed.

Lemma imap_pair_fst {A B} (l : list (A * B)) :
  ∀ k, map (λ p : nat * (A * B), p.2.1) (imap (λ idx b, (k + idx, b)) l) = l.*1.
Proof.
  induction l as [|a l IH]; intros k; [reflexivity |].
  rewrite imap_cons, map_cons, fmap_cons. f_equal.
  rewrite <- (IH (S k)). f_equal.
  apply imap_ext. intros i x _. simpl. f_equal. lia.
Qed.

Lemma epoch_inputs gen_study gen_recall stm_epoch s s' u :
  epoch gen_study gen_recall stm_epoch s = (s', Ok u) →
  let study := DataLoader W (sequence gen_study.2) in
  let recall := DataLoader W (sequence gen_recall.2) in
  pairs_inputs s' = pairs_inputs s ++ take (min (length study) (length recall)) study.
Proof.
  unfold epoch. intros H. run_ok H. simpl in H.
  apply trials_inputs in H. rewrite H. simpl. f_equal.
  rewrite <- zip_fst_take. apply (imap_pair_fst _ 0).
Qed.

Lemma epochs_inputs gen_study gen_recall (epochs : list Z) :
  ∀ s s' u,
    for_each epochs (epoch gen_study gen_recall) s = (s', Ok u) →
    let study := DataLoader W (sequence gen_study.2) in
    let recall := DataLoader W (sequence gen_recall.2) in
    pairs_inputs s'
    = pairs_inputs s ++
      concat (map (λ _, take (min (length study) (length recall)) study) epochs).
Proof.
  induction epochs as [|e epochs IH]; intros s s' u H; simpl in H.
  - apply ret_ok in H as [-> _]. simpl. rewrite app_nil_r. reflexivity.
  - apply bind_ok in H as (s1 & ? & H1 & H).
    simpl. rewrite (IH _ _ _ H), (epoch_inputs _ _ _ _ _ _ H1), <- app_assoc.
    reflexivity.
Qed.

(** X21: the inputs written for a seed are those of this seed alone: what
    earlier seeds recorded is discarded, every epoch of the seed adds the
    study batch of each of its trials in order (the same batches in every
    epoch, since the generators are those of the seed), and the file written
    last holds exactly this list. *)
Theorem pair_inputs_of_seed (k : Z) (s s' : state) (u : unit) :
  seed_run k s = (s', Ok u) →
  let study :=
    DataLoader W (sequence (make_generator W (experiment cfg) (generators_built s))) in
  let recall :=
    DataLoader W
      (sequence (make_generator W (experiment cfg) (S (generators_built s)))) in
  pairs_inputs s'
  = concat (map (λ _, take (min (length study) (length recall)) study)
              (range (train_epochs cfg))) ∧
  ∃ tr early late,
    trace s' = tr ++ [EvWrite "predictions_early" early;
                      EvWrite "predictions_late" late;
                      EvWrite "pair_inputs" (pairs_inputs s')].
Proof.
  unfold seed_run. intros H.
  apply bind_ok in H as (s1 & ? & H1 & H). apply modify_ok in H1 as ->.
  apply bind_ok in H as (s2 & gen_study & H1 & H).
  unfold new_generator in H1. injection H1 as <- <-.
  apply bind_ok in H as (s3 & gen_recall & H1 & H).
  unfold new_generator in H1. injection H1 as <- <-.
  apply bind_ok in H as (s4 & ? & H1 & H). apply modify_ok in H1 as ->.
  apply bind_ok in H as (s5 & ? & H1 & H). apply modify_ok in H1 as ->.
  apply bind_ok in H as (s6 & ? & H1 & H).
  apply epochs_inputs in H1. simpl in H1.
  unfold save_results in H. run_ok H.
  simpl. split; [exact H1 |].
  exists (trace s6), (py_slice 0 (length (predictions s6)) 2 (predictions s6)),
    (py_slice 1 (length (predictions s6)) 2 (predictions s6)).
  rewrite <- !app_assoc. reflexivity.
Qed.

End Main.

Arguments trace {W} s.
Arguments pearson_r_tensor {W} s.
Arguments pearson_r_test {W} s.
Arguments recall_outputs_flat {W} s.
Arguments predictions {W} s.
Arguments grad_enabled {W} s.
Arguments generators_built {W} s.

(** * Properties of the plotters *)

(** ** Tick labels of a heat map ([Visualisations.py], lines 29-40) *)

Lemma rmap_app {A B} (f : A → result B) (l1 l2 : list A) :
  rmap f (l1 ++ l2)
  = rbind (rmap f l1) (λ ys1, rbind (rmap f l2) (λ ys2, Ok (ys1 ++ ys2))).
Proof.
  induction l1 as [|x l1 IH]; simpl.
  - destruct (rmap f l2); reflexivity.
  - destruct (f x) as [y|]; [| reflexivity]. simpl. rewrite IH.
    destruct (rmap f l1) as [ys1|]; [| reflexivity]. simpl.
    destruct (rmap f l2); reflexivity.
Qed.

Lemma range_S (n : nat) :
  range (Z.of_nat (S n)) = range (Z.of_nat n) ++ [Z.of_nat n].
Proof.
  unfold range. rewrite !Nat2Z.id, seq_S, map_app. reflexivity.
Qed.

Lemma py_get_nat {A} (l : list A) (n : nat) :
  py_get l (Z.of_nat n)
  = match l !! n with
    | Some x => Ok x
    | None => Raise IndexError
    end.
Proof.
  unfold py_get. cbv zeta.
  assert ((Z.of_nat n <? 0)%Z = false) as E by (apply Z.ltb_ge; lia).
  rewrite E. cbv iota. rewrite E, Nat2Z.id. cbn [orb].
  destruct (Z.leb_spec (Z.of_nat (length l)) (Z.of_nat n)) as [Hge|Hlt];
    [| reflexivity].
  rewrite (lookup_ge_None_2 l n); [reflexivity | lia].
Qed.

Lemma letters_of_range {A} (l : list A) (n : nat) :
  rmap (λ a : Z, py_get l a) (range (Z.of_nat n))
  = if n <=? length l then Ok (take n l) else Raise IndexError.
Proof.
  induction n as [|n IH].
  - reflexivity.
  - rewrite range_S, rmap_app, IH. clear IH.
    destruct (Nat.leb_spec n (length l)) as [Hn|Hn];
      destruct (Nat.leb_spec (S n) (length l)) as [HS|HS];
      try lia; cbn [rmap rbind]; [| | reflexivity]; rewrite py_get_nat.
    + destruct (lookup_lt_is_Some_2 l n HS) as [x Hx]. rewrite Hx.
      cbn [rbind]. rewrite (take_S_r _ _ _ Hx). reflexivity.
    + rewrite (lookup_ge_None_2 l n); [reflexivity | lia].
Qed.

(** X15: a heat map of a table with at most 26 rows gets the first letters
    of the alphabet as tick labels, one per row; a table with more rows makes
    [create_heatmap] raise IndexError, and a failure to load the table is
    passed on. *)
Theorem heatmap_labels_are_letters (listing : directory) (component : string) :
  create_heatmap listing component
  = match heatmap_load_predictions_pearson listing component with
    | Ok data =>
        if length data <=? 26
        then Ok (data, take (length data) ascii_uppercase)
        else Raise IndexError
    | Raise e => Raise e
    end.
Proof.
  unfold create_heatmap.
  destruct (heatmap_load_predictions_pearson listing component) as [data|e];
    [| reflexivity].
  simpl. rewrite letters_of_range.
  change (length ascii_uppercase) with 26.
  destruct (length data <=? 26); reflexivity.
Qed.

(** ** The frame of a bar plot ([Visualisations.py], lines 60-113) *)

Lemma column_ok (data : matrix) (k : nat) (values : list R) :
  column data k = Ok values → values = map (λ row, nth k row 0%R) data.
Proof.
  unfold column. intros H. apply rmap_ok in H.
  induction H as [|row v data values Hv _ IH]; [reflexivity |].
  simpl. rewrite <- IH. f_equal.
  destruct (row !! k) as [x|] eqn:E; [| discriminate Hv].
  injection Hv as <-. symmetry. apply nth_lookup_Some with (d := 0%R), E.
Qed.

Lemma label_frame_ok (data : matrix) (k : nat) (labels : option (list string))
    (i : nat) (frame : list (R * string)) :
  label_frame data k labels (Z.of_nat i) = Ok frame →
  ∃ l, labels = Some l ∧ i < length l ∧
       frame = map (λ row, (nth k row 0%R, nth i l ""%string)) data.
Proof.
  unfold label_frame. intros H.
  destruct (column data k) as [values|] eqn:Hc; [| discriminate H].
  simpl in H. destruct labels as [l|]; [| discriminate H]. simpl in H.
  rewrite py_get_nat in H.
  destruct (l !! i) as [label|] eqn:Hl; [| discriminate H].
  simpl in H. injection H as <-.
  exists l. split; [reflexivity |].
  split; [apply lookup_lt_is_Some; eauto |].
  rewrite (column_ok _ _ _ Hc), map_map.
  rewrite (nth_lookup_Some _ _ ""%string _ Hl). reflexivity.
Qed.

Lemma bar_labels_length (path : string) (l : list string) :
  bar_labels path = Some l →
  length l = 2 * (if contains "community_structure" path then 4 else 2) ∧
  length (bar_colors path) = length l.
Proof.
  unfold bar_labels, bar_colors.
  destruct (contains "community_structure" path),
           (contains "associative_inference" path),
           (contains "pairs_structure" path);
    intros H; try discriminate H; injection H as <-; split; reflexivity.
Qed.

Lemma bar_component_ok (listing : directory) (path : string)
    (labels : option (list string)) (a : string)
    (frames : list (R * string * string) * list (R * string * string)) :
  bar_component listing path labels a = Ok frames →
  ∃ l early late,
    labels = Some l ∧
    bar_load_predictions_pearson listing ("pearson_early_test_" +:+ a) = Ok early ∧
    bar_load_predictions_pearson listing ("pearson_late_test_" +:+ a) = Ok late ∧
    let groups := if contains "community_structure" path then 4 else 2 in
    frames.1 = bar_rows l groups 0 a early ∧
    frames.2 = bar_rows l groups groups a late.
Proof.
  unfold bar_component. intros H.
  destruct (bar_load_predictions_pearson listing ("pearson_early_test_" +:+ a))
    as [early|]; [| discriminate H].
  simpl in H.
  destruct (label_frame early 0 labels 0) as [fA|] eqn:HA; [| discriminate H].
  simpl in H.
  destruct (label_frame early 1 labels 1) as [fB|] eqn:HB; [| discriminate H].
  simpl in H.
  apply (label_frame_ok _ _ _ 0) in HA as (l & -> & _ & ->).
  apply (label_frame_ok _ _ _ 1) in HB as (? & [= <-] & _ & ->).
  exists l, early.
  destruct (contains "community_structure" path).
  - destruct (label_frame early 2 (Some l) 2) as [fC|] eqn:HC; [| discriminate H].
    simpl in H.
    destruct (label_frame early 3 (Some l) 3) as [fD|] eqn:HD; [| discriminate H].
    simpl in H.
    apply (label_frame_ok _ _ _ 2) in HC as (? & [= <-] & _ & ->).
    apply (label_frame_ok _ _ _ 3) in HD as (? & [= <-] & _ & ->).
    destruct (bar_load_predictions_pearson listing ("pearson_late_test_" +:+ a))
      as [late|]; [| discriminate H].
    simpl in H.
    destruct (label_frame late 0 (Some l) 2) as [gA|]; [| discriminate H].
    simpl in H.
    destruct (label_frame late 1 (Some l) 3) as [gB|]; [| discriminate H].
    simpl in H.
    destruct (label_frame late 0 (Some l) 4) as [hA|] eqn:HA; [| discriminate H].
    simpl in H.
    destruct (label_frame late 1 (Some l) 5) as [hB|] eqn:HB; [| discriminate H].
    simpl in H.
    destruct (label_frame late 2 (Some l) 6) as [hC|] eqn:HC; [| discriminate H].
    simpl in H.
    destruct (label_frame late 3 (Some l) 7) as [hD|] eqn:HD; [| discriminate H].
    simpl in H.
    apply (label_frame_ok _ _ _ 4) in HA as (? & [= <-] & _ & ->).
    apply (label_frame_ok _ _ _ 5) in HB as (? & [= <-] & _ & ->).
    apply (label_frame_ok _ _ _ 6) in HC as (? & [= <-] & _ & ->).
    apply (label_frame_ok _ _ _ 7) in HD as (? & [= <-] & _ & ->).
    injection H as <-. exists late.
    repeat split; unfold bar_rows, set_component; simpl;
      rewrite ?map_app, ?map_map, ?app_nil_r, <- ?app_assoc; reflexivity.
  - simpl in H.
    destruct (bar_load_predictions_pearson listing ("pearson_late_test_" +:+ a))
      as [late|]; [| discriminate H].
    simpl in H.
    destruct (label_frame late 0 (Some l) 2) as [gA|] eqn:HA; [| discriminate H].
    simpl in H.
    destruct (label_frame late 1 (Some l) 3) as [gB|] eqn:HB; [| discriminate H].
    simpl in H.
    apply (label_frame_ok _ _ _ 2) in HA as (? & [= <-] & _ & ->).
    apply (label_frame_ok _ _ _ 3) in HB as (? & [= <-] & _ & ->).
    injection H as <-. exists late.
    repeat split; unfold bar_rows, set_component; simpl;
      rewrite ?map_app, ?map_map, ?app_nil_r, <- ?app_assoc; reflexivity.
Qed.

Lemma bar_loop_ok (listing : directory) (path : string) (l : list string)
    (components : list string) :
  ∀ df0 df,
    bar_loop listing path (Some l) components df0 = Ok df →
    let groups := if contains "community_structure" path then 4 else 2 in
    ∃ tables : list (matrix * matrix),
      Forall2 (λ a t,
                 bar_load_predictions_pearson listing ("pearson_early_test_" +:+ a)
                 = Ok t.1 ∧
                 bar_load_predictions_pearson listing ("pearson_late_test_" +:+ a)
                 = Ok t.2) components tables ∧
      df = df0 ++ concat (zip_with (λ a t, bar_rows l groups 0 a t.1 ++
                                           bar_rows l groups groups a t.2)
                            components tables).
Proof.
  induction components as [|a rest IH]; intros df0 df H; simpl in H.
  - injection H as <-. exists []. split; [constructor |].
    simpl. rewrite app_nil_r. reflexivity.
  - destruct (bar_component listing path (Some l) a) as [frames|] eqn:Hc;
      [| discriminate H].
    simpl in H.
    apply bar_component_ok in Hc as (? & early & late & [= <-] & He & Hl & H1 & H2).
    apply IH in H as (tables & HF & ->).
    exists ((early, late) :: tables). split; [constructor; auto |].
    simpl. rewrite H1, H2, <- !app_assoc. reflexivity.
Qed.

(** X16: when [create_bar] returns for at least one component, the path
    names an experiment, the palette has one colour per label (four, or
    eight for community_structure), and for every component the values of
    column [k] of its early table carry the [k]-th label and those of column
    [k] of its late table the label [groups + k], with two groups, or four
    for community_structure; nothing else is in the frame. *)
Theorem create_bar_frame (listing : directory) (path : string)
    (components : list string) (df : list (R * string * string))
    (colors : list string) :
  components ≠ [] →
  create_bar listing path components = Ok (df, colors) →
  let groups := if contains "community_structure" path then 4 else 2 in
  ∃ (labels : list string) (tables : list (matrix * matrix)),
    bar_labels path = Some labels ∧
    length labels = 2 * groups ∧
    length colors = length labels ∧
    Forall2 (λ a t,
               bar_load_predictions_pearson listing ("pearson_early_test_" +:+ a)
               = Ok t.1 ∧
               bar_load_predictions_pearson listing ("pearson_late_test_" +:+ a)
               = Ok t.2) components tables ∧
    df = concat (zip_with (λ a t, bar_rows labels groups 0 a t.1 ++
                                  bar_rows labels groups groups a t.2)
                   components tables).
Proof.
  unfold create_bar. intros Hne H.
  destruct (bar_loop listing path (bar_labels path) components []) as [df'|] eqn:Hloop;
    [| discriminate H].
  simpl in H. injection H as <- <-.
  assert (∃ l, bar_labels path = Some l) as (l & Hl).
  { destruct components as [|a rest]; [contradiction |]. simpl in Hloop.
    destruct (bar_component listing path (bar_labels path) a) as [frames|] eqn:Hc;
      [| discriminate Hloop].
    apply bar_component_ok in Hc as (l & _ & _ & Hl & _). eauto. }
  rewrite Hl in Hloop. apply bar_loop_ok in Hloop as (tables & HF & ->).
  destruct (bar_labels_length _ _ Hl) as [Hlen Hcol].
  exists l, tables. repeat split; assumption.
Qed.

(** * Properties of the one-shot experiment ([oneshot_cls.py]) *)

Section OneshotRuns.
Context (C : cls) (ocfg : oneshot_config).

(** Where a computation that took no exception has brought the state. *)
Record os_reach (s s' : oneshot_state C) (net : Net C) (training : bool)
    (epoch : option Z) (files : gmap string (Checkpoint C))
    (evs : list (oneshot_event C)) : Prop := {
  reach_model : os_model C s' = net;
  reach_training : os_training C s' = training;
  reach_grad : os_grad C s' = os_grad C s;
  reach_epoch : os_epoch C s' = epoch;
  reach_files : os_files C s' = files;
  reach_log : os_log C s' = os_log C s ++ evs;
}.

Lemma os_reach_refl (s : oneshot_state C) :
  os_reach s s (os_model C s) (os_training C s) (os_epoch C s) (os_files C s) [].
Proof. split; try reflexivity. rewrite app_nil_r. reflexivity. Qed.

Lemma os_bind_run {A B} (m : Run C A) (k : A → Run C B) s s1 a :
  m s = (s1, Ok a) → os_bind C m k s = k a s1.
Proof. unfold os_bind. intros ->. reflexivity. Qed.

Lemma os_bind_raise {A B} (m : Run C A) (k : A → Run C B) s s1 e :
  m s = (s1, Raise e) → os_bind C m k s = (s1, Raise e).
Proof. unfold os_bind. intros ->. reflexivity. Qed.

(** ** The loops *)

Lemma batches_run (m : mode) (e : nat → bool → bool → oneshot_event C)
    (training : bool) (batches : list (Batch C)) :
  ∀ (k : nat) (s : oneshot_state C),
    os_training C s = training →
    ∃ s',
      os_for C (imap (λ i data, (k + i, data)) batches)
        (λ p, os_call C m p.2 (e p.1)) s = (s', Ok tt) ∧
      os_reach s s'
        (fold_left (λ n data, forward C m training (os_grad C s) data n) batches
           (os_model C s))
        training (os_epoch C s) (os_files C s)
        (imap (λ i _, e (k + i) training (os_grad C s)) batches).
Proof.
  induction batches as [|data batches IH]; intros k s Ht.
  - exists s. split; [reflexivity |]. rewrite <- Ht. apply os_reach_refl.
  - destruct (IH (S k)
                (os_record C (e (k + 0) (os_training C s) (os_grad C s))
                   (os_set_model C
                      (forward C m (os_training C s) (os_grad C s) data (os_model C s))
                      s)) Ht)
      as (s' & Hrun & [R1 R2 R3 R4 R5 R6]).
    exists s'. split.
    + simpl. unfold os_bind, os_call, os_do. simpl.
      rewrite <- Hrun. f_equal. apply imap_ext. intros i x _. simpl.
      f_equal. lia.
    + simpl in *. rewrite Ht in *. split; try assumption.
      rewrite R6, <- app_assoc. simpl. do 2 f_equal.
      apply imap_ext. intros i x _. simpl. f_equal. lia.
Qed.

Lemma steps_run (idx : nat) (data : Batch C) (steps : list Z) :
  ∀ s : oneshot_state C,
    ∃ s',
      os_for C steps (λ step, os_call C Study data (OsStudy C idx step)) s
      = (s', Ok tt) ∧
      os_reach s s'
        (fold_left (λ n _, forward C Study (os_training C s) (os_grad C s) data n)
           steps (os_model C s))
        (os_training C s) (os_epoch C s) (os_files C s)
        (map (λ step, OsStudy C idx step (os_training C s) (os_grad C s)) steps).
Proof.
  induction steps as [|step steps IH]; intros s.
  - exists s. split; [reflexivity |]. apply os_reach_refl.
  - destruct (IH (os_record C (OsStudy C idx step (os_training C s) (os_grad C s))
                    (os_set_model C
                       (forward C Study (os_training C s) (os_grad C s) data
                          (os_model C s)) s)))
      as (s' & Hrun & [R1 R2 R3 R4 R5 R6]).
    exists s'. split; [exact Hrun |].
    simpl in *. split; try assumption.
    rewrite R6, <- app_assoc. reflexivity.
Qed.

(** ** One trial (lines 108-128) *)

Lemma oneshot_trial_run (path : string) (checkpoint : Checkpoint C)
    (p : nat * (Batch C * Batch C)) (s : oneshot_state C) :
  os_files C s !! path = Some checkpoint →
  os_grad C s = true →
  ∃ s' net,
    oneshot_trial C ocfg path p s = (s', Ok tt) ∧
    os_reach s s' net false (os_epoch C s) (os_files C s)
      (trial_events C ocfg path checkpoint p.1).
Proof.
  intros Hfile Hgrad. unfold oneshot_trial, oneshot_study, oneshot_recall.
  unfold os_bind at 1. unfold os_bind at 1. rewrite Hfile.
  unfold os_bind at 1. unfold os_do at 1.
  unfold os_bind at 1. unfold os_do at 1.
  match goal with
  | |- context [os_for C _ _ ?s0] =>
      destruct (steps_run p.1 p.2.1 (range (study_steps ocfg)) s0)
        as (s1 & -> & [R1 R2 R3 R4 R5 R6])
  end.
  simpl in R2, R3, R4, R5, R6. rewrite Hgrad in R3, R6.
  unfold os_bind, os_do, os_no_grad, os_call. simpl.
  rewrite R3.
  eexists _, _. split; [reflexivity |].
  split; simpl.
  - reflexivity.
  - reflexivity.
  - symmetry. exact Hgrad.
  - exact R4.
  - exact R5.
  - rewrite R6. unfold trial_events. simpl.
    rewrite <- !app_assoc. reflexivity.
Qed.

Lemma oneshot_trials_run (path : string) (checkpoint : Checkpoint C)
    (batches : list (Batch C * Batch C)) :
  ∀ (k : nat) (s : oneshot_state C),
    os_files C s !! path = Some checkpoint →
    os_grad C s = true →
    ∃ s',
      os_for C (imap (λ idx b, (k + idx, b)) batches) (oneshot_trial C ocfg path) s
      = (s', Ok tt) ∧
      os_grad C s' = true ∧
      os_epoch C s' = os_epoch C s ∧
      os_files C s' = os_files C s ∧
      os_log C s'
      = os_log C s ++
        concat (imap (λ idx _, trial_events C ocfg path checkpoint (k + idx)) batches).
Proof.
  induction batches as [|b batches IH]; intros k s Hfile Hgrad.
  - exists s. simpl. rewrite app_nil_r. auto.
  - destruct (oneshot_trial_run path checkpoint (k + 0, b) s Hfile Hgrad)
      as (s1 & net & Hrun & [R1 R2 R3 R4 R5 R6]).
    destruct (IH (S k) s1) as (s' & Hrest & G & E & F & L).
    { rewrite R5. exact Hfile. }
    { rewrite R3. exact Hgrad. }
    exists s'. split; [| split; [exact G | split; [| split]]].
    + simpl. rewrite (os_bind_run _ _ _ _ _ Hrun), <- Hrest.
      f_equal. apply imap_ext. intros i x _. simpl. f_equal. lia.
    + rewrite E, R4. reflexivity.
    + rewrite F, R5. reflexivity.
    + rewrite L, R6, imap_cons, concat_cons, <- app_assoc.
      cbn [fst]. do 3 f_equal.
      apply imap_ext. intros i x _. simpl. f_equal. lia.
Qed.

(** ** Pretraining (lines 57-83) *)

Lemma pretrain_epochs_run (epochs : list Z) :
  ∀ s : oneshot_state C,
    os_grad C s = true →
    ∃ s',
      os_for C epochs (pretrain_epoch C) s = (s', Ok tt) ∧
      os_model C s' = fold_left (pretrain_pass C) epochs (os_model C s) ∧
      os_grad C s' = true ∧
      os_epoch C s' = fold_left (λ _ epoch, Some epoch) epochs (os_epoch C s) ∧
      os_files C s' = os_files C s ∧
      os_log C s'
      = os_log C s ++
        concat (map (λ epoch, imap (λ i _, OsPretrain C epoch i true true)
                                (background_loader C epoch)) epochs).
Proof.
  induction epochs as [|epoch epochs IH]; intros s Hgrad.
  - exists s. simpl. rewrite app_nil_r. repeat split; try reflexivity. exact Hgrad.
  - destruct (batches_run Pretrain (OsPretrain C epoch) true
                (background_loader C epoch) 0
                (os_set_training C true (os_set_epoch C (Some epoch) s)) eq_refl)
      as (s1 & Hrun & [R1 R2 R3 R4 R5 R6]).
    simpl in R1, R3, R4, R5, R6. rewrite Hgrad in *.
    destruct (IH s1 R3) as (s' & Hrest & M & G & E & F & L).
    exists s'. split; [| split; [| split; [exact G | split; [| split]]]].
    + simpl. unfold os_bind at 1. unfold pretrain_epoch at 1.
      unfold os_bind at 1. unfold os_do at 1.
      unfold os_bind at 1. unfold os_do at 1.
      change (imap (λ batch_idx data, (batch_idx, data)) (background_loader C epoch))
        with (imap (λ i data, (0 + i, data)) (background_loader C epoch)).
      rewrite Hrun. exact Hrest.
    + rewrite M, R1. reflexivity.
    + rewrite E, R4. reflexivity.
    + rewrite F, R5. reflexivity.
    + rewrite L, R6. simpl. rewrite <- app_assoc. reflexivity.
Qed.

Lemma range_from_last (n : Z) :
  (1 ≤ n)%Z → ∃ front, range_from 1 (n + 1) = front ++ [n].
Proof.
  intros Hn. unfold range_from, range.
  replace (Z.to_nat (n + 1 - 1)) with (S (Z.to_nat (n - 1))) by lia.
  rewrite seq_S, !map_app. simpl.
  eexists. f_equal. f_equal. lia.
Qed.

Lemma range_from_empty (n : Z) : (n ≤ 0)%Z → range_from 1 (n + 1) = [].
Proof.
  intros Hn. unfold range_from, range.
  replace (Z.to_nat (n + 1 - 1)) with 0 by lia. reflexivity.
Qed.

Lemma pretraining_run (files : gmap string (Checkpoint C)) :
  (1 ≤ pretrain_epochs ocfg)%Z →
  let epochs := range_from 1 (pretrain_epochs ocfg + 1) in
  let path := model_file C (pretrain_epochs ocfg) in
  ∃ s',
    pretraining C ocfg (oneshot_initial C files) = (s', Ok path) ∧
    os_grad C s' = true ∧
    os_files C s' = <[path := state_dict C (pretrained C epochs)]> files ∧
    os_log C s'
    = concat (map (λ epoch, imap (λ i _, OsPretrain C epoch i true true)
                              (background_loader C epoch)) epochs) ++
      [OsSave C path].
Proof.
  intros Hn epochs path. unfold pretraining.
  unfold os_bind at 1. unfold os_do at 1.
  destruct (pretrain_epochs_run epochs
              (os_set_training C true
                 (os_set_model C (new_model C) (oneshot_initial C files))) eq_refl)
    as (s1 & Hrun & M & G & E & F & L).
  fold epochs. rewrite (os_bind_run _ _ _ _ _ Hrun).
  simpl in M, E, F, L.
  destruct (range_from_last _ Hn) as (front & Hfront). fold epochs in Hfront.
  rewrite Hfront, fold_left_app in E. simpl in E.
  rewrite E. eexists. split; [reflexivity |]. simpl.
  rewrite G, F, M, L. auto.
Qed.

Lemma imap_zip_const {A B D} (f : nat → D) (l : list A) (r : list B) :
  length l = length r →
  imap (λ i _, f i) (zip l r) = imap (λ i _, f i) l.
Proof.
  revert f r. induction l as [|a l IH]; intros f [|b r] Hlen;
    try discriminate Hlen; [reflexivity |].
  simpl. f_equal. apply (IH (λ i, f (S i))). simpl in Hlen. lia.
Qed.

Lemma no_trial_events (l : list (oneshot_event C)) :
  Forall (λ ev, is_trial_event C ev = false) l →
  filter (λ ev, is_trial_event C ev = true) l = [].
Proof.
  induction 1 as [|ev l Hev _ IH]; [reflexivity |].
  rewrite filter_cons_False; [exact IH |]. rewrite Hev. discriminate.
Qed.

(** X17: when the two one-shot loaders differ in length, [main] ends with
    an exception before any trial: no checkpoint is loaded and the model is
    never called in study or recall mode.  With a configured checkpoint the
    AssertionError comes at once; without one it comes only after the whole
    pretraining has run and its checkpoint has been saved. *)
Theorem oneshot_unequal_loaders (files : gmap string (Checkpoint C)) :
  length (study_loader C) ≠ length (recall_loader C) →
  ∃ s' e,
    oneshot_main C ocfg (oneshot_initial C files) = (s', Raise e) ∧
    filter (λ ev, is_trial_event C ev = true) (os_log C s') = [] ∧
    (∀ path, pretrained_model_path ocfg = Some path → path ≠ ""%string →
       s' = oneshot_initial C files ∧ e = AssertionError "") ∧
    ((1 ≤ pretrain_epochs ocfg)%Z →
       e = AssertionError "" ∧
       ((pretrained_model_path ocfg = None ∨ pretrained_model_path ocfg = Some ""%string) →
        OsSave C (model_file C (pretrain_epochs ocfg)) ∈ os_log C s')).
Proof.
  intros Hlen. unfold oneshot_main.
  apply Nat.eqb_neq in Hlen. rewrite Hlen.
  match goal with
  | |- context [os_bind C _ ?k] => set (tail := k)
  end.
  assert (∀ path s, tail path s = (s, Raise (AssertionError ""))) as Htail
    by reflexivity.
  assert (∃ s' e,
            os_bind C (pretraining C ocfg) tail (oneshot_initial C files)
            = (s', Raise e) ∧
            filter (λ ev, is_trial_event C ev = true) (os_log C s') = [] ∧
            ((1 ≤ pretrain_epochs ocfg)%Z →
             e = AssertionError "" ∧
             OsSave C (model_file C (pretrain_epochs ocfg)) ∈ os_log C s'))
    as Hpre.
  { destruct (Z_le_gt_dec 1 (pretrain_epochs ocfg)) as [Hn|Hn].
    - destruct (pretraining_run files Hn) as (s1 & Hrun & G & F & L).
      exists s1, (AssertionError ""). split; [| split].
      + rewrite (os_bind_run _ _ _ _ _ Hrun). apply Htail.
      + rewrite L. apply no_trial_events.
        apply Forall_app. split; [| repeat constructor].
        apply Forall_concat, Forall_forall. intros evs Hevs.
        apply list_elem_of_fmap in Hevs as (epoch & -> & _).
        apply Forall_forall. intros ev Hev.
        apply elem_of_lookup_imap in Hev as (i & b & -> & _). reflexivity.
      + intros _. split; [reflexivity |].
        rewrite L. apply elem_of_app. right. apply list_elem_of_here.
    - exists (oneshot_initial C files), (UnboundLocalError "epoch").
      split; [| split; [reflexivity | intros; lia]].
      unfold pretraining. rewrite range_from_empty by lia. reflexivity. }
  destruct (pretrained_model_path ocfg) as [path|] eqn:Hp.
  - destruct (String.eqb_spec path "") as [->|Hne].
    + destruct Hpre as (s' & e & Hrun & Hf & He).
      exists s', e. split; [exact Hrun |]. split; [exact Hf |].
      split; [intros p [= <-] Hp'; contradiction |].
      intros Hn. destruct (He Hn). auto.
    + exists (oneshot_initial C files), (AssertionError "").
      split; [apply Htail |]. split; [reflexivity |].
      split; [auto |]. intros _. split; [reflexivity |].
      intros [Hx|Hx]; [discriminate Hx | injection Hx as ->; contradiction].
  - destruct Hpre as (s' & e & Hrun & Hf & He).
    exists s', e. split; [exact Hrun |]. split; [exact Hf |].
    split; [intros p Hp'; discriminate Hp' |].
    intros Hn. destruct (He Hn). auto.
Qed.

(** X18: without a configured checkpoint and with no pretraining epoch,
    [main] stops with UnboundLocalError at the name of the checkpoint, whose
    epoch number was never bound; nothing has been saved and the model has
    not been called. *)
Theorem oneshot_no_pretrain_epochs (files : gmap string (Checkpoint C)) :
  pretrained_model_path ocfg = None ∨ pretrained_model_path ocfg = Some ""%string →
  (pretrain_epochs ocfg ≤ 0)%Z →
  oneshot_main C ocfg (oneshot_initial C files)
  = (oneshot_initial C files, Raise (UnboundLocalError "epoch")).
Proof.
  intros Hp Hn. unfold oneshot_main.
  assert (pretraining C ocfg (oneshot_initial C files)
          = (oneshot_initial C files, Raise (UnboundLocalError "epoch"))) as Hpre.
  { unfold pretraining. rewrite range_from_empty by exact Hn. reflexivity. }
  destruct Hp as [-> | ->]; simpl; rewrite (os_bind_raise _ _ _ _ _ Hpre);
    reflexivity.
Qed.

(** X19: with a configured checkpoint that is on disk and loaders of equal
    length, [main] runs one trial per batch, in order; every trial loads
    that same checkpoint and resets the model, calls it [study_steps] times
    in study mode with the training flag and autograd on, and then once in
    recall mode with the training flag and autograd off.  No checkpoint is
    saved: the checkpoint files are as before. *)
Theorem oneshot_trials_from_checkpoint (files : gmap string (Checkpoint C))
    (path : string) (checkpoint : Checkpoint C) :
  pretrained_model_path ocfg = Some path →
  path ≠ ""%string →
  files !! path = Some checkpoint →
  length (study_loader C) = length (recall_loader C) →
  ∃ s',
    oneshot_main C ocfg (oneshot_initial C files) = (s', Ok tt) ∧
    os_files C s' = files ∧
    os_grad C s' = true ∧
    os_log C s'
    = concat (imap (λ idx _, trial_events C ocfg path checkpoint idx)
                (study_loader C)).
Proof.
  intros Hp Hne Hfile Hlen. unfold oneshot_main. rewrite Hp.
  destruct (String.eqb_spec path "") as [Heq|_]; [contradiction |].
  apply Nat.eqb_eq in Hlen as Hlenb. rewrite Hlenb.
  destruct (oneshot_trials_run path checkpoint
              (zip (study_loader C) (recall_loader C)) 0
              (os_set_training C true
                 (os_set_model C (new_model C) (oneshot_initial C files)))
              Hfile eq_refl) as (s' & Hrun & G & E & F & L).
  exists s'. split; [| split; [exact F | split; [exact G |]]].
  - unfold os_bind, os_ret, os_do. exact Hrun.
  - rewrite L. simpl. f_equal.
    rewrite <- (imap_zip_const (trial_events C ocfg path checkpoint) _ _ Hlen).
    apply imap_ext. intros i x _. reflexivity.
Qed.

(** X20: without a configured checkpoint and with at least one pretraining
    epoch, [main] makes the passes over the background set, saves the
    state of the pretrained model under the name of the last epoch, and
    every trial loads exactly that state: the checkpoint read is the one
    written. *)
Theorem oneshot_checkpoint_round_trip (files : gmap string (Checkpoint C)) :
  pretrained_model_path ocfg = None ∨ pretrained_model_path ocfg = Some ""%string →
  (1 ≤ pretrain_epochs ocfg)%Z →
  length (study_loader C) = length (recall_loader C) →
  let epochs := range_from 1 (pretrain_epochs ocfg + 1) in
  let path := model_file C (pretrain_epochs ocfg) in
  let checkpoint := state_dict C (pretrained C epochs) in
  ∃ s',
    oneshot_main C ocfg (oneshot_initial C files) = (s', Ok tt) ∧
    os_files C s' = <[path := checkpoint]> files ∧
    os_log C s'
    = concat (map (λ epoch, imap (λ i _, OsPretrain C epoch i true true)
                              (background_loader C epoch)) epochs) ++
      [OsSave C path] ++
      concat (imap (λ idx _, trial_events C ocfg path checkpoint idx)
                (study_loader C)).
Proof.
  intros Hp Hn Hlen epochs path checkpoint. unfold oneshot_main.
  destruct (pretraining_run files Hn) as (s1 & Hpre & G1 & F1 & L1).
  fold epochs path checkpoint in Hpre, F1, L1.
  apply Nat.eqb_eq in Hlen as Hlenb. rewrite Hlenb.
  destruct (oneshot_trials_run path checkpoint
              (zip (study_loader C) (recall_loader C)) 0
              (os_set_training C true (os_set_model C (new_model C) s1)))
    as (s' & Hrun & G & E & F & L).
  { simpl. rewrite F1. apply lookup_insert_eq. }
  { exact G1. }
  exists s'. split; [| split].
  - match goal with
    | |- context [os_bind C _ ?k] => set (tail := k)
    end.
    assert (os_bind C (pretraining C ocfg) tail (oneshot_initial C files)
            = (s', Ok tt)) as Hmain.
    { rewrite (os_bind_run _ _ _ _ _ Hpre). subst tail.
      unfold os_bind, os_ret, os_do. exact Hrun. }
    destruct Hp as [-> | ->]; exact Hmain.
  - rewrite F. simpl. exact F1.
  - rewrite L. simpl. rewrite L1, <- app_assoc. do 3 f_equal.
    rewrite <- (imap_zip_const (trial_events C ocfg path checkpoint) _ _ Hlen).
    apply imap_ext. intros i x _. reflexivity.
Qed.

End OneshotRuns.

(** * Properties of the set-up of the model ([schapiro_experiments.py], lines 92-184) *)

Section SetupRuns.
Context (P : pretrainer).

Lemma validation_loop (e : nat → bool → setup_event) (l : list (LtmBatch P)) :
  ∀ (i : nat) (s : setup_state P),
    let s' :=
      for_enumerate_break (λ j, (Z.of_nat j >=? MAX_VAL_STEPS)%Z)
        (λ j data, su_call P Validate (e j) data) i l s in
    su_grad P s' = su_grad P s ∧ su_path P s' = su_path P s ∧
    su_log P s' = su_log P s ++ imap (λ j _, e (i + j) (su_grad P s)) (take (100 - i) l).
Proof.
  unfold MAX_VAL_STEPS.
  induction l as [|x l IH]; intros i s; simpl.
  - rewrite take_nil, app_nil_r. auto.
  - rewrite Z.geb_leb. destruct (Z.leb_spec 100 (Z.of_nat i)) as [Hi|Hi].
    + replace (100 - i) with 0 by lia. simpl. rewrite app_nil_r. auto.
    + destruct (IH (S i) (su_call P Validate (e i) x s)) as (G & Q & L).
      split; [exact G |]. split; [exact Q |].
      rewrite L. simpl. rewrite <- app_assoc.
      replace (100 - i) with (S (100 - S i)) by lia.
      simpl. rewrite Nat.add_0_r. do 2 f_equal.
      apply imap_ext. intros j y _. simpl. f_equal. lia.
Qed.

Lemma validation_log (k epoch : Z) (batch_idx : nat) (s : setup_state P) :
  su_grad P (validation P k epoch batch_idx s) = su_grad P s ∧
  su_path P (validation P k epoch batch_idx s) = su_path P s ∧
  su_log P (validation P k epoch batch_idx s)
  = su_log P s ++
    imap (λ j _, SuValidate epoch batch_idx j false)
      (take 100 (val_batches P k epoch batch_idx)).
Proof.
  unfold validation.
  destruct (validation_loop (SuValidate epoch batch_idx)
              (val_batches P k epoch batch_idx) 0 (su_set_grad P false s))
    as (_ & Q & L).
  split; [reflexivity |]. split; [exact Q |]. exact L.
Qed.

Lemma last_batch_test (b n : nat) :
  (Z.of_nat b =? Z.of_nat n - 1)%Z = (S b =? n).
Proof.
  destruct (Z.eqb_spec (Z.of_nat b) (Z.of_nat n - 1)),
           (Nat.eqb_spec (S b) n); try reflexivity; lia.
Qed.

Lemma training_loop (k epoch : Z) (n : nat) (l : list (LtmBatch P)) :
  ∀ (i : nat) (s : setup_state P),
    su_grad P s = true →
    let s' :=
      for_enumerate_break
        (λ batch_idx, (0 <? MAX_PRETRAIN_STEPS)%Z
                      && (MAX_PRETRAIN_STEPS <? Z.of_nat batch_idx)%Z)
        (train_batch P k epoch n) i l s in
    su_grad P s' = true ∧ su_path P s' = su_path P s ∧
    su_log P s'
    = su_log P s ++
      concat (imap (λ j _,
                      SuTrain epoch (i + j) true ::
                      (if ((i + j) mod 20 =? 0) || (S (i + j) =? n)
                       then imap (λ batch_idx_val _,
                                    SuValidate epoch (i + j) batch_idx_val false)
                              (take 100 (val_batches P k epoch (i + j)))
                       else []))
                l).
Proof.
  induction l as [|x l IH]; intros i s Hg.
  - simpl. rewrite app_nil_r. auto.
  - set (s1 := train_batch P k epoch n i x s).
    assert (su_grad P s1 = true ∧ su_path P s1 = su_path P s ∧
            su_log P s1
            = su_log P s ++
              SuTrain epoch i true ::
              (if (i mod 20 =? 0) || (S i =? n)
               then imap (λ batch_idx_val _, SuValidate epoch i batch_idx_val false)
                      (take 100 (val_batches P k epoch i))
               else [])) as (G1 & Q1 & L1).
    { subst s1. unfold train_batch, VAL_EVERY. rewrite last_batch_test.
      destruct ((i mod 20 =? 0) || (S i =? n)).
      - destruct (validation_log k epoch i
                    (su_call P Pretrain (SuTrain epoch i) x s)) as (G & Q & L).
        rewrite G, Q, L. simpl. rewrite Hg, <- app_assoc. auto.
      - simpl. rewrite Hg. auto. }
    destruct (IH (S i) s1 G1) as (G & Q & L).
    cbv zeta.
    change (for_enumerate_break
              (λ batch_idx, (0 <? MAX_PRETRAIN_STEPS)%Z
                            && (MAX_PRETRAIN_STEPS <? Z.of_nat batch_idx)%Z)
              (train_batch P k epoch n) i (x :: l) s)
      with (for_enumerate_break
              (λ batch_idx, (0 <? MAX_PRETRAIN_STEPS)%Z
                            && (MAX_PRETRAIN_STEPS <? Z.of_nat batch_idx)%Z)
              (train_batch P k epoch n) (S i) l s1).
    split; [exact G |]. split; [rewrite Q; exact Q1 |].
    rewrite L, L1, imap_cons, concat_cons, <- !app_assoc, Nat.add_0_r.
    do 3 f_equal.
    apply imap_ext. intros j y _. unfold compose.
    replace (i + S j) with (S i + j) by lia. reflexivity.
Qed.

Lemma train_epoch_log (k epoch : Z) (s : setup_state P) :
  su_grad P s = true →
  su_grad P (train_epoch P k s epoch) = true ∧
  su_path P (train_epoch P k s epoch) = Some (seed_summary_dir P k) ∧
  su_log P (train_epoch P k s epoch) = su_log P s ++ epoch_schedule P k epoch.
Proof.
  intros Hg. unfold train_epoch, SAVE_EVERY. rewrite Z.mod_1_r.
  change (0 =? 0)%Z with true. cbv iota zeta.
  destruct (training_loop k epoch (length (train_batches P k epoch))
              (train_batches P k epoch) 0 s Hg) as (G & _ & L).
  cbv zeta in G, L.
  split; [exact G |]. split; [reflexivity |].
  cbn [su_log]. rewrite L. unfold epoch_schedule. rewrite <- app_assoc. reflexivity.
Qed.

Lemma train_epochs_log (k : Z) (epochs : list Z) :
  ∀ s : setup_state P,
    su_grad P s = true →
    su_grad P (fold_left (train_epoch P k) epochs s) = true ∧
    su_path P (fold_left (train_epoch P k) epochs s)
    = match epochs with
      | [] => su_path P s
      | _ => Some (seed_summary_dir P k)
      end ∧
    su_log P (fold_left (train_epoch P k) epochs s)
    = su_log P s ++ concat (map (epoch_schedule P k) epochs).
Proof.
  induction epochs as [|epoch epochs IH]; intros s Hg.
  - simpl. rewrite app_nil_r. auto.
  - destruct (train_epoch_log k epoch s Hg) as (G1 & Q1 & L1).
    destruct (IH _ G1) as (G & Q & L).
    split; [exact G |]. split.
    + simpl. rewrite Q. destruct epochs; [exact Q1 | reflexivity].
    + simpl. rewrite L, L1, <- app_assoc. reflexivity.
Qed.

(** X22: a seed that finds no checkpoint directory pretrains a new model:
    in every epoch each batch of the training loader is trained on, with
    autograd on and in the order of the loader; a validation without
    autograd follows every twentieth batch, counted from the first, and the
    last batch, and reads at most 100 batches; a checkpoint is saved after
    each epoch.  The loop over the batches is never left early. *)
Theorem pretraining_schedule (pretrain_epochs k : Z) (s : setup_state P) :
  su_path P s = None ∨ su_path P s = Some ""%string →
  su_grad P s = true →
  ∃ s',
    setup_model P pretrain_epochs k s = Ok s' ∧
    su_grad P s' = true ∧
    su_log P s'
    = su_log P s ++
      concat (map (epoch_schedule P k) (range_from 1 (pretrain_epochs + 1))).
Proof.
  intros Hp Hg.
  destruct (train_epochs_log k (range_from 1 (pretrain_epochs + 1))
              {| su_model := new_cls P k; su_grad := su_grad P s;
                 su_path := su_path P s; su_log := su_log P s |} Hg)
    as (G & _ & L).
  eexists. split; [| split; [exact G | exact L]].
  unfold setup_model. destruct Hp as [-> | ->]; reflexivity.
Qed.

(** X23: once a seed has pretrained for at least one epoch, the checkpoint
    directory is that seed's summary directory, so the set-up of any later
    seed does not pretrain again: it only loads the latest checkpoint of
    that directory into a new model, and fails when that load fails. *)
Theorem pretraining_happens_once (pretrain_epochs k : Z) (s : setup_state P) :
  su_path P s = None ∨ su_path P s = Some ""%string →
  (1 ≤ pretrain_epochs)%Z →
  seed_summary_dir P k ≠ ""%string →
  ∃ s1,
    setup_model P pretrain_epochs k s = Ok s1 ∧
    su_path P s1 = Some (seed_summary_dir P k) ∧
    ∀ k',
      setup_model P pretrain_epochs k' s1
      = rbind (load_latest_ltm P (seed_summary_dir P k) (new_cls P k')) (λ model,
        Ok {| su_model := model; su_grad := su_grad P s1;
              su_path := Some (seed_summary_dir P k);
              su_log := su_log P s1 ++ [SuLoad (seed_summary_dir P k)] |}).
Proof.
  intros Hp Hn Hdir.
  set (s0 := {| su_model := new_cls P k; su_grad := su_grad P s;
                su_path := su_path P s; su_log := su_log P s |}).
  assert (su_path P (fold_left (train_epoch P k)
                       (range_from 1 (pretrain_epochs + 1)) s0)
          = Some (seed_summary_dir P k)) as Hpath.
  { destruct (range_from_last _ Hn) as (front & ->).
    rewrite fold_left_app. reflexivity. }
  exists (fold_left (train_epoch P k) (range_from 1 (pretrain_epochs + 1)) s0).
  split; [| split; [exact Hpath |]].
  - unfold setup_model. subst s0.
    destruct Hp as [Hp | Hp]; rewrite Hp; reflexivity.
  - intros k'. unfold setup_model at 1. rewrite Hpath.
    destruct (String.eqb_spec (seed_summary_dir P k) "") as [He|_];
      [contradiction | reflexivity].
Qed.

End SetupRuns.

Lemma run_result {A B} (p : A * B) (b : B) : p.2 = b → p = (p.1, b).
Proof. intros <-. destruct p. reflexivity. Qed.

Abbreviation final0 := (experiment_loops world0 config0 (initial_state world0)).1.

Example run0_succeeds :
  (experiment_loops world0 config0 (initial_state world0)).2 = Ok tt.
Proof. vm_compute. reflexivity. Qed.

Example run0_trials : trials_of_trace (trace final0) = [0; 1].
Proof. vm_compute. reflexivity. Qed.

Example run0_steps :
  (matrices_of "dg" (trace final0)).*1 = [0; 2; 0; 2]%Z.
Proof. vm_compute. reflexivity. Qed.

Example run0_main :
  (main world0 config0 (initial_state world0)).2 = Raise (NameError "HeatmapPlotter").
Proof. vm_compute. reflexivity. Qed.

(** The state of [world0] where a probe has just fetched the features of
    [dg]. *)
Abbreviation ready0 := (ready world0 config0 [[1; 2; 4]; [2; 1; 0]]%R 0).

Example context0_built : epoch_context world0 config0 generator0 = Ok context0.
Proof. reflexivity. Qed.

Lemma C1_early_late_counts_witness :
  (1 ≤ early_response_step config0 < late_response_steps config0)%Z ∧
  NoDup (components config0) ∧
  "dg" ∈ components config0 ∧
  experiment_loops world0 config0 (initial_state world0) = (final0, Ok tt) ∧
  ∃ tensor test,
    pearson_r_tensor final0 !! "dg" = Some tensor ∧
    pearson_r_test final0 !! "dg" = Some test ∧
    length (early_slice tensor) = total_trials world0 config0 ∧
    length (late_slice tensor) = total_trials world0 config0 ∧
    length (early_slice test) = total_trials world0 config0 ∧
    length (late_slice test) = total_trials world0 config0 ∧
    early_slice tensor
    = tagged (early_response_step config0 - 1)%Z (matrices_of "dg" (trace final0)) ∧
    late_slice tensor
    = tagged (late_response_steps config0 - 1)%Z (matrices_of "dg" (trace final0)) ∧
    early_slice test
    = tagged (early_response_step config0 - 1)%Z (contrasts_of "dg" (trace final0)) ∧
    late_slice test
    = tagged (late_response_steps config0 - 1)%Z (contrasts_of "dg" (trace final0)) ∧
    length tensor = 1 + 2 * total_trials world0 config0 ∧
    length test = 1 + 2 * total_trials world0 config0 ∧
    Forall (λ p, (p.1 = (early_response_step config0 - 1)%Z ∨
                  p.1 = (late_response_steps config0 - 1)%Z) ∧
                 (early_response_step config0 - 1)%Z ≠ (late_response_steps config0 - 1)%Z)
      (matrices_of "dg" (trace final0)) ∧
    Forall (λ p, (p.1 = (early_response_step config0 - 1)%Z ∨
                  p.1 = (late_response_steps config0 - 1)%Z) ∧
                 (early_response_step config0 - 1)%Z ≠ (late_response_steps config0 - 1)%Z)
      (contrasts_of "dg" (trace final0)).
Proof.
  assert (1 ≤ early_response_step config0 < late_response_steps config0)%Z as H1
    by (simpl; lia).
  assert (NoDup (components config0)) as H2
    by (apply (bool_decide_unpack _); vm_compute; exact I).
  assert ("dg" ∈ components config0) as H3 by (left).
  pose proof (run_result _ _ run0_succeeds) as H4.
  repeat (split; [assumption |]).
  exact (C1_early_late_counts world0 config0 "dg" final0 tt H1 H2 H3 H4).
Defined.

Lemma C2_two_probes_per_trial_witness :
  (1 ≤ early_response_step config0 < late_response_steps config0)%Z ∧
  ∃ evs,
    trace (study_loop world0 config0 context0 (tt, tt) ready0).1
    = trace ready0 ++ evs ∧
    recall_calls evs = [(false, (early_response_step config0 - 1)%Z);
                        (false, (late_response_steps config0 - 1)%Z)].
Proof.
  assert (1 ≤ early_response_step config0 < late_response_steps config0)%Z as H1
    by (simpl; lia).
  assert ((study_loop world0 config0 context0 (tt, tt) ready0).2 = Ok tt) as H2
    by (vm_compute; reflexivity).
  split; [exact H1 |].
  exact (C2_two_probes_per_trial world0 config0 context0 (tt, tt) ready0 _ tt H1
           (run_result _ _ H2)).
Defined.

Lemma C3_contrast_vector_witness :
  Forall (Forall item_cell)
    (partitions (experiment config0) (sequence_study context0)) ∧
  ∃ flat pearson_r acc,
    recall_outputs_flat ready0 = Some flat ∧
    correlation_matrix (take (characters config0) flat) = Ok pearson_r ∧
    pearson_r_test ready0 !! "dg" = Some acc ∧
    pearson_r_test (accumulate_correlations world0 config0 context0 0 "dg" ready0).1
      !! "dg"
    = Some (acc ++ [spec_contrast (experiment config0) (sequence_study context0)
                      pearson_r]).
Proof.
  assert (Forall (Forall item_cell)
            (partitions (experiment config0) (sequence_study context0))) as H1
    by (repeat constructor; simpl; lia).
  assert ((accumulate_correlations world0 config0 context0 0 "dg" ready0).2 = Ok tt)
    as H2 by (vm_compute; reflexivity).
  split; [exact H1 |].
  exact (C3_contrast_vector world0 config0 context0 0 "dg" ready0 _ tt H1
           (run_result _ _ H2)).
Defined.

Lemma C4_correlation_matrix_witness :
  ∃ flat pearson_r acc,
    recall_outputs_flat ready0 = Some flat ∧
    correlation_matrix (take (characters config0) flat) = Ok pearson_r ∧
    pearson_r_tensor ready0 !! "dg" = Some acc ∧
    matrices_of "dg"
      (drop (length (trace ready0))
         (trace (accumulate_correlations world0 config0 context0 0 "dg" ready0).1))
    = [(0%Z, pearson_r)] ∧
    length pearson_r = characters config0 ∧
    Forall (λ row : list R, length row = characters config0) pearson_r ∧
    (∀ i j, i < characters config0 → j < characters config0 →
       entry pearson_r i j = entry pearson_r j i) ∧
    Forall non_constant (take (characters config0) flat) ∧
    (∀ i, i < characters config0 → entry pearson_r i i = 1%R).
Proof.
  assert ((accumulate_correlations world0 config0 context0 0 "dg" ready0).2 = Ok tt)
    as H2 by (vm_compute; reflexivity).
  destruct (C4_correlation_matrix world0 config0 context0 0 "dg" ready0 _ tt
              (run_result _ _ H2))
    as (flat & pearson_r & acc & Hflat & Hm & Hacc & Hev & Hlen & Hrows & Hsym & Hdiag).
  assert (Forall non_constant (take (characters config0) flat)) as Hnc.
  { simpl in Hflat. injection Hflat as <-. simpl.
    repeat constructor.
    - exists 1%R, 2%R. repeat split; [left | right; left | lra].
    - exists 2%R, 1%R. repeat split; [left | right; left | lra]. }
  exists flat, pearson_r, acc.
  exact (conj Hflat (conj Hm (conj Hacc (conj Hev (conj Hlen (conj Hrows
           (conj Hsym (conj Hnc (Hdiag Hnc))))))))).
Defined.

Lemma C5_aggregated_means_witness :
  (1 ≤ early_response_step config0 < late_response_steps config0)%Z ∧
  NoDup (components config0) ∧
  "dg" ∈ components config0 ∧
  0 < total_trials world0 config0 ∧
  pearson_r_early (aggregate world0 config0 final0) !! "dg"
  = Some (elementwise_mean (characters config0)
            (tagged (early_response_step config0 - 1)%Z
               (matrices_of "dg" (trace final0)))) ∧
  pearson_r_late (aggregate world0 config0 final0) !! "dg"
  = Some (elementwise_mean (characters config0)
            (tagged (late_response_steps config0 - 1)%Z
               (matrices_of "dg" (trace final0)))) ∧
  length (tagged (early_response_step config0 - 1)%Z (matrices_of "dg" (trace final0)))
  = total_trials world0 config0 ∧
  length (tagged (late_response_steps config0 - 1)%Z (matrices_of "dg" (trace final0)))
  = total_trials world0 config0 ∧
  length (matrices_of "dg" (trace final0)) = 2 * total_trials world0 config0 ∧
  Forall (λ p, (p.1 = (early_response_step config0 - 1)%Z ∨
                p.1 = (late_response_steps config0 - 1)%Z) ∧
               (early_response_step config0 - 1)%Z ≠ (late_response_steps config0 - 1)%Z)
    (matrices_of "dg" (trace final0)) ∧
  (Forall (symmetric (characters config0)) (matrices_of "dg" (trace final0)).*2 →
   symmetric (characters config0)
     (elementwise_mean (characters config0)
        (tagged (early_response_step config0 - 1)%Z
           (matrices_of "dg" (trace final0)))) ∧
   symmetric (characters config0)
     (elementwise_mean (characters config0)
        (tagged (late_response_steps config0 - 1)%Z
           (matrices_of "dg" (trace final0))))).
Proof.
  assert (1 ≤ early_response_step config0 < late_response_steps config0)%Z as H1
    by (simpl; lia).
  assert (NoDup (components config0)) as H2
    by (apply (bool_decide_unpack _); vm_compute; exact I).
  assert ("dg" ∈ components config0) as H3 by (left).
  assert (0 < total_trials world0 config0) as H4 by (vm_compute; lia).
  assert ((experiment_loops world0 config0 (initial_state world0)).2 = Ok tt) as H5
    by (vm_compute; reflexivity).
  split; [exact H1 |]. split; [exact H2 |]. split; [exact H3 |]. split; [exact H4 |].
  exact (C5_aggregated_means world0 config0 "dg" _ tt H1 H2 H3 H4 (run_result _ _ H5)).
Defined.

Lemma C6_metrics_checked_after_study_witness :
  metrics_mismatch config_metrics = true ∧
  ∃ s2 evs,
    trial world0 config_metrics context0 0 ([(0, 1)], [(0, 1)])%Z ready0
    = (s2, Raise (AssertionError "Mismatch in metrics config")) ∧
    trace s2 = trace ready0 ++ evs ∧
    map erase evs
    = EvTrial 0 :: EvReset :: shape_study_loop config_metrics (grad_enabled ready0).
Proof.
  assert (metrics_mismatch config_metrics = true) as H1 by reflexivity.
  assert ((study_phase world0 config_metrics context0 0 ([(0, 1)], [(0, 1)])%Z
             ready0).2 = Ok tt) as H2 by (vm_compute; reflexivity).
  split; [exact H1 |].
  exact (C6_metrics_checked_after_study world0 config_metrics context0 0
           ([(0, 1)], [(0, 1)])%Z ready0 _ tt H1 (run_result _ _ H2)).
Defined.

Lemma C8_classification_witness :
  epoch_context world0 config0 generator0 = Ok context0 ∧
  rbind (dict_path features0 ["stm"; "memory"; "decoding"]) torch_flatten
  = Ok [[1; 0]; [0; 1]]%R ∧
  ∃ row,
    select_features world0 context0 features0 "recon_pair" ready0
    = (set_predictions world0 (predictions ready0 ++ [row])
         (set_flat world0 (Some [[1; 0]; [0; 1]]%R) ready0), Ok tt) ∧
    Forall2 (λ a label,
               ∃ i, first_argmax (map (cos world0 a) (main_pairs_flat context0)) i ∧
                    core_label_sequence generator0 !! i = Some label)
      [[1; 0]; [0; 1]]%R row ∧
    Forall2 (reference_pattern world0 config0) (core_label_sequence generator0)
      (main_pairs_flat context0).
Proof.
  assert (epoch_context world0 config0 generator0 = Ok context0) as H1 by reflexivity.
  assert (rbind (dict_path features0 ["stm"; "memory"; "decoding"]) torch_flatten
          = Ok [[1; 0]; [0; 1]]%R) as H2 by reflexivity.
  split; [exact H1 |]. split; [exact H2 |].
  exact (C8_classification world0 config0 generator0 context0 features0 _ ready0 H1 H2).
Defined.

Lemma C9_generators_per_seed_witness :
  ∃ evs,
    trace (seed_run world0 config0 0%Z ready0).1 = trace ready0 ++ evs ∧
    generators_of evs = [generators_built ready0; S (generators_built ready0)] ∧
    epochs_of evs
    = map (λ e, (e, generators_built ready0, S (generators_built ready0)))
        (range (train_epochs config0)) ∧
    take 2 (map erase evs)
    = [EvGenerator (generators_built ready0); EvGenerator (S (generators_built ready0))].
Proof.
  assert ((seed_run world0 config0 0%Z ready0).2 = Ok tt) as H2
    by (vm_compute; reflexivity).
  exact (C9_generators_per_seed world0 config0 0%Z ready0 _ tt (run_result _ _ H2)).
Defined.

Lemma C10_placeholder_excluded_witness :
  "pr" ∈ components config0 ∧
  pearson_r_tensor final0 !! "pr"
  = Some (zero_matrix config0 :: written_matrices world0 "pr" final0) ∧
  pearson_r_early (aggregate world0 config0 final0) !! "pr"
  = Some (torch_mean0 config0 (stride 2 0 (written_matrices world0 "pr" final0))) ∧
  pearson_r_late_test (aggregate world0 config0 final0) !! "pr"
  = Some (stride 2 1 (written_rows world0 "pr" final0)).
Proof.
  assert ("pr" ∈ components config0) as H1 by (right; left).
  pose proof (run_result _ _ run0_succeeds) as H2.
  destruct (C10_placeholder_excluded world0 config0 "pr" final0 tt H1 H2)
    as (Ht & _ & _ & _ & _ & He & _ & _ & Hl & _).
  repeat split; assumption.
Defined.

(** * Configurations on which the specification and the program differ *)

(** The component [dg] listed twice: every trial is probed once early and
    once late and the run has two trials, but every probe appends twice, so
    each slice of either accumulator of [dg] holds four entries, and the
    entries at the odd positions, which the early slice takes, were written
    in turn at an early and at a late probe. *)
Lemma C1_counterexample :
  (1 ≤ early_response_step config_twice < late_response_steps config_twice)%Z ∧
  "dg" ∈ components config_twice ∧
  (experiment_loops world0 config_twice (initial_state world0)).2 = Ok tt ∧
  total_trials world0 config_twice = 2 ∧
  (matrices_of "dg"
     (trace (experiment_loops world0 config_twice (initial_state world0)).1)).*1
  = [0; 0; 2; 2; 0; 0; 2; 2]%Z ∧
  (length ∘ early_slice) <$>
    (pearson_r_tensor (experiment_loops world0 config_twice (initial_state world0)).1
       !! "dg") = Some 4 ∧
  (length ∘ late_slice) <$>
    (pearson_r_tensor (experiment_loops world0 config_twice (initial_state world0)).1
       !! "dg") = Some 4 ∧
  (length ∘ early_slice) <$>
    (pearson_r_test (experiment_loops world0 config_twice (initial_state world0)).1
       !! "dg") = Some 4 ∧
  (length ∘ late_slice) <$>
    (pearson_r_test (experiment_loops world0 config_twice (initial_state world0)).1
       !! "dg") = Some 4.
Proof.
  split; [simpl; lia |]. split; [left |].
  repeat split; vm_compute; reflexivity.
Qed.

(** Early step 0 of 2 late steps: each of the two trials is probed once, at
    the late step 1, so no entry is written at an early probe; the slice that
    is averaged into the early matrix still has one entry, the one the late
    probe of the first trial wrote, and the late matrix is the other one. *)
Lemma C5_counterexample :
  (early_response_step config_early0 < late_response_steps config_early0)%Z ∧
  (experiment_loops world0 config_early0 (initial_state world0)).2 = Ok tt ∧
  (matrices_of "dg"
     (trace (experiment_loops world0 config_early0 (initial_state world0)).1)).*1
  = [(late_response_steps config_early0 - 1)%Z;
     (late_response_steps config_early0 - 1)%Z] ∧
  tagged (early_response_step config_early0 - 1)%Z
    (matrices_of "dg"
       (trace (experiment_loops world0 config_early0 (initial_state world0)).1))
  = [] ∧
  pearson_r_early
    (aggregate world0 config_early0
       (experiment_loops world0 config_early0 (initial_state world0)).1) !! "dg"
  = Some (torch_mean0 config_early0
            (take 1 (written_matrices world0 "dg"
                       (experiment_loops world0 config_early0
                          (initial_state world0)).1))) ∧
  pearson_r_late
    (aggregate world0 config_early0
       (experiment_loops world0 config_early0 (initial_state world0)).1) !! "dg"
  = Some (torch_mean0 config_early0
            (drop 1 (written_matrices world0 "dg"
                       (experiment_loops world0 config_early0
                          (initial_state world0)).1))).
Proof.
  split; [simpl; lia |].
  repeat split; vm_compute; reflexivity.
Qed.

(** Early step 0 of 2 late steps: the early step is below the late one, and
    the study loop probes once, at index 1. *)
Lemma C2_counterexample :
  (early_response_step config_early0 < late_response_steps config_early0)%Z ∧
  (study_loop world0 config_early0 context0 (tt, tt) ready0).2 = Ok tt ∧
  recall_calls
    (drop (length (trace ready0))
       (trace (study_loop world0 config_early0 context0 (tt, tt) ready0).1))
  = [(false, 1%Z)] ∧
  ¬ ∃ evs,
      trace (study_loop world0 config_early0 context0 (tt, tt) ready0).1
      = trace ready0 ++ evs ∧
      recall_calls evs
      = [(false, (early_response_step config_early0 - 1)%Z);
         (false, (late_response_steps config_early0 - 1)%Z)].
Proof.
  split; [simpl; lia |]. split; [vm_compute; reflexivity |].
  split; [vm_compute; reflexivity |].
  intros (evs & Ht & Hr).
  apply (f_equal (drop (length (trace ready0)))) in Ht.
  rewrite drop_app_length in Ht. rewrite <- Ht in Hr.
  vm_compute in Hr. discriminate Hr.
Qed.

(** With the early step after the late one nothing is raised and both trials
    run; with metrics lists of different lengths the assertion fails only
    after the first trial has studied, probed and accumulated. *)
Lemma C6_counterexample :
  (¬ (early_response_step config_late_first < late_response_steps config_late_first)%Z ∧
   (experiment_loops world0 config_late_first (initial_state world0)).2 = Ok tt ∧
   trials_of_trace
     (trace (experiment_loops world0 config_late_first (initial_state world0)).1)
   = [0; 1]) ∧
  (metrics_mismatch config_metrics = true ∧
   (main world0 config_metrics (initial_state world0)).2
   = Raise (AssertionError "Mismatch in metrics config") ∧
   map erase (trace (main world0 config_metrics (initial_state world0)).1)
   = [EvGenerator 0; EvGenerator 1; EvEpoch 0 0 1; EvTrial 0; EvReset;
      EvModel Study true 0; EvModel Recall false 0;
      EvMatrix "dg" 0 []; EvContrast "dg" 0 [];
      EvMatrix "pr" 0 []; EvContrast "pr" 0 [];
      EvModel Study true 1;
      EvModel Study true 2; EvModel Recall false 2;
      EvMatrix "dg" 2 []; EvContrast "dg" 2 [];
      EvMatrix "pr" 2 []; EvContrast "pr" 2 []]).
Proof.
  split.
  - split; [simpl; lia |]. split; vm_compute; reflexivity.
  - split; [reflexivity |]. split; vm_compute; reflexivity.
Qed.

(** Three epochs: two generator objects are constructed, not three, and the
    three epochs all read objects 0 and 1. *)
Lemma C9_counterexample :
  train_epochs config_three_epochs = 3%Z ∧
  (experiment_loops world0 config_three_epochs (initial_state world0)).2 = Ok tt ∧
  generators_of
    (trace (experiment_loops world0 config_three_epochs (initial_state world0)).1)
  = [0; 1] ∧
  epochs_of
    (trace (experiment_loops world0 config_three_epochs (initial_state world0)).1)
  = [(0%Z, 0, 1); (1%Z, 0, 1); (2%Z, 0, 1)].
Proof.
  repeat split; vm_compute; reflexivity.
Qed.

(** C7, at the failing input: with the components [dg] and [ltm] a run takes
    no exception and appends under [ltm], probe after probe, the matrices
    and contrast rows it computed from the features of [dg]; with [ltm] alone
    the first probe stops on the unbound [recall_outputs_flat]. *)
Theorem C7_unrecognized_component :
  recognized "ltm" = false ∧
  dict_path features0 ["stm"; "memory"; "ltm"] = Raise (KeyError "ltm") ∧
  (experiment_loops world0 config_ltm (initial_state world0)).2 = Ok tt ∧
  length (written_matrices world0 "ltm"
            (experiment_loops world0 config_ltm (initial_state world0)).1) = 4 ∧
  written_matrices world0 "ltm"
    (experiment_loops world0 config_ltm (initial_state world0)).1
  = written_matrices world0 "dg"
      (experiment_loops world0 config_ltm (initial_state world0)).1 ∧
  written_rows world0 "ltm"
    (experiment_loops world0 config_ltm (initial_state world0)).1
  = written_rows world0 "dg"
      (experiment_loops world0 config_ltm (initial_state world0)).1 ∧
  (experiment_loops world0 config_only_ltm (initial_state world0)).2
  = Raise (UnboundLocalError "recall_outputs_flat").
Proof.
  repeat split; vm_compute; reflexivity.
Qed.

(** * The further properties on the small worlds *)

Lemma accumulators_in_step_witness :
  "dg" ∈ components config0 ∧
  ∃ tensor test,
    pearson_r_tensor final0 !! "dg" = Some tensor ∧
    pearson_r_test final0 !! "dg" = Some test ∧
    length tensor = length test ∧
    (matrices_of "dg" (trace final0)).*1 = (contrasts_of "dg" (trace final0)).*1.
Proof.
  assert ("dg" ∈ components config0) as H1 by apply list_elem_of_here.
  split; [exact H1 |].
  exact (accumulators_in_step world0 config0 "dg" _ tt H1
           (run_result _ _ run0_succeeds)).
Defined.

Lemma single_probe_when_early_out_of_range_witness :
  (1 ≤ late_response_steps config_early0)%Z ∧
  (early_response_step config_early0 ≤ 0
   ∨ late_response_steps config_early0 ≤ early_response_step config_early0)%Z ∧
  ∃ evs,
    trace (study_loop world0 config_early0 context0 (tt, tt) ready0).1
    = trace ready0 ++ evs ∧
    recall_calls evs = [(false, (late_response_steps config_early0 - 1)%Z)].
Proof.
  assert (1 ≤ late_response_steps config_early0)%Z as H1 by (simpl; lia).
  assert (early_response_step config_early0 ≤ 0
          ∨ late_response_steps config_early0 ≤ early_response_step config_early0)%Z
    as H2 by (left; simpl; lia).
  assert ((study_loop world0 config_early0 context0 (tt, tt) ready0).2 = Ok tt) as H3
    by (vm_compute; reflexivity).
  split; [exact H1 |]. split; [exact H2 |].
  exact (single_probe_when_early_out_of_range world0 config_early0 context0 (tt, tt)
           ready0 _ tt H1 H2 (run_result _ _ H3)).
Defined.

Lemma autograd_discipline_witness :
  grad_enabled ready0 = true ∧
  ∃ evs,
    trace (study_loop world0 config0 context0 (tt, tt) ready0).1 = trace ready0 ++ evs ∧
    Forall lawful_call (model_calls evs) ∧
    studied (model_calls evs) = range (late_response_steps config0) ∧
    grad_enabled (study_loop world0 config0 context0 (tt, tt) ready0).1 = true.
Proof.
  assert (grad_enabled ready0 = true) as H1 by reflexivity.
  assert ((study_loop world0 config0 context0 (tt, tt) ready0).2 = Ok tt) as H2
    by (vm_compute; reflexivity).
  split; [exact H1 |].
  exact (autograd_discipline world0 config0 context0 (tt, tt) ready0 _ tt H1
           (run_result _ _ H2)).
Defined.

Lemma epoch_trials_witness :
  ∃ evs,
    trace (epoch world0 config0 (0, generator0) (1, generator0) 0 ready0).1
    = trace ready0 ++ evs ∧
    trials_of_trace evs
    = seq 0 (min (length (DataLoader world0 (sequence (0, generator0).2)))
                 (length (DataLoader world0 (sequence (1, generator0).2)))).
Proof.
  assert ((epoch world0 config0 (0, generator0) (1, generator0) 0 ready0).2 = Ok tt)
    as H1 by (vm_compute; reflexivity).
  exact (epoch_trials world0 config0 (0, generator0) (1, generator0) 0 ready0 _ tt
           (run_result _ _ H1)).
Defined.

Lemma no_epochs_unbound_stm_epoch_witness :
  (1 ≤ seeds config_no_epochs)%Z ∧
  (train_epochs config_no_epochs ≤ 0)%Z ∧
  ∃ s',
    experiment_loops world0 config_no_epochs (initial_state world0)
    = (s', Raise (UnboundLocalError "stm_epoch")) ∧
    trace s' = [EvGenerator 0; EvGenerator 1].
Proof.
  assert (1 ≤ seeds config_no_epochs)%Z as H1 by (simpl; lia).
  assert (train_epochs config_no_epochs ≤ 0)%Z as H2 by (simpl; lia).
  split; [exact H1 |]. split; [exact H2 |].
  exact (no_epochs_unbound_stm_epoch world0 config_no_epochs H1 H2).
Defined.

(** A state whose last probe fetched a single row. *)
Abbreviation short0 := (ready world0 config0 [[1; 2; 4]]%R 0).

Lemma too_few_rows_not_accumulated_witness :
  recall_outputs_flat short0 = Some [[1; 2; 4]]%R ∧
  length [[1; 2; 4]]%R < characters config0 ∧
  ∃ e, accumulate_correlations world0 config0 context0 0 "dg" short0
       = (set_flat world0 (Some (take (characters config0) [[1; 2; 4]]%R)) short0,
          Raise e).
Proof.
  assert (recall_outputs_flat short0 = Some [[1; 2; 4]]%R) as H1 by reflexivity.
  assert (length [[1; 2; 4]]%R < characters config0) as H2 by (simpl; lia).
  split; [exact H1 |]. split; [exact H2 |].
  exact (too_few_rows_not_accumulated world0 config0 context0 0 "dg" short0
           [[1; 2; 4]]%R H1 H2).
Defined.

Lemma accumulate_reads_own_features_witness :
  "dg" ∈ ["dg"; "pr"; "ec_ca3"; "ca3_ca1"; "ca1"] ∧
  match rbind (dict_path features0 (feature_path "dg")) torch_flatten with
  | Ok rows =>
      accumulate world0 config0 context0 0 features0 "dg" ready0
      = accumulate_correlations world0 config0 context0 0 "dg"
          (set_flat world0 (Some rows) ready0)
  | Raise e => accumulate world0 config0 context0 0 features0 "dg" ready0
               = (ready0, Raise e)
  end.
Proof.
  assert ("dg" ∈ ["dg"; "pr"; "ec_ca3"; "ca3_ca1"; "ca1"]) as H1
    by apply list_elem_of_here.
  split; [exact H1 |].
  exact (accumulate_reads_own_features world0 config0 context0 0 features0 "dg"
           ready0 H1).
Defined.

Lemma main_exports_then_name_error_witness :
  (∀ a, a ∈ components config0 → 2 ≤ length (written_rows world0 a final0)) ∧
  ∃ s' evs,
    main world0 config0 (initial_state world0)
    = (s', Raise (NameError match components config0 with
                            | [] => "BarPlotter"
                            | _ => "HeatmapPlotter"
                            end)) ∧
    trace s' = trace final0 ++ evs ∧
    map (λ f : string * list (list R), EvExport f.1 f.2) (exports_of evs) = evs ∧
    (exports_of evs).*1
    = concat (map (λ name, map (λ k, name +:+ k) (dict_keys (components config0)))
                ["pearson_early_test_"; "pearson_late_test_";
                 "pearson_early_"; "pearson_late_"]) ∧
    ∀ a, a ∈ components config0 →
      ∃ early_test late_test early late,
        pearson_r_early_test (aggregate world0 config0 final0) !! a = Some early_test ∧
        pearson_r_late_test (aggregate world0 config0 final0) !! a = Some late_test ∧
        pearson_r_early (aggregate world0 config0 final0) !! a = Some early ∧
        pearson_r_late (aggregate world0 config0 final0) !! a = Some late ∧
        ("pearson_early_test_" +:+ a, early_test) ∈ exports_of evs ∧
        ("pearson_late_test_" +:+ a, late_test) ∈ exports_of evs ∧
        ("pearson_early_" +:+ a, early) ∈ exports_of evs ∧
        ("pearson_late_" +:+ a, late) ∈ exports_of evs.
Proof.
  assert ((experiment_loops world0 config0 (initial_state world0)).2 = Ok tt) as H1
    by (vm_compute; reflexivity).
  assert (∀ a, a ∈ components config0 → 2 ≤ length (written_rows world0 a final0))
    as H2.
  { intros a Ha. apply elem_of_cons in Ha as [->|Ha]; [vm_compute; lia |].
    apply list_elem_of_singleton in Ha as ->. vm_compute. lia. }
  split; [exact H2 |].
  exact (main_exports_then_name_error world0 config0 _ tt (run_result _ _ H1) H2).
Defined.

Lemma convert_sequence_labels_witness :
  convert_sequence_to_images world0 (alphabet world0) [(0, 1); (1, 0)]%Z
    [(0, 1); (1, 0)]%Z both (Some (alphabet world0))
  = Ok ([(0, 1); (1, 0)]%Z, [0; 1]) ∧
  ([(0, 1); (1, 0)]%Z ≠ [] ∧
   length [(0, 1); (1, 0)]%Z = length [(0, 1); (1, 0)]%Z ∧
   Forall2 (λ (a : Z * Z) (i : nat),
              ∃ l1 l2,
                item_label world0 (alphabet world0) a.1 = Ok l1 ∧
                item_label world0 (alphabet world0) a.2 = Ok l2 ∧
                [(0, 1); (1, 0)]%Z !! i = Some (l1, l2) ∧
                ∀ j, j < i → [(0, 1); (1, 0)]%Z !! j ≠ Some (l1, l2))
           [(0, 1); (1, 0)]%Z [0; 1]).
Proof.
  assert (convert_sequence_to_images world0 (alphabet world0) [(0, 1); (1, 0)]%Z
            [(0, 1); (1, 0)]%Z both (Some (alphabet world0))
          = Ok ([(0, 1); (1, 0)]%Z, [0; 1])) as H1 by reflexivity.
  split; [exact H1 |].
  exact (convert_sequence_labels world0 (alphabet world0) [(0, 1); (1, 0)]%Z
           [(0, 1); (1, 0)]%Z both (Some (alphabet world0)) _ _ H1).
Defined.

Lemma convert_sequence_missing_label_witness :
  (∀ a, a ∈ [(0, 1)]%Z →
     ∃ x y z, alphabet_recall world0 a.1 = Ok x ∧ alphabet world0 a.1 = Ok y ∧
              alphabet world0 a.2 = Ok z) ∧
  (0, 1)%Z ∈ [(0, 1)]%Z ∧
  (∀ y z, alphabet world0 (0, 1)%Z.1 = Ok y → alphabet world0 (0, 1)%Z.2 = Ok z →
          (y.2, z.2) ∉ [(1, 0)]%Z) ∧
  convert_sequence_to_images world0 (alphabet world0) [(0, 1)]%Z [(1, 0)]%Z first
    (Some (alphabet_recall world0))
  = Raise ValueError.
Proof.
  assert (∀ a, a ∈ [(0, 1)]%Z →
            ∃ x y z, alphabet_recall world0 a.1 = Ok x ∧ alphabet world0 a.1 = Ok y ∧
                     alphabet world0 a.2 = Ok z) as H1.
  { intros a Ha. apply list_elem_of_singleton in Ha. subst a.
    eexists _, _, _. repeat split; reflexivity. }
  assert ((0, 1)%Z ∈ [(0, 1)]%Z) as H2 by apply list_elem_of_here.
  assert (∀ y z, alphabet world0 (0, 1)%Z.1 = Ok y → alphabet world0 (0, 1)%Z.2 = Ok z →
                 (y.2, z.2) ∉ [(1, 0)]%Z) as H3.
  { intros y z Hy Hz. injection Hy as <-. injection Hz as <-.
    intros Hin. apply list_elem_of_singleton in Hin. discriminate Hin. }
  split; [exact H1 |]. split; [exact H2 |]. split; [exact H3 |].
  exact (convert_sequence_missing_label world0 (alphabet world0)
           (alphabet_recall world0) [(0, 1)]%Z [(1, 0)]%Z first (0, 1)%Z H1 H2 H3).
Defined.

Lemma metrics_compared_by_prefix_witness :
  metrics config_compared = Some metrics0 ∧
  0 < metrics_count config_compared ∧
  ∃ prefixes,
    assoc "prefixes" metrics0 = Some prefixes ∧
    length prefixes = metrics_count config_compared ∧
    trace (recall_phase world0 config_compared ready0).1
    = trace ready0 ++ map EvCompare (prefixes ++ ["pr_rf_"]).
Proof.
  assert (metrics config_compared = Some metrics0) as H1 by reflexivity.
  assert (0 < metrics_count config_compared) as H2 by (vm_compute; lia).
  assert ((recall_phase world0 config_compared ready0).2 = Ok tt) as H3
    by (vm_compute; reflexivity).
  split; [exact H1 |]. split; [exact H2 |].
  exact (metrics_compared_by_prefix world0 config_compared metrics0 ready0 _ tt H1 H2
           (run_result _ _ H3)).
Defined.

Lemma create_bar_frame_witness :
  ["dg"] ≠ [] ∧
  ∃ (labels : list string) (tables : list (matrix * matrix)),
    bar_labels "runs/pairs_structure" = Some labels ∧
    length labels
    = 2 * (if contains "community_structure" "runs/pairs_structure" then 4 else 2) ∧
    length (create_bar_colors0) = length labels ∧
    Forall2 (λ a t,
               bar_load_predictions_pearson listing0 ("pearson_early_test_" +:+ a)
               = Ok t.1 ∧
               bar_load_predictions_pearson listing0 ("pearson_late_test_" +:+ a)
               = Ok t.2) ["dg"] tables ∧
    create_bar_frame0
    = concat (zip_with
                (λ a t,
                   bar_rows labels
                     (if contains "community_structure" "runs/pairs_structure"
                      then 4 else 2) 0 a t.1 ++
                   bar_rows labels
                     (if contains "community_structure" "runs/pairs_structure"
                      then 4 else 2)
                     (if contains "community_structure" "runs/pairs_structure"
                      then 4 else 2) a t.2)
                ["dg"] tables).
Proof.
  assert (["dg"] ≠ @nil string) as H1 by discriminate.
  assert (create_bar listing0 "runs/pairs_structure" ["dg"]
          = Ok (create_bar_frame0, create_bar_colors0)) as H2 by reflexivity.
  split; [exact H1 |].
  exact (create_bar_frame listing0 "runs/pairs_structure" ["dg"] _ _ H1 H2).
Defined.

Lemma oneshot_unequal_loaders_witness :
  length (study_loader cls_unequal) ≠ length (recall_loader cls_unequal) ∧
  ∃ s' e,
    oneshot_main cls_unequal oneshot_pretrain (oneshot_initial cls_unequal ∅)
    = (s', Raise e) ∧
    filter (λ ev, is_trial_event cls_unequal ev = true) (os_log cls_unequal s') = [] ∧
    (∀ path, pretrained_model_path oneshot_pretrain = Some path → path ≠ ""%string →
       s' = oneshot_initial cls_unequal ∅ ∧ e = AssertionError "") ∧
    ((1 ≤ pretrain_epochs oneshot_pretrain)%Z →
       e = AssertionError "" ∧
       ((pretrained_model_path oneshot_pretrain = None
         ∨ pretrained_model_path oneshot_pretrain = Some ""%string) →
        OsSave cls_unequal (model_file cls_unequal (pretrain_epochs oneshot_pretrain))
        ∈ os_log cls_unequal s')).
Proof.
  assert (length (study_loader cls_unequal) ≠ length (recall_loader cls_unequal))
    as H1 by (simpl; lia).
  split; [exact H1 |].
  exact (oneshot_unequal_loaders cls_unequal oneshot_pretrain ∅ H1).
Defined.

Lemma oneshot_no_pretrain_epochs_witness :
  (pretrained_model_path oneshot_no_epochs = None
   ∨ pretrained_model_path oneshot_no_epochs = Some ""%string) ∧
  (pretrain_epochs oneshot_no_epochs ≤ 0)%Z ∧
  oneshot_main cls0 oneshot_no_epochs (oneshot_initial cls0 ∅)
  = (oneshot_initial cls0 ∅, Raise (UnboundLocalError "epoch")).
Proof.
  assert (pretrained_model_path oneshot_no_epochs = None
          ∨ pretrained_model_path oneshot_no_epochs = Some ""%string) as H1
    by (left; reflexivity).
  assert (pretrain_epochs oneshot_no_epochs ≤ 0)%Z as H2 by (simpl; lia).
  split; [exact H1 |]. split; [exact H2 |].
  exact (oneshot_no_pretrain_epochs cls0 oneshot_no_epochs ∅ H1 H2).
Defined.

Lemma oneshot_trials_from_checkpoint_witness :
  pretrained_model_path oneshot_checkpoint = Some "model.pt"%string ∧
  "model.pt"%string ≠ ""%string ∧
  (<["model.pt"%string := 7]> ∅ : gmap string (Checkpoint cls0)) !! "model.pt"%string
  = Some 7 ∧
  length (study_loader cls0) = length (recall_loader cls0) ∧
  ∃ s',
    oneshot_main cls0 oneshot_checkpoint
      (oneshot_initial cls0 (<["model.pt"%string := 7]> ∅)) = (s', Ok tt) ∧
    os_files cls0 s' = <["model.pt"%string := 7]> ∅ ∧
    os_grad cls0 s' = true ∧
    os_log cls0 s'
    = concat (imap (λ idx _, trial_events cls0 oneshot_checkpoint "model.pt" 7 idx)
                (study_loader cls0)).
Proof.
  assert (pretrained_model_path oneshot_checkpoint = Some "model.pt"%string) as H1
    by reflexivity.
  assert ("model.pt"%string ≠ ""%string) as H2 by discriminate.
  assert ((<["model.pt"%string := 7]> ∅ : gmap string (Checkpoint cls0))
            !! "model.pt"%string = Some 7) as H3 by apply lookup_insert_eq.
  assert (length (study_loader cls0) = length (recall_loader cls0)) as H4
    by reflexivity.
  split; [exact H1 |]. split; [exact H2 |]. split; [exact H3 |]. split; [exact H4 |].
  exact (oneshot_trials_from_checkpoint cls0 oneshot_checkpoint _ "model.pt" 7
           H1 H2 H3 H4).
Defined.

Lemma oneshot_checkpoint_round_trip_witness :
  (pretrained_model_path oneshot_pretrain = None
   ∨ pretrained_model_path oneshot_pretrain = Some ""%string) ∧
  (1 ≤ pretrain_epochs oneshot_pretrain)%Z ∧
  length (study_loader cls0) = length (recall_loader cls0) ∧
  ∃ s',
    oneshot_main cls0 oneshot_pretrain (oneshot_initial cls0 ∅) = (s', Ok tt) ∧
    os_files cls0 s'
    = <[model_file cls0 (pretrain_epochs oneshot_pretrain)
        := state_dict cls0
             (pretrained cls0 (range_from 1 (pretrain_epochs oneshot_pretrain + 1)))]> ∅ ∧
    os_log cls0 s'
    = concat (map (λ epoch, imap (λ i _, OsPretrain cls0 epoch i true true)
                              (background_loader cls0 epoch))
                (range_from 1 (pretrain_epochs oneshot_pretrain + 1))) ++
      [OsSave cls0 (model_file cls0 (pretrain_epochs oneshot_pretrain))] ++
      concat (imap (λ idx _,
                      trial_events cls0 oneshot_pretrain
                        (model_file cls0 (pretrain_epochs oneshot_pretrain))
                        (state_dict cls0
                           (pretrained cls0
                              (range_from 1 (pretrain_epochs oneshot_pretrain + 1))))
                        idx)
                (study_loader cls0)).
Proof.
  assert (pretrained_model_path oneshot_pretrain = None
          ∨ pretrained_model_path oneshot_pretrain = Some ""%string) as H1
    by (left; reflexivity).
  assert (1 ≤ pretrain_epochs oneshot_pretrain)%Z as H2 by (simpl; lia).
  assert (length (study_loader cls0) = length (recall_loader cls0)) as H3
    by reflexivity.
  split; [exact H1 |]. split; [exact H2 |]. split; [exact H3 |].
  exact (oneshot_checkpoint_round_trip cls0 oneshot_pretrain ∅ H1 H2 H3).
Defined.

Lemma pair_inputs_of_seed_witness :
  let study :=
    DataLoader world0
      (sequence (make_generator world0 (experiment config0) (generators_built ready0))) in
  let recall :=
    DataLoader world0
      (sequence (make_generator world0 (experiment config0)
                   (S (generators_built ready0)))) in
  pairs_inputs world0 (seed_run world0 config0 0 ready0).1
  = concat (map (λ _, take (min (length study) (length recall)) study)
              (range (train_epochs config0))) ∧
  ∃ tr early late,
    trace (seed_run world0 config0 0 ready0).1
    = tr ++ [EvWrite "predictions_early" early;
             EvWrite "predictions_late" late;
             EvWrite "pair_inputs"
               (pairs_inputs world0 (seed_run world0 config0 0 ready0).1)].
Proof.
  assert ((seed_run world0 config0 0 ready0).2 = Ok tt) as H1
    by (vm_compute; reflexivity).
  exact (pair_inputs_of_seed world0 config0 0 ready0 _ tt (run_result _ _ H1)).
Defined.

Lemma pretraining_schedule_witness :
  (su_path pretrainer0 setup0 = None ∨ su_path pretrainer0 setup0 = Some ""%string) ∧
  su_grad pretrainer0 setup0 = true ∧
  ∃ s',
    setup_model pretrainer0 2 0 setup0 = Ok s' ∧
    su_grad pretrainer0 s' = true ∧
    su_log pretrainer0 s'
    = su_log pretrainer0 setup0 ++
      concat (map (epoch_schedule pretrainer0 0) (range_from 1 (2 + 1))).
Proof.
  assert (su_path pretrainer0 setup0 = None
          ∨ su_path pretrainer0 setup0 = Some ""%string) as H1 by (left; reflexivity).
  assert (su_grad pretrainer0 setup0 = true) as H2 by reflexivity.
  split; [exact H1 |]. split; [exact H2 |].
  exact (pretraining_schedule pretrainer0 2 0 setup0 H1 H2).
Defined.

Lemma pretraining_happens_once_witness :
  (su_path pretrainer0 setup0 = None ∨ su_path pretrainer0 setup0 = Some ""%string) ∧
  (1 ≤ 2)%Z ∧
  seed_summary_dir pretrainer0 0 ≠ ""%string ∧
  ∃ s1,
    setup_model pretrainer0 2 0 setup0 = Ok s1 ∧
    su_path pretrainer0 s1 = Some (seed_summary_dir pretrainer0 0) ∧
    ∀ k',
      setup_model pretrainer0 2 k' s1
      = rbind (load_latest_ltm pretrainer0 (seed_summary_dir pretrainer0 0)
                 (new_cls pretrainer0 k')) (λ model,
        Ok {| su_model := model; su_grad := su_grad pretrainer0 s1;
              su_path := Some (seed_summary_dir pretrainer0 0);
              su_log := su_log pretrainer0 s1
                        ++ [SuLoad (seed_summary_dir pretrainer0 0)] |}).
Proof.
  assert (su_path pretrainer0 setup0 = None
          ∨ su_path pretrainer0 setup0 = Some ""%string) as H1 by (left; reflexivity).
  assert (1 ≤ 2)%Z as H2 by lia.
  assert (seed_summary_dir pretrainer0 0 ≠ ""%string) as H3 by discriminate.
  split; [exact H1 |]. split; [exact H2 |]. split; [exact H3 |].
  exact (pretraining_happens_once pretrainer0 2 0 setup0 H1 H2 H3).
Defined.

Lemma main_without_probe_raises_witness :
  components config_no_seeds = "dg" :: ["pr"] ∧
  written_rows world0 "dg"
    (experiment_loops world0 config_no_seeds (initial_state world0)).1 = [] ∧
  main world0 config_no_seeds (initial_state world0)
  = ((experiment_loops world0 config_no_seeds (initial_state world0)).1,
     Raise ValueError).
Proof.
  assert (components config_no_seeds = "dg" :: ["pr"]) as H1 by reflexivity.
  assert ((experiment_loops world0 config_no_seeds (initial_state world0)).2 = Ok tt)
    as H2 by (vm_compute; reflexivity).
  assert (written_rows world0 "dg"
            (experiment_loops world0 config_no_seeds (initial_state world0)).1 = [])
    as H3 by (vm_compute; reflexivity).
  split; [exact H1 |]. split; [exact H3 |].
  exact (main_without_probe_raises world0 config_no_seeds _ tt "dg" ["pr"] H1
           (run_result _ _ H2) H3).
Defined.
